(** * Data Analysis Toolkit: a shallow embedding of [data_analysis_mcp.py]

    The seven tools of the toolkit ([import_file], [list_tables],
    [describe_table], [execute_sql], [generate_analysis_report],
    [export_query_result], [clean_database]) and the registry helper
    [get_or_create_db] are written as functions on an explicit process
    state ([World]).  Every library the program calls (pathlib, chardet,
    pandas, sqlite3, uuid, tempfile) is a field of the record [Env]; the
    program itself is translated statement by statement.

    Text that the program only passes on (paths, names, messages, SQL it
    builds) is a [string] of bytes, the UTF-8 form of the Python [str].
    The one text whose characters the program looks at, the query of
    [execute_sql], is the sequence of its code points: [strip] and
    [upper] are Python's, on Unicode.

    The database engine is that of connections with no other database
    attached: a statement reads and changes the tables of the file its
    connection is on, and of no other.  SQLite's [ATTACH], which the
    gate of [execute_sql] keeps out and [export_query_result] does not,
    is outside the model.  The properties of the registry and of the
    calls that reach the engine are stated without that assumption: they
    hold whatever a statement does inside the engine. *)

From Stdlib Require Import ZArith NArith List String Ascii Bool Lia.
From Stdlib Require Import Floats.PrimFloat.
From stdpp Require Import base option list gmap strings pretty.

Set Warnings "-inexact-float,-register-all".
Local Open Scope string_scope.
#[local] Arguments String.append : simpl nomatch.

(* ===================================================================== *)
(** ** Python text operations used by the program                         *)
(* ===================================================================== *)

Module Text.

(** *** Text the program looks into *)

(** A [str] as the sequence of its code points. *)
Definition ustr : Type := list N.

(** An ASCII literal of the program. *)
Definition of_ascii (s : string) : ustr := map N_of_ascii (list_ascii_of_string s).

(** [str.isspace] on one character, which is what [str.strip] removes:
    TAB, LF, VT, FF, CR, the separators U+001C..U+001F, the space, and
    the white space outside ASCII (U+0085, U+00A0, U+1680,
    U+2000..U+200A, U+2028, U+2029, U+202F, U+205F, U+3000). *)
Definition isspace (c : N) : bool :=
  ((9 <=? c) && (c <=? 13) || (28 <=? c) && (c <=? 32)
   || (c =? 133) || (c =? 160) || (c =? 5760)
   || (8192 <=? c) && (c <=? 8202)
   || (c =? 8232) || (c =? 8233) || (c =? 8239) || (c =? 8287) || (c =? 12288))%N.

Fixpoint lstrip (s : ustr) : ustr :=
  match s with
  | [] => []
  | c :: s' => if isspace c then lstrip s' else s
  end.

Fixpoint rstrip (s : ustr) : ustr :=
  match s with
  | [] => []
  | c :: s' =>
      match rstrip s' with
      | [] => if isspace c then [] else [c]
      | r => c :: r
      end
  end.

(** [s.strip()] *)
Definition strip (s : ustr) : ustr := rstrip (lstrip s).

(** [str.upper] on one character.  In ASCII the letters a..z go to A..Z
    and every other character to itself; outside ASCII the upper-case
    form is the one of the Unicode database, [other], which may be
    several characters and may be ASCII (U+017F gives S, U+0131 gives I,
    U+00DF gives SS). *)
Definition upper_char (other : N -> ustr) (c : N) : ustr :=
  if (c <? 128)%N
  then [if ((97 <=? c) && (c <=? 122))%N then (c - 32)%N else c]
  else other c.

(** [s.upper()]: character by character. *)
Definition upper (other : N -> ustr) (s : ustr) : ustr :=
  flat_map (upper_char other) s.

(** [s.startswith(p)] *)
Fixpoint startswith (s p : ustr) {struct p} : bool :=
  match p with
  | [] => true
  | a :: p' =>
      match s with
      | [] => false
      | b :: s' => (b =? a)%N && startswith s' p'
      end
  end.

(** [s.startswith((p1, p2, ...))] *)
Definition startswith_any (s : ustr) (ps : list ustr) : bool :=
  existsb (startswith s) ps.

(** [sub in s] *)
Fixpoint contains (s sub : ustr) : bool :=
  startswith s sub ||
  match s with
  | [] => false
  | _ :: s' => contains s' sub
  end.

(** The UTF-8 form of one character and of a text. *)
Definition byte (n : N) : ascii := ascii_of_N n.

Definition encode_char (c : N) : string :=
  if (c <? 128)%N then String (byte c) EmptyString
  else if (c <? 2048)%N then
    String (byte (192 + c / 64)) (String (byte (128 + c mod 64)) EmptyString)
  else if (c <? 65536)%N then
    String (byte (224 + c / 4096))
      (String (byte (128 + (c / 64) mod 64))
         (String (byte (128 + c mod 64)) EmptyString))
  else
    String (byte (240 + c / 262144))
      (String (byte (128 + (c / 4096) mod 64))
         (String (byte (128 + (c / 64) mod 64))
            (String (byte (128 + c mod 64)) EmptyString))).

Definition encode (s : ustr) : string :=
  fold_right (fun c rest => encode_char c +:+ rest) EmptyString s.

(** *** Text the program passes on *)

Definition is_lower (c : ascii) : bool :=
  let n := nat_of_ascii c in ((97 <=? n) && (n <=? 122))%nat.

Definition is_upper (c : ascii) : bool :=
  let n := nat_of_ascii c in ((65 <=? n) && (n <=? 90))%nat.

Definition lower_char (c : ascii) : ascii :=
  if is_upper c then ascii_of_nat (nat_of_ascii c + 32) else c.

Fixpoint map_chars (f : ascii -> ascii) (s : string) : string :=
  match s with
  | EmptyString => EmptyString
  | String c s' => String (f c) (map_chars f s')
  end.

(** [s.lower()] on a file suffix or a format name, which the program
    compares with ASCII literals. *)
Definition lower : string -> string := map_chars lower_char.

Fixpoint all_chars (f : ascii -> bool) (s : string) : bool :=
  match s with
  | EmptyString => true
  | String c s' => f c && all_chars f s'
  end.

(** The bytes [s] begin with the bytes [p]. *)
Fixpoint has_prefix (s p : string) {struct p} : bool :=
  match p with
  | EmptyString => true
  | String a p' =>
      match s with
      | EmptyString => false
      | String b s' => Ascii.eqb b a && has_prefix s' p'
      end
  end.

(** [s.replace(a, b)] for one-character [a] and [b], the only use the
    program makes of it. *)
Definition replace (s : string) (a b : ascii) : string :=
  map_chars (fun c => if Ascii.eqb c a then b else c) s.

(** [str(n)] / [f"{n}"] for an integer. *)
Definition str_of_int (n : Z) : string := pretty n.
Definition str_of_len (n : nat) : string := pretty n.

(** [os.path.join(a, b)] on a POSIX system. *)
Definition ends_with_slash (s : string) : bool :=
  match String.length s with
  | O => true
  | S k => match String.get k s with
           | Some c => Ascii.eqb c "/"%char
           | None => false
           end
  end.

Definition os_path_join (a b : string) : string :=
  if has_prefix b "/" then b
  else if ends_with_slash a then a +:+ b
  else a +:+ "/" +:+ b.

End Text.

(* ===================================================================== *)
(** ** Python values, exceptions and data frames                          *)
(* ===================================================================== *)

(** The values that travel through results, rows and cells. *)
Inductive pyval : Type :=
  | PNone
  | PBool (b : bool)
  | PInt (z : Z)
  | PFloat (f : float)
  | PStr (s : string)
  | PList (l : list pyval)
  | PDict (d : list (string * pyval)).

(** A [dict] keeps insertion order; assigning to a present key updates it
    in place. *)
Fixpoint dict_set {V : Type} (d : list (string * V)) (k : string) (v : V)
  : list (string * V) :=
  match d with
  | [] => [(k, v)]
  | (k', v') :: d' =>
      if String.eqb k' k then (k, v) :: d' else (k', v') :: dict_set d' k v
  end.

Fixpoint dict_get {V : Type} (d : list (string * V)) (k : string) : option V :=
  match d with
  | [] => None
  | (k', v) :: d' => if String.eqb k' k then Some v else dict_get d' k
  end.

(** [dict(pairs)]: later pairs win. *)
Definition dict_of_pairs {V : Type} (l : list (string * V)) : list (string * V) :=
  fold_left (fun d kv => dict_set d (fst kv) (snd kv)) l [].

(** Key lookup in a result. *)
Definition field (r : pyval) (k : string) : option pyval :=
  match r with
  | PDict d => dict_get d k
  | _ => None
  end.

(** Python truthiness, as used by [if x], [not x] and [x or y]. *)
Definition truthy (v : pyval) : bool :=
  match v with
  | PNone => false
  | PBool b => b
  | PInt z => negb (Z.eqb z 0)
  | PFloat f => negb (PrimFloat.eqb f 0%float)
  | PStr s => negb (String.eqb s "")
  | PList l => match l with [] => false | _ => true end
  | PDict d => match d with [] => false | _ => true end
  end.

(** An optional string argument ([Optional[str] = None]). *)
Definition truthy_str (o : option string) : bool :=
  match o with
  | Some s => negb (String.eqb s "")
  | None => false
  end.

Inductive exn_class : Type :=
  | UnicodeDecodeError
  | ValueError
  | TypeError
  | IndexError
  | OperationalError
  | OtherError.

(** An exception (every one here derives from [Exception]): its class and
    [str(e)]. *)
Record exn : Type := Exn { exn_cls : exn_class; exn_str : string }.

Definition is_UnicodeDecodeError (e : exn) : bool :=
  match exn_cls e with
  | UnicodeDecodeError => true
  | _ => false
  end.

Inductive dtype : Type := Int64 | Float64 | Boolean | Object | Datetime64.

Definition dtype_str (t : dtype) : string :=
  match t with
  | Int64 => "int64"
  | Float64 => "float64"
  | Boolean => "bool"
  | Object => "object"
  | Datetime64 => "datetime64[ns]"
  end.

(** [select_dtypes(include=['number'])] keeps the integer and float columns. *)
Definition is_number (t : dtype) : bool :=
  match t with
  | Int64 | Float64 => true
  | _ => false
  end.

Record Series : Type := {
  s_name : string;
  s_dtype : dtype;
  s_values : list pyval
}.

(** A data frame: its columns in order and [len(df)]. *)
Record DataFrame : Type := {
  df_columns : list Series;
  df_len : nat
}.

Definition column_names (df : DataFrame) : list string :=
  map s_name (df_columns df).

(** [df.select_dtypes(include=['number'])] *)
Definition select_number (df : DataFrame) : DataFrame :=
  {| df_columns := List.filter (fun s => is_number (s_dtype s)) (df_columns df);
     df_len := df_len df |}.

(** [pd.isnull] on a cell: [None] and NaN. *)
Definition isnull (v : pyval) : bool :=
  match v with
  | PNone => true
  | PFloat f => PrimFloat.is_nan f
  | _ => false
  end.

(** One entry of [df.isnull().sum()]. *)
Definition null_count (s : Series) : nat :=
  List.length (List.filter isnull (s_values s)).

(** [df.to_dict('records')] *)
Definition record_at (df : DataFrame) (i : nat) : pyval :=
  PDict (dict_of_pairs
           (map (fun s => (s_name s, nth i (s_values s) PNone)) (df_columns df))).

Definition to_dict_records (df : DataFrame) : pyval :=
  PList (map (record_at df) (seq 0 (df_len df))).

(** The tables of one SQLite database file, in catalog order. *)
Definition Catalog : Type := list (string * DataFrame).

Definition table_names (c : Catalog) : list string := map fst c.

Definition drop_table (name : string) (c : Catalog) : Catalog :=
  List.filter (fun p => negb (String.eqb (fst p) name)) c.

(** [df.to_sql(name, conn, if_exists='replace', index=False)]: the table of
    that name, if any, is dropped and the frame is stored as a new table. *)
Definition to_sql_replace (name : string) (df : DataFrame) (c : Catalog) : Catalog :=
  (drop_table name c ++ [(name, df)])%list.

(** Python's [str(v)] inside an f-string, for the scalar values a SQLite
    cell can hold; other values are formatted by the library. *)
Definition format_value (other : pyval -> string) (v : pyval) : string :=
  match v with
  | PStr s => s
  | PInt z => Text.str_of_int z
  | PNone => "None"
  | PBool true => "True"
  | PBool false => "False"
  | _ => other v
  end.

(* ===================================================================== *)
(** ** The libraries the program calls                                    *)
(* ===================================================================== *)

Record Env : Type := {
  (** [tempfile.gettempdir()] *)
  gettempdir : string;
  (** [uuid.uuid4().hex] of the n-th identifier the process draws *)
  uuid4_hex : nat -> string;
  (** [sqlite3.connect(path)] may fail *)
  connect_error : string -> option exn;
  (** [Path(p).exists()], [str(Path(p))], [.name], [.stem], [.suffix] *)
  path_exists : string -> bool;
  path_str : string -> string;
  path_name : string -> string;
  path_stem : string -> string;
  path_suffix : string -> string;
  (** [Path(p).parent.mkdir(parents=True, exist_ok=True)] may fail *)
  mkdir_error : string -> option exn;
  (** [chardet.detect(open(p, 'rb').read(10000))['encoding']], or the
      exception raised on the way *)
  chardet_encoding : string -> exn + option string;
  (** [pd.read_csv(p, sep=.., encoding=..)] *)
  read_csv : string -> string -> string -> exn + DataFrame;
  (** [pd.read_excel(p)] and [pd.read_excel(p, sheet_name=..)] *)
  read_excel : string -> option string -> exn + DataFrame;
  read_json : string -> exn + DataFrame;
  read_parquet : string -> exn + DataFrame;
  (** the upper-case form of a character outside ASCII, as [str.upper]
      takes it from the Unicode database *)
  unicode_upper : N -> list N;
  (** the failure, if any, of [df.to_sql(name, conn, if_exists='replace')] *)
  to_sql_error : string -> DataFrame -> option exn;
  (** the tables a failed [to_sql] leaves behind: the table it replaces
      is dropped, and created again, before the rows are inserted *)
  to_sql_leftover : string -> DataFrame -> list (string * DataFrame) -> list (string * DataFrame);
  (** [cursor.execute(sql)] followed by [fetchall()], on the tables of the
      connection's database file: the answer, and the tables afterwards *)
  sqlite_execute : string -> Catalog -> (exn + list (list pyval)) * Catalog;
  (** [pd.read_sql_query(sql, conn)], likewise; the statement need not be
      a query, and what it does to the tables is kept when it raises *)
  read_sql_query : string -> Catalog -> (exn + DataFrame) * Catalog;
  (** [f"{df.memory_usage(deep=True).sum() / 1024 / 1024:.2f}"] *)
  memory_usage_mb : DataFrame -> string;
  (** [df.describe().to_dict()] *)
  describe_to_dict : DataFrame -> pyval;
  (** [df.dtypes.value_counts().to_dict()] *)
  dtypes_value_counts : DataFrame -> pyval;
  (** [df.duplicated().sum()] *)
  duplicated_sum : DataFrame -> Z;
  (** [df[col].nunique()] *)
  nunique : DataFrame -> string -> Z;
  (** [df.corr().iloc[i, j]] *)
  corr_iloc : DataFrame -> nat -> nat -> float;
  (** [round(x, ndigits)] on a float *)
  round_float : float -> Z -> float;
  (** [str(v)] for floats and containers *)
  py_str : pyval -> string;
  (** the failure, if any, of [df.to_csv], [df.to_excel], [df.to_json] *)
  to_csv_error : string -> DataFrame -> option exn;
  to_excel_error : string -> DataFrame -> option exn;
  to_json_error : string -> DataFrame -> option exn
}.

(* ===================================================================== *)
(** ** Process state                                                      *)
(* ===================================================================== *)

(** A [sqlite3.Connection] object: its identity and the file it is on. *)
Record Conn : Type := { conn_id : nat; conn_path : string }.

(** One value of the global [_db_connections]. *)
Record DbEntry : Type := {
  connection : Conn;
  path : string;
  tables : gset string
}.

(** What the program asks of a connection, in order. *)
Inductive EngineCall : Type :=
  | Execute (sql : string)
  | ReadSqlQuery (sql : string)
  | ToSql (name : string) (df : DataFrame)
  | Commit.

Inductive FsCall : Type :=
  | Mkdir (p : string)
  | ToCsv (p : string) (df : DataFrame)
  | ToExcel (p : string) (df : DataFrame)
  | ToJson (p : string) (df : DataFrame).

Record World : Type := {
  (** the global [_db_connections] *)
  db_connections : gmap string DbEntry;
  (** the SQLite database files, by path *)
  databases : gmap string Catalog;
  (** connections opened and identifiers drawn so far *)
  next_conn : nat;
  uuids_drawn : nat;
  (** calls made on connections and on the file system *)
  engine_log : list (Conn * EngineCall);
  fs_log : list FsCall
}.

Definition set_db_connections (f : gmap string DbEntry -> gmap string DbEntry)
    (w : World) : World :=
  {| db_connections := f (db_connections w); databases := databases w;
     next_conn := next_conn w; uuids_drawn := uuids_drawn w;
     engine_log := engine_log w; fs_log := fs_log w |}.

Definition set_databases (f : gmap string Catalog -> gmap string Catalog)
    (w : World) : World :=
  {| db_connections := db_connections w; databases := f (databases w);
     next_conn := next_conn w; uuids_drawn := uuids_drawn w;
     engine_log := engine_log w; fs_log := fs_log w |}.

Definition log_engine (c : Conn) (call : EngineCall) (w : World) : World :=
  {| db_connections := db_connections w; databases := databases w;
     next_conn := next_conn w; uuids_drawn := uuids_drawn w;
     engine_log := (engine_log w ++ [(c, call)])%list; fs_log := fs_log w |}.

Definition log_fs (call : FsCall) (w : World) : World :=
  {| db_connections := db_connections w; databases := databases w;
     next_conn := next_conn w; uuids_drawn := uuids_drawn w;
     engine_log := engine_log w; fs_log := (fs_log w ++ [call])%list |}.

(** The tables seen through a connection. *)
Definition catalog_of (w : World) (c : Conn) : Catalog :=
  default [] (databases w !! conn_path c).

Definition set_catalog (c : Conn) (cat : Catalog) (w : World) : World :=
  set_databases (fun dbs => <[conn_path c := cat]> dbs) w.

(* ===================================================================== *)
(** ** Computations that may raise                                        *)
(* ===================================================================== *)

Definition M (A : Type) : Type := World -> (exn + A) * World.

Definition ret {A : Type} (a : A) : M A := fun w => (inr a, w).

Definition raise {A : Type} (e : exn) : M A := fun w => (inl e, w).

Definition bind {A B : Type} (m : M A) (k : A -> M B) : M B :=
  fun w =>
    match m w with
    | (inl e, w') => (inl e, w')
    | (inr a, w') => k a w'
    end.

Notation "'let*' x ':=' m 'in' k" := (bind m (fun x => k))
  (at level 10, x pattern, m at level 100, k at level 200).

(** A library call that returns or raises without touching the state. *)
Definition lift {A : Type} (r : exn + A) : M A := fun w => (r, w).

(** A library call that only may raise. *)
Definition check (o : option exn) : M unit :=
  match o with
  | Some e => raise e
  | None => ret tt
  end.

Definition get_world : M World := fun w => (inr w, w).

Definition modify (f : World -> World) : M unit := fun w => (inr tt, f w).

Fixpoint mapM {A B : Type} (f : A -> M B) (l : list A) : M (list B) :=
  match l with
  | [] => ret []
  | a :: l' =>
      let* b := f a in
      let* bs := mapM f l' in
      ret (b :: bs)
  end.

(** [for x in l: body] *)
Fixpoint forM_ {A : Type} (l : list A) (body : A -> M unit) : M unit :=
  match l with
  | [] => ret tt
  | a :: l' => let* _ := body a in forM_ l' body
  end.

(** [t[i]] on a tuple or list. *)
Definition getitem (t : list pyval) (i : nat) : M pyval :=
  match nth_error t i with
  | Some v => ret v
  | None => raise (Exn IndexError "tuple index out of range")
  end.

(** [cursor.fetchone()[0]] *)
Definition fetchone_first (rows : list (list pyval)) : M pyval :=
  match rows with
  | [] => raise (Exn TypeError "'NoneType' object is not subscriptable")
  | row :: _ => getitem row 0
  end.

(** [a, b, c = cursor.fetchone()] *)
Definition fetchone_unpack3 (rows : list (list pyval)) : M (pyval * pyval * pyval) :=
  match rows with
  | [] => raise (Exn TypeError "cannot unpack non-iterable NoneType object")
  | [a; b; c] :: _ => ret (a, b, c)
  | _ :: _ => raise (Exn ValueError "wrong number of values to unpack")
  end.

(** [{"status": "error", "message": msg}] *)
Definition error_result (msg : string) : pyval :=
  PDict [("status", PStr "error"); ("message", PStr msg)].

(** [try: body  except Exception as e: return {"status": "error",
    "message": f"<prefix>{str(e)}"}] *)
Definition run_tool (prefix : string) (body : M pyval) (w : World) : pyval * World :=
  match body w with
  | (inr v, w') => (v, w')
  | (inl e, w') => (error_result (prefix +:+ exn_str e), w')
  end.

(* ===================================================================== *)
(** ** The program                                                        *)
(* ===================================================================== *)

Definition TAB : string := String (ascii_of_nat 9) EmptyString.

(** [range(a, b)] *)
Definition range (a b : nat) : list nat := seq a (b - a).

(** [f"SELECT MIN({col}), MAX({col}), AVG({col}) FROM {table_name};"] *)
Definition stats_statement (col table_name : string) : string :=
  "SELECT MIN(" +:+ col +:+ "), MAX(" +:+ col +:+ "), AVG(" +:+ col
  +:+ ") FROM " +:+ table_name +:+ ";".

Section Program.

Context (E : Env).

(** *** Calls on a connection *)

Definition sqlite3_connect (db_path : string) : M Conn :=
  let* _ := check (connect_error E db_path) in
  fun w =>
    let conn := {| conn_id := next_conn w; conn_path := db_path |} in
    (inr conn,
     {| db_connections := db_connections w;
        databases := match databases w !! db_path with
                     | Some _ => databases w
                     | None => <[db_path := []]> (databases w)
                     end;
        next_conn := S (next_conn w); uuids_drawn := uuids_drawn w;
        engine_log := engine_log w; fs_log := fs_log w |}).

Definition uuid4 : M string :=
  fun w =>
    (inr (uuid4_hex E (uuids_drawn w)),
     {| db_connections := db_connections w; databases := databases w;
        next_conn := next_conn w; uuids_drawn := S (uuids_drawn w);
        engine_log := engine_log w; fs_log := fs_log w |}).

Definition cursor_execute (conn : Conn) (sql : string) : M (list (list pyval)) :=
  fun w =>
    let '(r, cat) := sqlite_execute E sql (catalog_of w conn) in
    (r, log_engine conn (Execute sql) (set_catalog conn cat w)).

Definition pd_read_sql_query (sql : string) (conn : Conn) : M DataFrame :=
  fun w =>
    let '(r, cat) := read_sql_query E sql (catalog_of w conn) in
    (r, log_engine conn (ReadSqlQuery sql) (set_catalog conn cat w)).

Definition df_to_sql (df : DataFrame) (name : string) (conn : Conn) : M unit :=
  fun w =>
    let w1 := log_engine conn (ToSql name df) w in
    match to_sql_error E name df with
    | Some e =>
        (inl e, set_catalog conn (to_sql_leftover E name df (catalog_of w conn)) w1)
    | None => (inr tt, set_catalog conn (to_sql_replace name df (catalog_of w conn)) w1)
    end.

Definition conn_commit (conn : Conn) : M unit :=
  modify (log_engine conn Commit).

(** *** [get_or_create_db] *)

Definition get_or_create_db (db_name : string) : M Conn :=
  let* w := get_world in
  let* _ :=
    match db_connections w !! db_name with
    | Some _ => ret tt
    | None =>
        let temp_dir := gettempdir E in
        let* hex := uuid4 in
        let db_path :=
          Text.os_path_join temp_dir
            ("data_analysis_" +:+ db_name +:+ "_" +:+ String.substring 0 8 hex +:+ ".db") in
        let* conn := sqlite3_connect db_path in
        modify (set_db_connections
                  (fun reg => <[db_name := {| connection := conn;
                                              path := db_path;
                                              tables := ∅ |}]> reg))
    end in
  let* w' := get_world in
  match db_connections w' !! db_name with
  | Some entry => ret (connection entry)
  | None => raise (Exn OtherError db_name)
  end.

(** *** [detect_file_encoding] *)

Definition detect_file_encoding (file_path : string) : string :=
  match chardet_encoding E file_path with
  | inr (Some enc) => if String.eqb enc "" then "utf-8" else enc
  | inr None => "utf-8"
  | inl _ => "utf-8"
  end.

(** *** [import_file] *)

(** [for enc in [...]: try: df = pd.read_csv(..); break  except: continue
    else: raise ValueError(..)] *)
Fixpoint csv_fallback (file_path : string) (encs : list string) : M DataFrame :=
  match encs with
  | [] => raise (Exn ValueError "无法确定文件编码")
  | enc :: rest =>
      match read_csv E file_path "," enc with
      | inr df => ret df
      | inl _ => csv_fallback file_path rest
      end
  end.

Definition fallback_encodings : list string :=
  ["utf-8"; "gbk"; "gb2312"; "latin-1"].

(** The dispatch on the extension: the loaded frame, or the result the
    tool returns at once for an unsupported extension. *)
Definition import_load (file_path file_ext : string)
    (sheet_name encoding : option string) : M (pyval + DataFrame) :=
  if String.eqb file_ext ".csv" then
    let enc := if truthy_str encoding then default "" encoding
               else detect_file_encoding file_path in
    match read_csv E file_path "," enc with
    | inr df => ret (inr df)
    | inl e =>
        if is_UnicodeDecodeError e then
          let* df := csv_fallback file_path fallback_encodings in
          ret (inr df)
        else raise e
    end
  else if String.eqb file_ext ".xlsx" || String.eqb file_ext ".xls" then
    let* df := lift (if truthy_str sheet_name
                     then read_excel E file_path sheet_name
                     else read_excel E file_path None) in
    ret (inr df)
  else if String.eqb file_ext ".json" then
    let* df := lift (read_json E file_path) in ret (inr df)
  else if String.eqb file_ext ".parquet" then
    let* df := lift (read_parquet E file_path) in ret (inr df)
  else if String.eqb file_ext ".tsv" then
    let enc := if truthy_str encoding then default "" encoding
               else detect_file_encoding file_path in
    let* df := lift (read_csv E file_path TAB enc) in
    ret (inr df)
  else
    ret (inl (error_result ("不支持的文件格式: " +:+ file_ext))).

(** [_db_connections[db_name]['tables'].add(table_name)] *)
Definition register_table (db_name table_name : string) : M unit :=
  let* w := get_world in
  match db_connections w !! db_name with
  | Some entry =>
      modify (set_db_connections
                (fun reg => <[db_name := {| connection := connection entry;
                                            path := path entry;
                                            tables := {[table_name]} ∪ tables entry |}]> reg))
  | None => raise (Exn OtherError db_name)
  end.

Definition import_statistics (df : DataFrame) : pyval :=
  PDict [("rows", PInt (Z.of_nat (df_len df)));
         ("columns", PInt (Z.of_nat (List.length (df_columns df))));
         ("column_names", PList (map PStr (column_names df)));
         ("column_types",
          PDict (dict_of_pairs
                   (map (fun s => (s_name s, PStr (dtype_str (s_dtype s))))
                        (df_columns df))))].

Definition import_file (file_path : string) (table_name : option string)
    (db_name : string) (sheet_name encoding : option string)
  : World -> pyval * World :=
  run_tool "导入文件时出错: "
    (if negb (path_exists E file_path) then
       ret (error_result ("文件不存在: " +:+ path_str E file_path))
     else
       let table_name :=
         if truthy_str table_name then default "" table_name
         else Text.replace (Text.replace (path_stem E file_path) " " "_") "-" "_" in
       let file_ext := Text.lower (path_suffix E file_path) in
       let* loaded := import_load file_path file_ext sheet_name encoding in
       match loaded with
       | inl early => ret early
       | inr df =>
           let* conn := get_or_create_db db_name in
           let* _ := df_to_sql df table_name conn in
           let* _ := register_table db_name table_name in
           let stats := import_statistics df in
           ret (PDict [("status", PStr "success");
                       ("message", PStr ("成功导入文件 " +:+ path_name E file_path));
                       ("database", PStr db_name);
                       ("table", PStr table_name);
                       ("statistics", stats)])
       end).

(** *** [list_tables] *)

Definition unknown_db (db_name : string) : pyval :=
  error_result ("数据库 " +:+ db_name +:+ " 不存在").

Definition master_query : string :=
  "SELECT name FROM sqlite_master WHERE type='table';".

Definition list_tables (db_name : string) : World -> pyval * World :=
  run_tool "列出表时出错: "
    (let* w := get_world in
     match db_connections w !! db_name with
     | None => ret (unknown_db db_name)
     | Some entry =>
         let conn := connection entry in
         let* rows := cursor_execute conn master_query in
         let* tables := mapM (fun row => getitem row 0) rows in
         ret (PDict [("status", PStr "success");
                     ("database", PStr db_name);
                     ("tables", PList tables)])
     end).

(** *** [describe_table] *)

(** [round(v, ndigits)] *)
Definition py_round (v : pyval) (ndigits : Z) : M pyval :=
  match v with
  | PFloat f => ret (PFloat (round_float E f ndigits))
  | PInt z => ret (PInt z)
  | PBool b => ret (PInt (if b then 1 else 0))
  | _ => raise (Exn TypeError "type doesn't define __round__ method")
  end.

(** [round(avg_val, 2) if avg_val else None] *)
Definition avg_field (avg_val : pyval) : M pyval :=
  if truthy avg_val then py_round avg_val 2 else ret PNone.

(** The loop over the numeric columns of the sample, filling
    [numeric_stats]. *)
Fixpoint numeric_stats_loop (conn : Conn) (table_name : string)
    (cols : list string) (numeric_stats : list (string * pyval))
  : M (list (string * pyval)) :=
  match cols with
  | [] => ret numeric_stats
  | col :: rest =>
      let* rows := cursor_execute conn (stats_statement col table_name) in
      let* unpacked := fetchone_unpack3 rows in
      let '(min_val, max_val, avg_val) := unpacked in
      let* avg := avg_field avg_val in
      numeric_stats_loop conn table_name rest
        (dict_set numeric_stats col
           (PDict [("min", min_val); ("max", max_val); ("avg", avg)]))
  end.

(** [{"name": col[1], "type": col[2]}] *)
Definition column_info (col : list pyval) : M pyval :=
  let* name := getitem col 1 in
  let* type := getitem col 2 in
  ret (PDict [("name", name); ("type", type)]).

Definition describe_table (table_name db_name : string) : World -> pyval * World :=
  run_tool "描述表时出错: "
    (let* w := get_world in
     match db_connections w !! db_name with
     | None => ret (unknown_db db_name)
     | Some entry =>
         let conn := connection entry in
         let* columns_info :=
           cursor_execute conn ("PRAGMA table_info(" +:+ table_name +:+ ");") in
         match columns_info with
         | [] => ret (error_result ("表 " +:+ table_name +:+ " 不存在"))
         | _ :: _ =>
             let* count_rows :=
               cursor_execute conn ("SELECT COUNT(*) FROM " +:+ table_name +:+ ";") in
             let* row_count := fetchone_first count_rows in
             let* df_sample :=
               pd_read_sql_query ("SELECT * FROM " +:+ table_name +:+ " LIMIT 5") conn in
             let* numeric_stats :=
               numeric_stats_loop conn table_name
                 (column_names (select_number df_sample)) [] in
             let* columns := mapM column_info columns_info in
             ret (PDict [("status", PStr "success");
                         ("database", PStr db_name);
                         ("table", PStr table_name);
                         ("row_count", row_count);
                         ("columns", PList columns);
                         ("sample_data", to_dict_records df_sample);
                         ("numeric_statistics", PDict numeric_stats)])
         end
     end).

(** *** [execute_sql] *)

Definition execute_sql (query : Text.ustr) (db_name : string) (limit : Z)
  : World -> pyval * World :=
  run_tool "执行SQL时出错: "
    (let* w := get_world in
     match db_connections w !! db_name with
     | None => ret (unknown_db db_name)
     | Some entry =>
         let conn := connection entry in
         let query := Text.strip query in
         if negb (Text.startswith_any (Text.upper (unicode_upper E) query)
                   [Text.of_ascii "SELECT"; Text.of_ascii "WITH"]) then
           ret (error_result "只支持SELECT和WITH查询语句")
         else
           let query :=
             if negb (Text.contains (Text.upper (unicode_upper E) query)
                        (Text.of_ascii "LIMIT"))
             then (query ++ Text.of_ascii (" LIMIT " +:+ Text.str_of_int limit))%list
             else query in
           let* df := pd_read_sql_query (Text.encode query) conn in
           ret (PDict [("status", PStr "success");
                       ("database", PStr db_name);
                       ("query", PStr (Text.encode query));
                       ("row_count", PInt (Z.of_nat (df_len df)));
                       ("columns", PList (map PStr (column_names df)));
                       ("data", to_dict_records df)])
     end).

(** *** [generate_analysis_report] *)

(** [df.isnull().sum()] *)
Definition isnull_sum (df : DataFrame) : list (string * nat) :=
  map (fun s => (s_name s, null_count s)) (df_columns df).

(** [missing_data[missing_data > 0].to_dict()] *)
Definition missing_to_dict (missing_data : list (string * nat)) : list (string * pyval) :=
  dict_of_pairs
    (map (fun p => (fst p, PInt (Z.of_nat (snd p))))
         (List.filter (fun p => (0 <? snd p)%nat) missing_data)).

(** The statements under [if analysis_type in ["basic", "statistical",
    "correlation"]]. *)
Definition basic_tier (df : DataFrame) (report : list (string * pyval))
  : list (string * pyval) :=
  let numeric_cols := select_number df in
  let report :=
    if (0 <? List.length (df_columns numeric_cols))%nat
    then dict_set report "numeric_summary" (describe_to_dict E numeric_cols)
    else report in
  let missing_data := isnull_sum df in
  let report :=
    if (0 <? list_sum (map snd missing_data))%nat
    then dict_set report "missing_values" (PDict (missing_to_dict missing_data))
    else report in
  dict_set report "data_types" (dtypes_value_counts E df).

(** [df[col]] is one column when one column of [df] bears the label
    [col]; when several do (the frame of a join), it is the frame of all
    of them. *)
Definition selects_one_column (df : DataFrame) (col : string) : bool :=
  (List.length (List.filter (String.eqb col) (column_names df)) =? 1)%nat.

(** What [if unique_count < len(df):] raises when [df[col]] is a frame:
    [nunique()] is then a [Series], and so is the comparison. *)
Definition ambiguous_truth_value : exn :=
  Exn ValueError
    "The truth value of a Series is ambiguous. Use a.empty, a.bool(), a.item(), a.any() or a.all().".

(** The loop filling [unique_counts], over the labels [cols] still to
    visit. *)
Fixpoint unique_counts_loop (df : DataFrame) (cols : list string)
    (unique_counts : list (string * pyval)) : exn + list (string * pyval) :=
  match cols with
  | [] => inr unique_counts
  | col :: cols' =>
      if selects_one_column df col then
        let unique_count := nunique E df col in
        unique_counts_loop df cols'
          (if (unique_count <? Z.of_nat (df_len df))%Z
           then dict_set unique_counts col (PInt unique_count)
           else unique_counts)
      else inl ambiguous_truth_value
  end.

(** The statements under [if analysis_type in ["statistical",
    "correlation"]]. *)
Definition statistical_tier (df : DataFrame) (report : list (string * pyval))
  : exn + list (string * pyval) :=
  let duplicates := duplicated_sum E df in
  let report :=
    if (0 <? duplicates)%Z
    then dict_set report "duplicate_rows" (PInt duplicates)
    else report in
  match unique_counts_loop df (column_names df) [] with
  | inl e => inl e
  | inr [] => inr report
  | inr ((_ :: _) as unique_counts) =>
      inr (dict_set report "unique_value_counts" (PDict unique_counts))
  end.

(** The two nested loops over the correlation matrix of [numeric_df],
    appending to [high_corr_pairs]. *)
Definition high_corr_inner (numeric_df : DataFrame) (n i : nat)
    (high_corr_pairs : list pyval) : list pyval :=
  fold_left
    (fun acc j =>
       let corr_val := corr_iloc E numeric_df i j in
       if PrimFloat.ltb 0.7%float (PrimFloat.abs corr_val) then
         (acc ++ [PDict [("column1", PStr (nth i (column_names numeric_df) ""));
                         ("column2", PStr (nth j (column_names numeric_df) ""));
                         ("correlation", PFloat (round_float E corr_val 3))]])%list
       else acc)
    (range (i + 1) n) high_corr_pairs.

Definition high_corr_loop (numeric_df : DataFrame) : list pyval :=
  let n := List.length (df_columns numeric_df) in
  fold_left (fun acc i => high_corr_inner numeric_df n i acc) (range 0 n) [].

(** The statements under [if analysis_type == "correlation"]. *)
Definition correlation_tier (df : DataFrame) (report : list (string * pyval))
  : list (string * pyval) :=
  let numeric_df := select_number df in
  if (1 <? List.length (df_columns numeric_df))%nat then
    match high_corr_loop numeric_df with
    | [] => report
    | (_ :: _) as high_corr_pairs =>
        dict_set report "high_correlations" (PList high_corr_pairs)
    end
  else report.

Definition in_list (s : string) (l : list string) : bool :=
  existsb (String.eqb s) l.

Definition build_report (table_name analysis_type : string) (df : DataFrame)
  : exn + list (string * pyval) :=
  let report :=
    [("table", PStr table_name);
     ("analysis_type", PStr analysis_type);
     ("basic_info",
      PDict [("rows", PInt (Z.of_nat (df_len df)));
             ("columns", PInt (Z.of_nat (List.length (df_columns df))));
             ("memory_usage", PStr (memory_usage_mb E df +:+ " MB"))])] in
  let report :=
    if in_list analysis_type ["basic"; "statistical"; "correlation"]
    then basic_tier df report else report in
  match
    if in_list analysis_type ["statistical"; "correlation"]
    then statistical_tier df report else inr report
  with
  | inl e => inl e
  | inr report =>
      inr (if String.eqb analysis_type "correlation"
           then correlation_tier df report else report)
  end.

Definition generate_analysis_report (table_name db_name analysis_type : string)
  : World -> pyval * World :=
  run_tool "生成分析报告时出错: "
    (let* w := get_world in
     match db_connections w !! db_name with
     | None => ret (unknown_db db_name)
     | Some entry =>
         let conn := connection entry in
         let* df := pd_read_sql_query ("SELECT * FROM " +:+ table_name) conn in
         let* report := lift (build_report table_name analysis_type df) in
         ret (PDict [("status", PStr "success");
                     ("database", PStr db_name);
                     ("report", PDict report)])
     end).

(** *** [export_query_result] *)

Definition path_parent_mkdir (output_path : string) : M unit :=
  let* _ := modify (log_fs (Mkdir output_path)) in
  check (mkdir_error E output_path).

Definition write_file (call : FsCall) (err : option exn) : M unit :=
  let* _ := modify (log_fs call) in
  check err.

Definition export_query_result (query output_path db_name format : string)
  : World -> pyval * World :=
  run_tool "导出数据时出错: "
    (let* w := get_world in
     match db_connections w !! db_name with
     | None => ret (unknown_db db_name)
     | Some entry =>
         let conn := connection entry in
         let* df := pd_read_sql_query query conn in
         let* _ := path_parent_mkdir output_path in
         let* written :=
           if String.eqb (Text.lower format) "csv" then
             let* _ := write_file (ToCsv output_path df) (to_csv_error E output_path df) in
             ret true
           else if String.eqb (Text.lower format) "excel" then
             let* _ := write_file (ToExcel output_path df) (to_excel_error E output_path df) in
             ret true
           else if String.eqb (Text.lower format) "json" then
             let* _ := write_file (ToJson output_path df) (to_json_error E output_path df) in
             ret true
           else ret false in
         if written : bool then
           ret (PDict [("status", PStr "success");
                       ("message",
                        PStr ("成功导出 " +:+ Text.str_of_len (df_len df)
                              +:+ " 行数据到 " +:+ path_str E output_path));
                       ("output_path", PStr (path_str E output_path));
                       ("format", PStr format);
                       ("row_count", PInt (Z.of_nat (df_len df)))])
         else
           ret (error_result ("不支持的输出格式: " +:+ format))
     end).

(** *** [clean_database] *)

(** [_db_connections[db_name]['tables'].clear()] *)
Definition clear_tables (db_name : string) : M unit :=
  let* w := get_world in
  match db_connections w !! db_name with
  | Some entry =>
      modify (set_db_connections
                (fun reg => <[db_name := {| connection := connection entry;
                                            path := path entry;
                                            tables := ∅ |}]> reg))
  | None => raise (Exn OtherError db_name)
  end.

Definition drop_statement (table : pyval) : string :=
  "DROP TABLE IF EXISTS " +:+ format_value (py_str E) table +:+ ";".

Definition clean_database (db_name : string) : World -> pyval * World :=
  run_tool "清理数据库时出错: "
    (let* w := get_world in
     match db_connections w !! db_name with
     | None => ret (unknown_db db_name)
     | Some entry =>
         let conn := connection entry in
         let* rows := cursor_execute conn master_query in
         let* tables := mapM (fun row => getitem row 0) rows in
         let* _ := forM_ tables
                     (fun table =>
                        let* _ := cursor_execute conn (drop_statement table) in
                        ret tt) in
         let* _ := conn_commit conn in
         let* _ := clear_tables db_name in
         ret (PDict [("status", PStr "success");
                     ("message",
                      PStr ("成功清理数据库 " +:+ db_name +:+ "，删除了 "
                            +:+ Text.str_of_len (List.length tables) +:+ " 个表"));
                     ("deleted_tables", PList tables)])
     end).

End Program.

(* ===================================================================== *)
(** ** A small concrete environment                                       *)
(* ===================================================================== *)

(** A fixed file system of four files and an engine that understands the
    statements the tools build themselves.  The frames hold values with
    at most two decimals, which rounding leaves alone. *)
Module Demo.

Definition strip_prefix (p s : string) : option string :=
  if Text.has_prefix s p
  then Some (String.substring (String.length p) (String.length s - String.length p) s)
  else None.

Definition strip_suffix (p s : string) : option string :=
  let k := (String.length s - String.length p)%nat in
  if (String.length p <=? String.length s)%nat
     && String.eqb (String.substring k (String.length p) s) p
  then Some (String.substring 0 k s)
  else None.

Definition is_digit (c : ascii) : bool :=
  let n := nat_of_ascii c in ((48 <=? n) && (n <=? 57))%nat.

Definition ident_start (c : ascii) : bool :=
  Text.is_lower c || Text.is_upper c || Ascii.eqb c "_"%char.

(** Text that SQLite reads as one unquoted name: a letter or underscore,
    then letters, digits and underscores (its reserved words, which it
    refuses as well, are left out of this check). *)
Definition bare_identifier (s : string) : bool :=
  match s with
  | EmptyString => false
  | String c s' => ident_start c && Text.all_chars (fun d => ident_start d || is_digit d) s'
  end.

Definition head_frame (k : nat) (df : DataFrame) : DataFrame :=
  {| df_columns :=
       map (fun s => {| s_name := s_name s; s_dtype := s_dtype s;
                        s_values := firstn k (s_values s) |})
           (df_columns df);
     df_len := Nat.min k (df_len df) |}.

Definition syntax_error (sql : string) : exn :=
  Exn OperationalError ("near " +:+ sql +:+ ": syntax error").

Definition lookup_table (name : string) (cat : Catalog) : option DataFrame :=
  dict_get cat name.

(** [cursor.execute]: the catalog query, [DROP TABLE IF EXISTS name;]
    for an unquoted name, and the scripted answers [script]. *)
Definition execute (script : list (string * list (list pyval)))
    (sql : string) (cat : Catalog) : (exn + list (list pyval)) * Catalog :=
  if String.eqb sql master_query then
    (inr (map (fun n => [PStr n]) (table_names cat)), cat)
  else
    match strip_prefix "DROP TABLE IF EXISTS " sql with
    | Some rest =>
        match strip_suffix ";" rest with
        | Some name =>
            if bare_identifier name then (inr [], drop_table name cat)
            else (inl (syntax_error name), cat)
        | None => (inl (syntax_error sql), cat)
        end
    | None =>
        match dict_get script sql with
        | Some rows => (inr rows, cat)
        | None => (inl (syntax_error sql), cat)
        end
    end.

(** The position of the first occurrence of [sub] in [s]. *)
Fixpoint find_sub (sub s : string) : option nat :=
  if Text.has_prefix s sub then Some 0%nat
  else match s with
       | EmptyString => None
       | String _ s' => option_map S (find_sub sub s')
       end.

Fixpoint parse_digits (s : string) (acc : Z) : option Z :=
  match s with
  | EmptyString => Some acc
  | String c s' =>
      if is_digit c
      then parse_digits s' (10 * acc + Z.of_nat (nat_of_ascii c - 48))%Z
      else None
  end.

(** A decimal integer with an optional minus sign. *)
Definition parse_int (s : string) : option Z :=
  match s with
  | EmptyString => None
  | String c s' =>
      if Ascii.eqb c "-"%char then
        match s' with
        | EmptyString => None
        | _ => option_map Z.opp (parse_digits s' 0)
        end
      else parse_digits s 0
  end.

(** The statement without its comment: as in SQLite, [--] opens a
    comment that runs to the end of the line. *)
Definition without_comment (sql : string) : string :=
  match find_sub " --" sql with
  | Some i => String.substring 0 i sql
  | None => sql
  end.

(** [pd.read_sql_query]: [SELECT * FROM name] with an optional
    [LIMIT k] and an optional comment; as in SQLite, a negative [k] puts
    no bound on the rows. *)
Definition select_all (sql : string) (cat : Catalog) : (exn + DataFrame) * Catalog :=
  match strip_prefix "SELECT * FROM " (without_comment sql) with
  | Some rest =>
      let name :=
        match find_sub " LIMIT " rest with
        | Some i => String.substring 0 i rest
        | None => rest
        end in
      let limit :=
        match find_sub " LIMIT " rest with
        | Some i => option_map Some
                      (parse_int (String.substring (i + 7) (String.length rest - (i + 7)) rest))
        | None => Some None
        end in
      if bare_identifier name then
        match lookup_table name cat, limit with
        | Some df, Some (Some k) =>
            if (k <? 0)%Z then (inr df, cat) else (inr (head_frame (Z.to_nat k) df), cat)
        | Some df, Some None => (inr df, cat)
        | Some df, None => (inl (syntax_error sql), cat)
        | None, _ => (inl (Exn OperationalError ("no such table: " +:+ name)), cat)
        end
      else (inl (syntax_error name), cat)
  | None => (inl (syntax_error sql), cat)
  end.

(** The table of the demo files: three rows of prices, discounts,
    balances (zero on average) and regions with one missing value. *)
Definition sales : DataFrame :=
  {| df_columns :=
       [ {| s_name := "price"; s_dtype := Float64;
            s_values := [PFloat 1.5%float; PFloat 2.5%float; PFloat 4%float] |};
         {| s_name := "discount"; s_dtype := Float64;
            s_values := [PFloat 0.5%float; PFloat 1%float; PFloat 2%float] |};
         {| s_name := "balance"; s_dtype := Int64;
            s_values := [PInt 3; PInt (-3); PInt 0] |};
         {| s_name := "region"; s_dtype := Object;
            s_values := [PStr "north"; PNone; PStr "south"] |} ];
     df_len := 3 |}.

Definition decode_error (enc : string) : exn :=
  Exn UnicodeDecodeError ("'" +:+ enc +:+ "' codec can't decode byte 0xc4 in position 0").

(** [sales.csv] and [2024_sales.csv] are plain ASCII; [legacy.csv] and
    [legacy.tsv] hold the same table encoded in GBK, which the detector
    takes for ASCII. *)
Definition files : list string :=
  ["sales.csv"; "2024_sales.csv"; "legacy.csv"; "legacy.tsv"].

Definition is_legacy (p : string) : bool :=
  String.eqb p "legacy.csv" || String.eqb p "legacy.tsv".

Definition demo_read_csv (p sep enc : string) : exn + DataFrame :=
  if negb (in_list p files) then inl (Exn OtherError "No such file or directory")
  else if is_legacy p then
    if in_list enc ["gbk"; "gb2312"; "latin-1"] then inr sales
    else inl (decode_error enc)
  else inr sales.

Definition stem_of (p : string) : string :=
  match strip_suffix ".csv" p, strip_suffix ".tsv" p with
  | Some s, _ => s
  | None, Some s => s
  | None, None => p
  end.

Definition suffix_of (p : string) : string :=
  match strip_suffix ".csv" p, strip_suffix ".tsv" p with
  | Some _, _ => ".csv"
  | None, Some _ => ".tsv"
  | None, None => ""
  end.

(** The correlation matrix of the three numeric columns of [sales]. *)
Definition demo_corr (i j : nat) : float :=
  match i, j with
  | 0, 1 | 1, 0 => 0.98%float
  | 0, 2 | 2, 0 => (-0.7)%float
  | 1, 2 | 2, 1 => (-0.65)%float
  | _, _ => 1%float
  end.

(** The characters outside ASCII whose upper-case form holds an ASCII
    character (Unicode 14), with that form.  The upper-case form of any
    other character outside ASCII holds no ASCII character; it is left
    as it is here. *)
Definition upper_table : list (N * list N) :=
  [ (223, [83; 83]); (305, [73]); (329, [700; 78]); (383, [83]);
    (496, [74; 780]); (7830, [72; 817]); (7831, [84; 776]);
    (7832, [87; 778]); (7833, [89; 778]); (7834, [65; 702]);
    (64256, [70; 70]); (64257, [70; 73]); (64258, [70; 76]);
    (64259, [70; 70; 73]); (64260, [70; 70; 76]);
    (64261, [83; 84]); (64262, [83; 84]) ]%N.

Definition demo_upper (c : N) : list N :=
  match List.find (fun p => (fst p =? c)%N) upper_table with
  | Some p => snd p
  | None => [c]
  end.

Definition stats_script : list (string * list (list pyval)) :=
  [ ("PRAGMA table_info(sales);",
     [ [PInt 0; PStr "price"; PStr "REAL"; PInt 0; PNone; PInt 0];
       [PInt 1; PStr "discount"; PStr "REAL"; PInt 0; PNone; PInt 0];
       [PInt 2; PStr "balance"; PStr "INTEGER"; PInt 0; PNone; PInt 0];
       [PInt 3; PStr "region"; PStr "TEXT"; PInt 0; PNone; PInt 0] ]);
    ("SELECT COUNT(*) FROM sales;", [[PInt 3]]);
    ("SELECT MIN(price), MAX(price), AVG(price) FROM sales;",
     [[PFloat 1.5%float; PFloat 4%float; PFloat 2.67%float]]);
    ("SELECT MIN(discount), MAX(discount), AVG(discount) FROM sales;",
     [[PFloat 0.5%float; PFloat 2%float; PFloat 1.17%float]]);
    ("SELECT MIN(balance), MAX(balance), AVG(balance) FROM sales;",
     [[PInt (-3); PInt 3; PFloat 0%float]]) ].

Definition env : Env :=
  {| gettempdir := "/tmp";
     uuid4_hex := fun n => pretty n +:+ "c0ffee0ddba11c0ffee0ddba11c0ffee";
     connect_error := fun _ => None;
     path_exists := fun p => in_list p files;
     path_str := fun p => p;
     path_name := fun p => p;
     path_stem := stem_of;
     path_suffix := suffix_of;
     mkdir_error := fun _ => None;
     chardet_encoding := fun p =>
       if in_list p files then inr (Some "ascii")
       else inl (Exn OtherError "No such file or directory");
     read_csv := demo_read_csv;
     read_excel := fun _ _ => inl (Exn OtherError "No such file or directory");
     read_json := fun _ => inl (Exn OtherError "No such file or directory");
     read_parquet := fun _ => inl (Exn OtherError "No such file or directory");
     unicode_upper := demo_upper;
     to_sql_error := fun _ _ => None;
     to_sql_leftover := fun name df cat => to_sql_replace name (head_frame 0 df) cat;
     sqlite_execute := execute stats_script;
     read_sql_query := select_all;
     memory_usage_mb := fun _ => "0.00";
     describe_to_dict := fun _ => PDict [];
     dtypes_value_counts := fun _ => PDict [];
     duplicated_sum := fun _ => 0%Z;
     nunique := fun df _ => Z.of_nat (df_len df);
     corr_iloc := fun _ => demo_corr;
     round_float := fun f _ => f;
     py_str := fun _ => "";
     to_csv_error := fun _ _ => None;
     to_excel_error := fun _ _ => None;
     to_json_error := fun _ _ => None |}.

(** A process that has just started. *)
Definition start : World :=
  {| db_connections := ∅; databases := ∅; next_conn := 0; uuids_drawn := 0;
     engine_log := []; fs_log := [] |}.

(** After [import_file("sales.csv")]. *)
Definition with_sales : World :=
  snd (import_file env "sales.csv" None "default" None None start).

(** After [import_file("2024_sales.csv")]. *)
Definition with_2024_sales : World :=
  snd (import_file env "2024_sales.csv" None "default" None None start).

(** The registry entry of the store "default" once [2024_sales.csv] was
    imported. *)
Definition sales_2024_entry : DbEntry :=
  {| connection := {| conn_id := 0; conn_path := "/tmp/data_analysis_default_0c0ffee0.db" |};
     path := "/tmp/data_analysis_default_0c0ffee0.db";
     tables := {["2024_sales"]} |}.

(** The connection and the registry entry of the store "default" once
    [sales.csv] was imported. *)
Definition default_conn : Conn :=
  {| conn_id := 0; conn_path := "/tmp/data_analysis_default_0c0ffee0.db" |}.

Definition sales_entry : DbEntry :=
  {| connection := default_conn;
     path := "/tmp/data_analysis_default_0c0ffee0.db";
     tables := {["sales"]} |}.

End Demo.

(* ===================================================================== *)
(** ** Vocabulary of the specification                                    *)
(* ===================================================================== *)

Module Spec.

(** The white-space characters of Unicode 14: those of ASCII, NEL, the
    no-break space, the Ogham space mark, the spaces U+2000..U+200A, the
    line and paragraph separators, the narrow no-break space, the medium
    mathematical space and the ideographic space. *)
Definition whitespace_characters : list N :=
  [9; 10; 11; 12; 13; 28; 29; 30; 31; 32; 133; 160; 5760;
   8192; 8193; 8194; 8195; 8196; 8197; 8198; 8199; 8200; 8201; 8202;
   8232; 8233; 8239; 8287; 12288]%N.

Definition whitespace (c : N) : Prop := In c whitespace_characters.

(** [t] is the trimmed text of [q]: [q] is [t] between two runs of
    white space, and [t] neither begins nor ends with white space. *)
Definition trimmed_of (q t : Text.ustr) : Prop :=
  exists l r : Text.ustr,
    q = (l ++ t ++ r)%list /\
    Forall whitespace l /\ Forall whitespace r /\
    (forall c : N, head t = Some c -> ~ whitespace c) /\
    (forall c : N, last t = Some c -> ~ whitespace c).

(** The upper-case form of one character: a small ASCII letter gives its
    capital, any other ASCII character itself, and a character outside
    ASCII what the Unicode database says. *)
Inductive upper_case (E : Env) : N -> Text.ustr -> Prop :=
  | upper_small (c : N) : (97 <= c <= 122)%N -> upper_case E c [(c - 32)%N]
  | upper_plain (c : N) :
      (c < 128)%N -> ~ (97 <= c <= 122)%N -> upper_case E c [c]
  | upper_beyond (c : N) : (128 <= c)%N -> upper_case E c (unicode_upper E c).

(** The upper-case form of a text, character by character. *)
Inductive upper_of (E : Env) : Text.ustr -> Text.ustr -> Prop :=
  | upper_nil : upper_of E [] []
  | upper_cons (c : N) (t u v : Text.ustr) :
      upper_case E c u -> upper_of E t v -> upper_of E (c :: t) (u ++ v)%list.

(** The keywords, as code points. *)
Definition SELECT : Text.ustr := [83; 69; 76; 69; 67; 84]%N.
Definition WITH : Text.ustr := [87; 73; 84; 72]%N.
Definition LIMIT : Text.ustr := [76; 73; 77; 73; 84]%N.

(** [t] begins, case-insensitively, with the keyword [kw], an upper-case
    word: the upper-case form of [t] begins with [kw]. *)
Definition begins_ci (E : Env) (t kw : Text.ustr) : Prop :=
  exists u rest : Text.ustr, upper_of E t u /\ u = (kw ++ rest)%list.

(** [kw] occurs, case-insensitively, somewhere in [t]. *)
Definition occurs_ci (E : Env) (t kw : Text.ustr) : Prop :=
  exists u a b : Text.ustr, upper_of E t u /\ u = (a ++ kw ++ b)%list.

Definition begins_select_or_with (E : Env) (t : Text.ustr) : Prop :=
  begins_ci E t SELECT \/ begins_ci E t WITH.

(** A result object: a status of success, or a status of error with a
    message. *)
Definition structured (r : pyval) : Prop :=
  field r "status" = Some (PStr "success") \/
  (field r "status" = Some (PStr "error") /\
   exists msg : string, field r "message" = Some (PStr msg)).

Definition is_success (r : pyval) : Prop :=
  field r "status" = Some (PStr "success").

Definition is_error (r : pyval) : Prop :=
  field r "status" = Some (PStr "error") /\
  exists msg : string, field r "message" = Some (PStr msg).

(** The analysis tiers. *)
Definition is_tier (analysis_type : string) : Prop :=
  analysis_type = "basic" \/ analysis_type = "statistical" \/
  analysis_type = "correlation".

End Spec.

(* ===================================================================== *)
(** ** Derived notions used in the statements                             *)
(* ===================================================================== *)

(** The success payload of [execute_sql]. *)
Definition query_result (db_name sql : string) (df : DataFrame) : pyval :=
  PDict [("status", PStr "success");
         ("database", PStr db_name);
         ("query", PStr sql);
         ("row_count", PInt (Z.of_nat (df_len df)));
         ("columns", PList (map PStr (column_names df)));
         ("data", to_dict_records df)].

(** The text [execute_sql] makes of a query that passes the gate; the
    engine receives its bytes. *)
Definition effective_query (E : Env) (query : Text.ustr) (limit : Z) : Text.ustr :=
  if negb (Text.contains (Text.upper (unicode_upper E) (Text.strip query))
             (Text.of_ascii "LIMIT"))
  then (Text.strip query ++ Text.of_ascii (" LIMIT " +:+ Text.str_of_int limit))%list
  else Text.strip query.

(** Every value [m] returns satisfies [P]. *)
Definition returns {A : Type} (m : M A) (P : A -> Prop) : Prop :=
  forall (w : World) (a : A) (w' : World), m w = (inr a, w') -> P a.

(** The path [get_or_create_db] builds for a new store: the temporary
    directory, the store name and the first eight hex digits of the next
    identifier. *)
Definition db_path_for (E : Env) (db_name : string) (w : World) : string :=
  Text.os_path_join (gettempdir E)
    ("data_analysis_" +:+ db_name +:+ "_"
     +:+ String.substring 0 8 (uuid4_hex E (uuids_drawn w)) +:+ ".db").

(** The state after a new store was registered. *)
Definition with_new_store (E : Env) (db_name : string) (w : World) : World :=
  let db_path := db_path_for E db_name w in
  {| db_connections :=
       <[db_name := {| connection := {| conn_id := next_conn w; conn_path := db_path |};
                       path := db_path;
                       tables := ∅ |}]> (db_connections w);
     databases := match databases w !! db_path with
                  | Some _ => databases w
                  | None => <[db_path := []]> (databases w)
                  end;
     next_conn := S (next_conn w);
     uuids_drawn := S (uuids_drawn w);
     engine_log := engine_log w;
     fs_log := fs_log w |}.

(** The table name [import_file] settles on. *)
Definition resolve_table_name (E : Env) (file_path : string) (table_name : option string)
  : string :=
  if truthy_str table_name then default "" table_name
  else Text.replace (Text.replace (path_stem E file_path) " " "_") "-" "_".

(** The encoding [import_file] first tries on a delimited text file. *)
Definition chosen_encoding (E : Env) (file_path : string) (encoding : option string)
  : string :=
  if truthy_str encoding then default "" encoding
  else detect_file_encoding E file_path.

(** The success payload of [import_file]. *)
Definition import_success (E : Env) (file_path db_name table_name : string)
    (df : DataFrame) : pyval :=
  PDict [("status", PStr "success");
         ("message", PStr ("成功导入文件 " +:+ path_name E file_path));
         ("database", PStr db_name);
         ("table", PStr table_name);
         ("statistics", import_statistics df)].

(** The state after [df.to_sql] stored a frame, and after the table name
    was added to the bookkeeping set. *)
Definition stored (conn : Conn) (name : string) (df : DataFrame) (w : World) : World :=
  set_catalog conn (to_sql_replace name df (catalog_of w conn))
    (log_engine conn (ToSql name df) w).

Definition registered (db_name name : string) (entry : DbEntry) (w : World) : World :=
  set_db_connections
    (fun reg => <[db_name := {| connection := connection entry;
                                path := path entry;
                                tables := {[name]} ∪ tables entry |}]> reg) w.

(** All index pairs [(i, j)] with [i < j < n], in the order the two loops
    of the correlation tier visit them. *)
Definition all_pairs (n : nat) : list (nat * nat) :=
  flat_map (fun i => map (pair i) (range (i + 1) n)) (range 0 n).

(** The absolute correlation of the columns [i] and [j] is above 0.7. *)
Definition exceeds (E : Env) (numeric_df : DataFrame) (p : nat * nat) : bool :=
  PrimFloat.ltb 0.7%float (PrimFloat.abs (corr_iloc E numeric_df (fst p) (snd p))).

(** The entry the report is to hold for the pair [p] of columns: their
    two names and their correlation rounded to 3 decimal places. *)
Definition pair_entry (E : Env) (numeric_df : DataFrame) (p : nat * nat) : pyval :=
  PDict
    [("column1", PStr (nth (fst p) (column_names numeric_df) ""));
     ("column2", PStr (nth (snd p) (column_names numeric_df) ""));
     ("correlation",
      PFloat (round_float E (corr_iloc E numeric_df (fst p) (snd p)) 3))].

(** The frame the engine hands to [generate_analysis_report]. *)
Definition report_frame (E : Env) (w : World) (table_name db_name : string)
    (df : DataFrame) : Prop :=
  exists (entry : DbEntry) (cat : Catalog),
    db_connections w !! db_name = Some entry /\
    read_sql_query E ("SELECT * FROM " +:+ table_name) (catalog_of w (connection entry))
      = (inr df, cat).








(** The engine answers the catalog query with the names of the tables. *)
Definition lists_tables (E : Env) : Prop :=
  forall cat : Catalog,
    sqlite_execute E master_query cat
      = (inr (map (fun n => [PStr n]) (table_names cat)), cat).

(** The engine reads the unquoted text [n] in [DROP TABLE IF EXISTS n;] as
    the table name [n], and drops that table. *)
Definition drops_unquoted (E : Env) (n : string) : Prop :=
  forall cat : Catalog,
    sqlite_execute E (drop_statement E (PStr n)) cat = (inr [], drop_table n cat).

(** The state after the drop statements for [names] ran on [conn]. *)
Definition dropping (E : Env) (conn : Conn) (names : list string) (w : World) : World :=
  fold_left
    (fun w n =>
       log_engine conn (Execute (drop_statement E (PStr n)))
         (set_catalog conn (drop_table n (catalog_of w conn)) w))
    names w.

Definition drop_all (names : list string) (c : Catalog) : Catalog :=
  fold_left (fun c n => drop_table n c) names c.

(** One step of the process: a call of a tool, or of [get_or_create_db]. *)
Inductive tool_step (E : Env) : World -> World -> Prop :=
  | step_import (file_path : string) (table_name : option string) (db_name : string)
      (sheet_name encoding : option string) (w : World) :
      tool_step E w (snd (import_file E file_path table_name db_name sheet_name encoding w))
  | step_list (db_name : string) (w : World) :
      tool_step E w (snd (list_tables E db_name w))
  | step_describe (table_name db_name : string) (w : World) :
      tool_step E w (snd (describe_table E table_name db_name w))
  | step_execute (query : Text.ustr) (db_name : string) (limit : Z) (w : World) :
      tool_step E w (snd (execute_sql E query db_name limit w))
  | step_report (table_name db_name analysis_type : string) (w : World) :
      tool_step E w (snd (generate_analysis_report E table_name db_name analysis_type w))
  | step_export (query output_path db_name format : string) (w : World) :
      tool_step E w (snd (export_query_result E query output_path db_name format w))
  | step_clean (db_name : string) (w : World) :
      tool_step E w (snd (clean_database E db_name w))
  | step_get_or_create (db_name : string) (w : World) :
      tool_step E w (snd (get_or_create_db E db_name w)).

(** Every store registered in [w] is registered in [w'] with the same
    connection and path. *)
Definition same_connections (w w' : World) : Prop :=
  forall (n : string) (e : DbEntry),
    db_connections w !! n = Some e ->
    exists e' : DbEntry,
      db_connections w' !! n = Some e' /\
      connection e' = connection e /\ path e' = path e.

(** A computation that keeps the registered connections. *)
Definition keeps {A : Type} (m : M A) : Prop :=
  forall (w : World) (r : exn + A) (w' : World), m w = (r, w') -> same_connections w w'.


(* ===================================================================== *)
(** ** The stand-alone loader: [load_file_to_dataframe]                   *)
(* ===================================================================== *)

Section Loader.

Context (E : Env).

(** [load_file_to_dataframe]: the loader without the options of
    [import_file].  It raises where the tool returns an error result; its
    [FileNotFoundError] is an exception of class [OtherError] here, no
    handler of the program tells it apart. *)
Definition load_file_to_dataframe (file_path : string) : M DataFrame :=
  if negb (path_exists E file_path) then
    raise (Exn OtherError ("文件不存在: " +:+ path_str E file_path))
  else
    let file_ext := Text.lower (path_suffix E file_path) in
    if String.eqb file_ext ".csv" then
      let encoding := detect_file_encoding E file_path in
      match read_csv E file_path "," encoding with
      | inr df => ret df
      | inl e =>
          if is_UnicodeDecodeError e
          then csv_fallback E file_path ["utf-8"; "gbk"; "gb2312"; "latin-1"]
          else raise e
      end
    else if String.eqb file_ext ".xlsx" || String.eqb file_ext ".xls" then
      lift (read_excel E file_path None)
    else if String.eqb file_ext ".json" then
      lift (read_json E file_path)
    else if String.eqb file_ext ".parquet" then
      lift (read_parquet E file_path)
    else if String.eqb file_ext ".tsv" then
      let encoding := detect_file_encoding E file_path in
      lift (read_csv E file_path TAB encoding)
    else
      raise (Exn ValueError ("不支持的文件格式: " +:+ file_ext)).

End Loader.

(* ===================================================================== *)
(** ** Further notions used in the statements                             *)
(* ===================================================================== *)

(** Every registry entry and every database of [w] is found unchanged in
    [w']. *)
Definition data_preserved (w w' : World) : Prop :=
  (forall (n : string) (e : DbEntry),
      db_connections w !! n = Some e -> db_connections w' !! n = Some e) /\
  (forall (p : string) (c : Catalog),
      databases w !! p = Some c -> databases w' !! p = Some c).

(** Every registry entry of [w] is found unchanged in [w'], and so is
    every database file other than [p]. *)
Definition preserved_outside (p : string) (w w' : World) : Prop :=
  (forall (n : string) (e : DbEntry),
      db_connections w !! n = Some e -> db_connections w' !! n = Some e) /\
  (forall (q : string) (c : Catalog),
      q <> p -> databases w !! q = Some c -> databases w' !! q = Some c).

(** The write of [import_file] failed on the connection [conn]: [df.to_sql]
    raised, and the tables of the connection's file are what the failed
    write left of them. *)
Definition write_failed (E : Env) (name : string) (conn : Conn) (w w' : World) : Prop :=
  exists (df : DataFrame) (e : exn),
    to_sql_error E name df = Some e /\
    catalog_of w' conn = to_sql_leftover E name df (catalog_of w conn).

(** The characters of a text. *)
Definition chars (s : string) : list ascii := list_ascii_of_string s.

(** An environment that differs from [E] in [pd.read_csv] only. *)
Definition with_read_csv (E : Env)
    (f : string -> string -> string -> exn + DataFrame) : Env :=
  {| gettempdir := gettempdir E;
     uuid4_hex := uuid4_hex E;
     connect_error := connect_error E;
     path_exists := path_exists E;
     path_str := path_str E;
     path_name := path_name E;
     path_stem := path_stem E;
     path_suffix := path_suffix E;
     mkdir_error := mkdir_error E;
     chardet_encoding := chardet_encoding E;
     read_csv := f;
     read_excel := read_excel E;
     read_json := read_json E;
     read_parquet := read_parquet E;
     unicode_upper := unicode_upper E;
     to_sql_error := to_sql_error E;
     to_sql_leftover := to_sql_leftover E;
     sqlite_execute := sqlite_execute E;
     read_sql_query := read_sql_query E;
     memory_usage_mb := memory_usage_mb E;
     describe_to_dict := describe_to_dict E;
     dtypes_value_counts := dtypes_value_counts E;
     duplicated_sum := duplicated_sum E;
     nunique := nunique E;
     corr_iloc := corr_iloc E;
     round_float := round_float E;
     py_str := py_str E;
     to_csv_error := to_csv_error E;
     to_excel_error := to_excel_error E;
     to_json_error := to_json_error E |}.

(** The demo environment with a reader that knows no encoding "klingon". *)
Definition strict_env : Env :=
  with_read_csv Demo.env
    (fun p sep enc =>
       if String.eqb enc "klingon"
       then inl (Exn OtherError "unknown encoding: klingon")
       else Demo.demo_read_csv p sep enc).

(** [pd.read_csv] fails on the file under the encoding [enc]. *)
Definition csv_unreadable_as (E : Env) (file_path enc : string) : Prop :=
  exists e : exn, read_csv E file_path "," enc = inl e.

(** A computation whose every run relates the state before to the state
    after by [R]. *)
Definition respects {A : Type} (R : World -> World -> Prop) (m : M A) : Prop :=
  forall (w : World) (r : exn + A) (w' : World), m w = (r, w') -> R w w'.

(** The path of the store [db_name] made with the [k]-th identifier. *)
Definition store_path (E : Env) (db_name : string) (k : nat) : string :=
  Text.os_path_join (gettempdir E)
    ("data_analysis_" +:+ db_name +:+ "_"
     +:+ String.substring 0 8 (uuid4_hex E k) +:+ ".db").

(** A registry entry as [get_or_create_db] makes them: the connection is
    on the recorded path, and the path is a store path of the name. *)
Definition store_path_ok (E : Env) (db_name : string) (e : DbEntry) : Prop :=
  conn_path (connection e) = path e /\
  exists k : nat, path e = store_path E db_name k.

Definition registry_ok (E : Env) (w : World) : Prop :=
  forall (n : string) (e : DbEntry),
    db_connections w !! n = Some e -> store_path_ok E n e.

(** Identifiers have at least eight hex digits (a uuid has 32). *)
Definition hex_ok (E : Env) : Prop :=
  forall k : nat, 8 <= String.length (uuid4_hex E k).

(** The engine was called, between [w] and [w'], on connections that
    satisfy [allowed] and on no other. *)
Definition engine_only (allowed : Conn -> Prop) (w w' : World) : Prop :=
  exists calls : list (Conn * EngineCall),
    engine_log w' = (engine_log w ++ calls)%list /\
    Forall (fun c => allowed (fst c)) calls.

(** Between [w] and [w'] the registry is the same, no connection was
    opened, no identifier drawn, and the engine was called on the
    connection [conn] only.  What the engine did to the database files
    on those calls is not part of this. *)
Definition quiet_outside (conn : Conn) (w w' : World) : Prop :=
  db_connections w' = db_connections w /\
  next_conn w' = next_conn w /\
  uuids_drawn w' = uuids_drawn w /\
  engine_only (eq conn) w w'.

(** The same, and nothing was asked of the file system. *)
Definition confined_to (conn : Conn) (w w' : World) : Prop :=
  quiet_outside conn w w' /\ fs_log w' = fs_log w.

(** A call of one of the seven tools on the store [db_name]. *)
Inductive tool_call (E : Env) (db_name : string) : World -> World -> Prop :=
  | call_import (file_path : string) (table_name sheet_name encoding : option string)
      (w : World) :
      tool_call E db_name w
        (snd (import_file E file_path table_name db_name sheet_name encoding w))
  | call_list (w : World) :
      tool_call E db_name w (snd (list_tables E db_name w))
  | call_describe (table_name : string) (w : World) :
      tool_call E db_name w (snd (describe_table E table_name db_name w))
  | call_execute (query : Text.ustr) (limit : Z) (w : World) :
      tool_call E db_name w (snd (execute_sql E query db_name limit w))
  | call_report (table_name analysis_type : string) (w : World) :
      tool_call E db_name w
        (snd (generate_analysis_report E table_name db_name analysis_type w))
  | call_export (query output_path format : string) (w : World) :
      tool_call E db_name w
        (snd (export_query_result E query output_path db_name format w))
  | call_clean (w : World) :
      tool_call E db_name w (snd (clean_database E db_name w)).

(** A step that keeps the registry well formed. *)
Definition keeps_registry_ok (E : Env) (w w' : World) : Prop :=
  registry_ok E w -> registry_ok E w'.

(** A step that, from a well-formed registry holding the entry [e] for
    the store [db_name], leaves the registry well formed and that entry
    as it was, and calls the engine on no connection to the store's
    database file. *)
Definition leaves_store (E : Env) (db_name : string) (e : DbEntry) (w w' : World) : Prop :=
  registry_ok E w -> db_connections w !! db_name = Some e ->
  registry_ok E w' /\
  db_connections w' !! db_name = Some e /\
  engine_only (fun conn => conn_path conn <> conn_path (connection e)) w w'.

(** The demo process after [sales.csv] was imported into the stores
    "default" and "archive". *)
Definition two_stores : World :=
  snd (import_file Demo.env "sales.csv" None "archive" None None Demo.with_sales).

Definition archive_entry : DbEntry :=
  {| connection := {| conn_id := 1; conn_path := "/tmp/data_analysis_archive_1c0ffee0.db" |};
     path := "/tmp/data_analysis_archive_1c0ffee0.db";
     tables := {["sales"]} |}.

(** The success value of [list_tables]. *)
Definition tables_result (db_name : string) (names : list string) : pyval :=
  PDict [("status", PStr "success");
         ("database", PStr db_name);
         ("tables", PList (map PStr names))].

(** The success value of [clean_database]. *)
Definition cleaned_result (db_name : string) (names : list string) : pyval :=
  PDict [("status", PStr "success");
         ("message",
          PStr ("成功清理数据库 " +:+ db_name +:+ "，删除了 "
                +:+ Text.str_of_len (List.length names) +:+ " 个表"));
         ("deleted_tables", PList (map PStr names))].

(** The engine rejects the drop statement built for [n], with [e], and
    changes nothing. *)
Definition drop_rejected (E : Env) (n : string) (e : exn) : Prop :=
  forall cat : Catalog,
    sqlite_execute E (drop_statement E (PStr n)) cat = (inl e, cat).

(** The demo process after [sales.csv] and [2024_sales.csv] were imported
    into the store "default". *)
Definition both_sales : World :=
  snd (import_file Demo.env "2024_sales.csv" None "default" None None Demo.with_sales).

Definition both_sales_entry : DbEntry :=
  {| connection := Demo.default_conn;
     path := "/tmp/data_analysis_default_0c0ffee0.db";
     tables := {["2024_sales"]} ∪ {["sales"]} |}.


(** [E] with another engine behind [cursor.execute]. *)
Definition with_sqlite_execute (E : Env)
    (f : string -> Catalog -> (exn + list (list pyval)) * Catalog) : Env :=
  {| gettempdir := gettempdir E;
     uuid4_hex := uuid4_hex E;
     connect_error := connect_error E;
     path_exists := path_exists E;
     path_str := path_str E;
     path_name := path_name E;
     path_stem := path_stem E;
     path_suffix := path_suffix E;
     mkdir_error := mkdir_error E;
     chardet_encoding := chardet_encoding E;
     read_csv := read_csv E;
     read_excel := read_excel E;
     read_json := read_json E;
     read_parquet := read_parquet E;
     unicode_upper := unicode_upper E;
     to_sql_error := to_sql_error E;
     to_sql_leftover := to_sql_leftover E;
     sqlite_execute := f;
     read_sql_query := read_sql_query E;
     memory_usage_mb := memory_usage_mb E;
     describe_to_dict := describe_to_dict E;
     dtypes_value_counts := dtypes_value_counts E;
     duplicated_sum := duplicated_sum E;
     nunique := nunique E;
     corr_iloc := corr_iloc E;
     round_float := round_float E;
     py_str := py_str E;
     to_csv_error := to_csv_error E;
     to_excel_error := to_excel_error E;
     to_json_error := to_json_error E |}.

(** The demo environment with an engine that, as SQLite does, lists no
    column for a table that is not there. *)
Definition pragma_env : Env :=
  with_sqlite_execute Demo.env
    (fun sql cat =>
       if String.eqb sql "PRAGMA table_info(orders);" then (inr [], cat)
       else Demo.execute Demo.stats_script sql cat).

(** The part of a report that is there whatever the analysis type. *)
Definition report_header (E : Env) (table_name analysis_type : string) (df : DataFrame)
  : list (string * pyval) :=
  [("table", PStr table_name);
   ("analysis_type", PStr analysis_type);
   ("basic_info",
    PDict [("rows", PInt (Z.of_nat (df_len df)));
           ("columns", PInt (Z.of_nat (List.length (df_columns df))));
           ("memory_usage", PStr (memory_usage_mb E df +:+ " MB"))])].

(** The writer [export_query_result] picks for a format, with the
    outcome of the write: the format is compared in lower case with
    "csv", "excel" and "json". *)
Definition export_writer (E : Env) (format output_path : string) (df : DataFrame)
  : option (FsCall * option exn) :=
  if String.eqb (Text.lower format) "csv" then
    Some (ToCsv output_path df, to_csv_error E output_path df)
  else if String.eqb (Text.lower format) "excel" then
    Some (ToExcel output_path df, to_excel_error E output_path df)
  else if String.eqb (Text.lower format) "json" then
    Some (ToJson output_path df, to_json_error E output_path df)
  else None.

(** The success value of [export_query_result]. *)
Definition export_success (E : Env) (output_path format : string) (df : DataFrame) : pyval :=
  PDict [("status", PStr "success");
         ("message",
          PStr ("成功导出 " +:+ Text.str_of_len (df_len df)
                +:+ " 行数据到 " +:+ path_str E output_path));
         ("output_path", PStr (path_str E output_path));
         ("format", PStr format);
         ("row_count", PInt (Z.of_nat (df_len df)))].

(** The file system call writes the frame [df] to [output_path]. *)
Definition writes_frame (call : FsCall) (output_path : string) (df : DataFrame) : Prop :=
  call = ToCsv output_path df \/ call = ToExcel output_path df \/
  call = ToJson output_path df.

(** Queries for the demo store.  [padded_query] has a no-break space and
    a space before the statement and a space and an em space after it;
    [long_s_query] begins with the long s (U+017F), whose upper-case form
    is S; [dotless_query] holds the word LIMIT spelt with two dotless i
    (U+0131), whose upper-case form is I; [commented_query] ends in a
    comment. *)
Definition plain_query : Text.ustr := Text.of_ascii "SELECT * FROM sales".

Definition padded_query : Text.ustr :=
  ([160; 32]%N ++ plain_query ++ [32; 8195]%N)%list.

Definition spaced_query : Text.ustr := (32%N :: plain_query)%list.

Definition long_s_query : Text.ustr :=
  (383%N :: Text.of_ascii "elect * from sales")%list.

Definition dotless_query : Text.ustr :=
  (Text.of_ascii "SELECT 'l" ++ [305%N] ++ Text.of_ascii "m" ++ [305%N]
   ++ Text.of_ascii "t' FROM sales")%list.

Definition commented_query : Text.ustr :=
  Text.of_ascii "SELECT * FROM sales -- all rows".

(** A process that has just started while a database file of an earlier
    process, holding the table "sales", lies at the path the first
    identifier gives the store "default". *)
Definition stale_start : World :=
  {| db_connections := ∅;
     databases := {["/tmp/data_analysis_default_0c0ffee0.db" := [("sales", Demo.sales)]]};
     next_conn := 0; uuids_drawn := 0; engine_log := []; fs_log := [] |}.





(** [E] with another outcome of [df.to_sql]. *)
Definition with_to_sql_error (E : Env) (f : string -> DataFrame -> option exn) : Env :=
  {| gettempdir := gettempdir E;
     uuid4_hex := uuid4_hex E;
     connect_error := connect_error E;
     path_exists := path_exists E;
     path_str := path_str E;
     path_name := path_name E;
     path_stem := path_stem E;
     path_suffix := path_suffix E;
     mkdir_error := mkdir_error E;
     chardet_encoding := chardet_encoding E;
     read_csv := read_csv E;
     read_excel := read_excel E;
     read_json := read_json E;
     read_parquet := read_parquet E;
     unicode_upper := unicode_upper E;
     to_sql_error := f;
     to_sql_leftover := to_sql_leftover E;
     sqlite_execute := sqlite_execute E;
     read_sql_query := read_sql_query E;
     memory_usage_mb := memory_usage_mb E;
     describe_to_dict := describe_to_dict E;
     dtypes_value_counts := dtypes_value_counts E;
     duplicated_sum := duplicated_sum E;
     nunique := nunique E;
     corr_iloc := corr_iloc E;
     round_float := round_float E;
     py_str := py_str E;
     to_csv_error := to_csv_error E;
     to_excel_error := to_excel_error E;
     to_json_error := to_json_error E |}.

(** The demo environment on a machine where inserting rows fails. *)
Definition failing_write_env : Env :=
  with_to_sql_error Demo.env
    (fun _ _ => Some (Exn OperationalError "database or disk is full")).

(** The frame of a join of "sales" with itself on the price: the label
    "price" is borne by two columns. *)
Definition joined : DataFrame :=
  {| df_columns :=
       [ {| s_name := "price"; s_dtype := Float64;
            s_values := [PFloat 1.5%float; PFloat 2.5%float; PFloat 4%float] |};
         {| s_name := "price"; s_dtype := Float64;
            s_values := [PFloat 1.5%float; PFloat 2.5%float; PFloat 4%float] |} ];
     df_len := 3 |}.

(* ===================================================================== *)
(** ** The prompt: [analyze_data_file]                                    *)
(* ===================================================================== *)

(** [base.UserMessage(...)] and [base.AssistantMessage(...)] *)
Inductive Message : Type :=
  | UserMessage (content : string)
  | AssistantMessage (content : string).

(** What Python does where the prompt leaves it to the language: number
    formatting and arithmetic, and the operations on a value that is not
    of the type the prompt expects there. *)
Record Python : Type := {
  (** [f"{x:.<n>f}"] *)
  format_fixed : pyval -> nat -> exn + string;
  (** [(a / b) * 100] *)
  percent_of : pyval -> pyval -> exn + pyval;
  (** [v[k]] for a [v] that is not a dict *)
  other_getitem : pyval -> string -> exn + pyval;
  (** [v.items()] for a [v] that is not a dict *)
  other_items : pyval -> exn + list (string * pyval);
  (** [v.get(k, default)] for a [v] that is not a dict *)
  other_get : pyval -> string -> pyval -> exn + pyval;
  (** [k in v] for a [v] that is not a dict *)
  other_contains : string -> pyval -> exn + bool;
  (** [for x in v] for a [v] that is not a list *)
  other_iter : pyval -> exn + list pyval
}.

(** The line feed of ["\n"]. *)
Definition LF : string := String (ascii_of_nat 10) EmptyString.

(** Computations that may raise and touch no state. *)
Definition bind_exn {A B : Type} (x : exn + A) (k : A -> exn + B) : exn + B :=
  match x with
  | inl e => inl e
  | inr a => k a
  end.

Notation "'let+' x ':=' m 'in' k" := (bind_exn m (fun x => k))
  (at level 10, x pattern, m at level 100, k at level 200).

(** [v == s] for a string [s] *)
Definition str_equal (v : pyval) (s : string) : bool :=
  match v with
  | PStr t => String.eqb t s
  | _ => false
  end.

(** [isinstance(v, (int, float))]; [bool] is a subclass of [int]. *)
Definition is_int_or_float (v : pyval) : bool :=
  match v with
  | PInt _ | PFloat _ | PBool _ => true
  | _ => false
  end.

(** The closing message of a completed prompt. *)
Definition closing_message : string :=
  "数据已成功导入并分析完成！您可以使用 `execute_sql` 工具进行更详细的数据查询和分析。有什么具体的分析需求吗？".

(** The text that stands for a report that could not be made. *)
Definition no_report_text : string := "无法生成详细分析报告".

Section Prompt.

Context (E : Env) (P : Python).

(** [v[k]]; a missing key raises [KeyError], whose text is the quoted
    key. *)
Definition py_getitem (v : pyval) (k : string) : exn + pyval :=
  match v with
  | PDict d =>
      match dict_get d k with
      | Some x => inr x
      | None => inl (Exn OtherError ("'" +:+ k +:+ "'"))
      end
  | _ => other_getitem P v k
  end.

Definition py_items (v : pyval) : exn + list (string * pyval) :=
  match v with
  | PDict d => inr d
  | _ => other_items P v
  end.

Definition py_get (v : pyval) (k : string) (default : pyval) : exn + pyval :=
  match v with
  | PDict d => inr (match dict_get d k with Some x => x | None => default end)
  | _ => other_get P v k default
  end.

Definition py_contains (k : string) (v : pyval) : exn + bool :=
  match v with
  | PDict d => inr (match dict_get d k with Some _ => true | None => false end)
  | _ => other_contains P k v
  end.

Definition py_iter (v : pyval) : exn + list pyval :=
  match v with
  | PList l => inr l
  | _ => other_iter P v
  end.

(** [f"{v}"] *)
Definition fstr (v : pyval) : string := format_value (py_str E) v.

(** The loop over [enumerate(stats['column_types'].items(), 1)], at
    index [i]. *)
Fixpoint column_lines (i : nat) (items : list (string * pyval)) (analysis_text : string)
  : string :=
  match items with
  | [] => analysis_text
  | (col, dtype) :: rest =>
      column_lines (S i) rest
        (analysis_text +:+ Text.str_of_len i +:+ ". **" +:+ col +:+ "** - "
         +:+ fstr dtype +:+ LF)
  end.

(** [f"- <label>: {summary.get(key, 'N/A'):.2f}\n"
     if isinstance(summary.get(key), (int, float)) else f"- <label>: N/A\n"] *)
Definition fixed_or_na (label : string) (summary : pyval) (key : string) : exn + string :=
  let+ probe := py_get summary key PNone in
  if is_int_or_float probe then
    let+ value := py_get summary key (PStr "N/A") in
    let+ text := format_fixed P value 2 in
    inr ("- " +:+ label +:+ ": " +:+ text +:+ LF)
  else inr ("- " +:+ label +:+ ": N/A" +:+ LF).

(** The loop over [report["numeric_summary"].items()]. *)
Fixpoint summary_lines (items : list (string * pyval)) (analysis_text : string)
  : exn + string :=
  match items with
  | [] => inr analysis_text
  | (col, summary) :: rest =>
      let analysis_text := analysis_text +:+ "### " +:+ col +:+ LF in
      let+ mean := fixed_or_na "均值" summary "mean" in
      let analysis_text := analysis_text +:+ mean in
      let+ std := fixed_or_na "标准差" summary "std" in
      let analysis_text := analysis_text +:+ std in
      let+ min_val := py_get summary "min" (PStr "N/A") in
      let analysis_text := analysis_text +:+ "- 最小值: " +:+ fstr min_val +:+ LF in
      let+ max_val := py_get summary "max" (PStr "N/A") in
      let analysis_text := analysis_text +:+ "- 最大值: " +:+ fstr max_val +:+ LF +:+ LF in
      summary_lines rest analysis_text
  end.

(** The loop over [report["missing_values"].items()]. *)
Fixpoint missing_lines (stats : pyval) (items : list (string * pyval))
    (analysis_text : string) : exn + string :=
  match items with
  | [] => inr analysis_text
  | (col, missing_count) :: rest =>
      let+ rows := py_getitem stats "rows" in
      let+ missing_pct := percent_of P missing_count rows in
      let+ pct := format_fixed P missing_pct 1 in
      missing_lines stats rest
        (analysis_text +:+ "- **" +:+ col +:+ "**: " +:+ fstr missing_count
         +:+ " 个缺失值 (" +:+ pct +:+ "%)" +:+ LF)
  end.

(** The loop over [report["high_correlations"]]. *)
Fixpoint correlation_lines (items : list pyval) (analysis_text : string) : exn + string :=
  match items with
  | [] => inr analysis_text
  | corr :: rest =>
      let+ column1 := py_getitem corr "column1" in
      let+ column2 := py_getitem corr "column2" in
      let+ correlation := py_getitem corr "correlation" in
      correlation_lines rest
        (analysis_text +:+ "- **" +:+ fstr column1 +:+ "** 与 **" +:+ fstr column2
         +:+ "**: 相关系数 " +:+ fstr correlation +:+ LF)
  end.

(** The statements that build [analysis_text] from a report. *)
Definition report_text (file_path : string) (table_name stats report : pyval)
  : exn + string :=
  let analysis_text := "# 数据文件分析报告" +:+ LF +:+ LF in
  let analysis_text := analysis_text +:+ "## 文件信息" +:+ LF in
  let analysis_text := analysis_text +:+ "- 文件路径: " +:+ file_path +:+ LF in
  let analysis_text := analysis_text +:+ "- 导入表名: " +:+ fstr table_name +:+ LF in
  let+ rows := py_getitem stats "rows" in
  let analysis_text := analysis_text +:+ "- 数据行数: " +:+ fstr rows +:+ LF in
  let+ columns := py_getitem stats "columns" in
  let analysis_text := analysis_text +:+ "- 数据列数: " +:+ fstr columns +:+ LF +:+ LF in
  let analysis_text := analysis_text +:+ "## 列信息" +:+ LF in
  let+ column_types := py_getitem stats "column_types" in
  let+ types := py_items column_types in
  let analysis_text := column_lines 1 types analysis_text in
  let analysis_text := analysis_text +:+ LF in
  let+ has_summary := py_contains "numeric_summary" report in
  let+ analysis_text :=
    if has_summary : bool then
      let analysis_text := analysis_text +:+ "## 数值列统计摘要" +:+ LF in
      let+ numeric_summary := py_getitem report "numeric_summary" in
      let+ summaries := py_items numeric_summary in
      summary_lines summaries analysis_text
    else inr analysis_text in
  let+ has_missing := py_contains "missing_values" report in
  let+ analysis_text :=
    if has_missing : bool then
      let analysis_text := analysis_text +:+ "## 缺失值分析" +:+ LF in
      let+ missing_values := py_getitem report "missing_values" in
      let+ counts := py_items missing_values in
      let+ analysis_text := missing_lines stats counts analysis_text in
      inr (analysis_text +:+ LF)
    else inr analysis_text in
  let+ has_high := py_contains "high_correlations" report in
  let+ analysis_text :=
    if has_high : bool then
      let analysis_text := analysis_text +:+ "## 高相关性分析" +:+ LF in
      let+ high_correlations := py_getitem report "high_correlations" in
      let+ pairs := py_iter high_correlations in
      let+ analysis_text := correlation_lines pairs analysis_text in
      inr (analysis_text +:+ LF)
    else inr analysis_text in
  let analysis_text := analysis_text +:+ "## 分析建议" +:+ LF in
  let analysis_text := analysis_text +:+ "根据数据特征，建议进行以下分析:" +:+ LF in
  let analysis_text :=
    analysis_text +:+ "1. 使用 `execute_sql` 工具进行具体的数据查询" +:+ LF in
  let analysis_text :=
    analysis_text +:+ "2. 针对数值列进行分布分析和异常值检测" +:+ LF in
  let analysis_text := analysis_text +:+ "3. 分析分类变量的频次分布" +:+ LF in
  let analysis_text :=
    analysis_text +:+ "4. 根据业务需求进行分组统计和趋势分析" +:+ LF +:+ LF in
  let analysis_text := analysis_text +:+ "## 示例查询" +:+ LF in
  let analysis_text := analysis_text +:+ "```sql" +:+ LF in
  let analysis_text := analysis_text +:+ "-- 查看前10行数据" +:+ LF in
  let analysis_text :=
    analysis_text +:+ "SELECT * FROM " +:+ fstr table_name +:+ " LIMIT 10;" +:+ LF +:+ LF in
  let analysis_text := analysis_text +:+ "-- 统计各列的非空值数量" +:+ LF in
  let analysis_text :=
    analysis_text +:+ "SELECT COUNT(*) as total_rows FROM " +:+ fstr table_name +:+ ";"
    +:+ LF in
  inr (analysis_text +:+ "```" +:+ LF).

(** A tool called from inside the program: its result is a value, it
    raises nothing. *)
Definition call_tool (tool : World -> pyval * World) : M pyval :=
  fun w => let '(r, w') := tool w in (inr r, w').

(** [analyze_data_file(file_path, analysis_goals)]: the file goes into
    the store "default" under the table name derived from its name, and
    the report is the correlation one. *)
Definition analyze_data_file (file_path analysis_goals : string)
  : World -> list Message * World :=
  fun w =>
    match
      (let* import_result :=
         call_tool (import_file E file_path None "default" None None) in
       let* status := lift (py_getitem import_result "status") in
       if str_equal status "error" then
         let* message := lift (py_getitem import_result "message") in
         ret [UserMessage ("分析文件 " +:+ file_path);
              AssistantMessage ("文件导入失败: " +:+ fstr message)]
       else
         let* table_name := lift (py_getitem import_result "table") in
         let* stats := lift (py_getitem import_result "statistics") in
         let* report_result :=
           call_tool (generate_analysis_report E (fstr table_name) "default"
                        "correlation") in
         let* report_status := lift (py_getitem report_result "status") in
         let* analysis_text :=
           if str_equal report_status "error" then ret no_report_text
           else
             let* report := lift (py_getitem report_result "report") in
             lift (report_text file_path table_name stats report) in
         ret [UserMessage ("请分析数据文件: " +:+ file_path +:+ "，分析目标: "
                           +:+ analysis_goals);
              AssistantMessage analysis_text;
              AssistantMessage closing_message]) w
    with
    | (inr messages, w') => (messages, w')
    | (inl e, w') =>
        ([UserMessage ("分析文件 " +:+ file_path +:+ " 时出错");
          AssistantMessage ("分析文件时发生错误: " +:+ exn_str e +:+ LF +:+ LF
                            +:+ "请检查文件路径是否正确，以及文件格式是否支持。")],
         w')
    end.

End Prompt.

(** A Python whose number formatting is not looked at, for the runs of
    the demo process that do not reach it. *)
Definition demo_python : Python :=
  {| format_fixed := fun _ _ => inr "0.00";
     percent_of := fun _ _ => inr (PFloat 0%float);
     other_getitem := fun _ _ => inl (Exn TypeError "object is not subscriptable");
     other_items := fun _ => inl (Exn OtherError "object has no attribute 'items'");
     other_get := fun _ _ _ => inl (Exn OtherError "object has no attribute 'get'");
     other_contains := fun _ _ => inl (Exn TypeError "argument is not iterable");
     other_iter := fun _ => inl (Exn TypeError "object is not iterable") |}.

(** [E] with another outcome of [sqlite3.connect]. *)
Definition with_connect_error (E : Env) (f : string -> option exn) : Env :=
  {| gettempdir := gettempdir E;
     uuid4_hex := uuid4_hex E;
     connect_error := f;
     path_exists := path_exists E;
     path_str := path_str E;
     path_name := path_name E;
     path_stem := path_stem E;
     path_suffix := path_suffix E;
     mkdir_error := mkdir_error E;
     chardet_encoding := chardet_encoding E;
     read_csv := read_csv E;
     read_excel := read_excel E;
     read_json := read_json E;
     read_parquet := read_parquet E;
     unicode_upper := unicode_upper E;
     to_sql_error := to_sql_error E;
     to_sql_leftover := to_sql_leftover E;
     sqlite_execute := sqlite_execute E;
     read_sql_query := read_sql_query E;
     memory_usage_mb := memory_usage_mb E;
     describe_to_dict := describe_to_dict E;
     dtypes_value_counts := dtypes_value_counts E;
     duplicated_sum := duplicated_sum E;
     nunique := nunique E;
     corr_iloc := corr_iloc E;
     round_float := round_float E;
     py_str := py_str E;
     to_csv_error := to_csv_error E;
     to_excel_error := to_excel_error E;
     to_json_error := to_json_error E |}.

Definition disk_full : exn := Exn OperationalError "unable to open database file".

(** The demo environment on a machine whose temporary directory takes no
    new file. *)
Definition full_disk_env : Env := with_connect_error Demo.env (fun _ => Some disk_full).
(* ===================================================================== *)
(** ** Text lemmas                                                        *)
(* ===================================================================== *)

Section TextFacts.

Import Text Spec.
Local Open Scope list_scope.

Lemma append_nil_r (s : string) : s +:+ "" = s.
Proof. induction s as [|c s IH]; simpl; [reflexivity | now rewrite IH]. Qed.

Lemma append_assoc (a b c : string) : (a +:+ b) +:+ c = a +:+ (b +:+ c).
Proof. induction a as [|x a IH]; simpl; [reflexivity | now rewrite IH]. Qed.

(** [str.isspace] holds of the white-space characters, and of no other. *)
Lemma isspace_spec (c : N) : isspace c = true <-> whitespace c.
Proof.
  unfold whitespace, whitespace_characters, isspace. cbn [In].
  rewrite !orb_true_iff, !andb_true_iff, !N.leb_le, !N.eqb_eq. lia.
Qed.

Lemma isspace_false (c : N) : isspace c = false <-> ~ whitespace c.
Proof.
  rewrite <- isspace_spec. destruct (isspace c); split; intros H; congruence.
Qed.

Lemma lstrip_spaces (l s : ustr) :
  Forall whitespace l -> lstrip (l ++ s) = lstrip s.
Proof.
  induction 1 as [|c l Hc Hl IH]; simpl; [reflexivity|].
  apply isspace_spec in Hc. now rewrite Hc.
Qed.

Lemma lstrip_clean (s : ustr) :
  (forall c : N, head s = Some c -> ~ whitespace c) -> lstrip s = s.
Proof.
  destruct s as [|c s]; simpl; intros H; [reflexivity|].
  specialize (H c eq_refl). apply isspace_false in H. now rewrite H.
Qed.

Lemma rstrip_all_space (r : ustr) : Forall whitespace r -> rstrip r = [].
Proof.
  induction 1 as [|c r Hc Hr IH]; simpl; [reflexivity|].
  rewrite IH. apply isspace_spec in Hc. now rewrite Hc.
Qed.

Lemma rstrip_spaces (t r : ustr) :
  Forall whitespace r -> rstrip (t ++ r) = rstrip t.
Proof.
  intros Hr. induction t as [|c t IH]; simpl.
  - now apply rstrip_all_space.
  - now rewrite IH.
Qed.

Lemma rstrip_clean (t : ustr) :
  (forall c : N, last t = Some c -> ~ whitespace c) -> rstrip t = t.
Proof.
  induction t as [|c t IH]; [reflexivity|].
  destruct t as [|d t].
  - simpl. intros H. specialize (H c eq_refl). apply isspace_false in H. now rewrite H.
  - intros H.
    assert (IH' : rstrip (d :: t) = d :: t) by (apply IH; intros x Hx; apply H; exact Hx).
    change (rstrip (c :: d :: t))
      with (match rstrip (d :: t) with
            | [] => if isspace c then [] else [c]
            | r => c :: r end).
    now rewrite IH'.
Qed.

(** The trimmed text of [q] is [q.strip()], and nothing else. *)
Lemma strip_trimmed (q t : ustr) : trimmed_of q t -> strip q = t.
Proof.
  intros (l & r & -> & Hl & Hr & Hh & Hlast). unfold strip.
  rewrite (lstrip_spaces l _ Hl).
  destruct t as [|c t].
  - simpl. rewrite <- (app_nil_r r) at 1.
    rewrite (lstrip_spaces r [] Hr). reflexivity.
  - rewrite lstrip_clean by (intros x Hx; apply Hh; exact Hx).
    rewrite (rstrip_spaces _ r Hr). now apply rstrip_clean.
Qed.

Lemma lstrip_split (q : ustr) :
  exists l : ustr,
    q = (l ++ lstrip q)%list /\ Forall whitespace l /\
    (forall c : N, head (lstrip q) = Some c -> ~ whitespace c).
Proof.
  induction q as [|c q (l & Hq & Hl & Hh)].
  - exists []. repeat split; [constructor | discriminate].
  - simpl. destruct (isspace c) eqn:Hc.
    + exists (c :: l). split; [simpl; now rewrite <- Hq|]. split; [|exact Hh].
      constructor; [now apply isspace_spec | exact Hl].
    + exists []. split; [reflexivity|]. split; [constructor|].
      intros x Hx. injection Hx as <-. now apply isspace_false.
Qed.

Lemma rstrip_split (s : ustr) :
  exists r : ustr,
    s = (rstrip s ++ r)%list /\ Forall whitespace r /\
    (forall c : N, last (rstrip s) = Some c -> ~ whitespace c).
Proof.
  induction s as [|c s (r & Hs & Hr & Hl)].
  - exists []. repeat split; [constructor | discriminate].
  - simpl. destruct (rstrip s) as [|d u] eqn:Hu.
    + simpl in Hs. subst r. destruct (isspace c) eqn:Hc.
      * exists (c :: s). split; [reflexivity|]. split; [|discriminate].
        constructor; [now apply isspace_spec | exact Hr].
      * exists s. split; [reflexivity|]. split; [exact Hr|].
        intros x Hx. injection Hx as <-. now apply isspace_false.
    + exists r. split; [simpl; f_equal; exact Hs|]. split; [exact Hr|].
      intros x Hx. apply Hl. exact Hx.
Qed.

Lemma rstrip_head (s : ustr) :
  (forall c : N, head s = Some c -> ~ whitespace c) ->
  forall c : N, head (rstrip s) = Some c -> ~ whitespace c.
Proof.
  destruct s as [|c s]; [intros _ x Hx; discriminate|]. simpl. intros Hc x Hx.
  apply Hc. destruct (rstrip s); [destruct (isspace c); [discriminate|]|]; exact Hx.
Qed.

Lemma trimmed_strip (q : ustr) : trimmed_of q (strip q).
Proof.
  destruct (lstrip_split q) as (l & Hq & Hl & Hh).
  destruct (rstrip_split (lstrip q)) as (r & Hs & Hr & Hlast).
  exists l, r. unfold strip.
  split; [rewrite Hq at 1; f_equal; exact Hs|].
  split; [exact Hl|]. split; [exact Hr|].
  split; [now apply rstrip_head | exact Hlast].
Qed.

Section Upper.

Context (E : Env).

(** The upper-case form of a character is [str.upper] of it. *)
Lemma upper_case_spec (c : N) (u : ustr) :
  upper_case E c u <-> u = upper_char (unicode_upper E) c.
Proof.
  unfold upper_char. split.
  - intros [c' H | c' H1 H2 | c' H].
    + replace (c' <? 128)%N with true by (symmetry; apply N.ltb_lt; lia).
      replace ((97 <=? c') && (c' <=? 122))%N with true; [reflexivity|].
      symmetry. apply andb_true_iff. rewrite !N.leb_le. lia.
    + replace (c' <? 128)%N with true by (symmetry; apply N.ltb_lt; lia).
      replace ((97 <=? c') && (c' <=? 122))%N with false; [reflexivity|].
      symmetry. apply andb_false_iff. rewrite !N.leb_gt. lia.
    + replace (c' <? 128)%N with false by (symmetry; apply N.ltb_ge; lia).
      reflexivity.
  - intros ->. destruct (N.ltb_spec c 128) as [H|H]; [|now constructor].
    destruct ((97 <=? c) && (c <=? 122))%N eqn:Hl.
    + apply andb_true_iff in Hl. rewrite !N.leb_le in Hl. now constructor.
    + apply andb_false_iff in Hl. rewrite !N.leb_gt in Hl. constructor; lia.
Qed.

Lemma upper_of_spec (t u : ustr) :
  upper_of E t u <-> u = upper (unicode_upper E) t.
Proof.
  split.
  - induction 1 as [|c t u v Hc Ht IH]; [reflexivity|].
    apply upper_case_spec in Hc. subst. reflexivity.
  - intros ->. induction t as [|c t IH]; [constructor|].
    change (upper (unicode_upper E) (c :: t))
      with (upper_char (unicode_upper E) c ++ upper (unicode_upper E) t)%list.
    constructor; [now apply upper_case_spec | exact IH].
Qed.

Lemma startswith_spec (s p : ustr) :
  startswith s p = true <-> exists rest : ustr, s = (p ++ rest)%list.
Proof.
  revert s. induction p as [|a p IH]; intros s.
  - split; [intros _; now exists s | reflexivity].
  - destruct s as [|b s]; simpl.
    + split; [discriminate | intros (rest & H); discriminate].
    + rewrite andb_true_iff, N.eqb_eq, IH. split.
      * intros (-> & rest & ->). now exists rest.
      * intros (rest & H). injection H as -> ->. split; [reflexivity | now exists rest].
Qed.

Lemma contains_spec (s sub : ustr) :
  contains s sub = true <-> exists a b : ustr, s = (a ++ sub ++ b)%list.
Proof.
  induction s as [|c s IH].
  - simpl. rewrite orb_false_r, startswith_spec. split.
    + intros (rest & H). now exists [], rest.
    + intros (a & b & H). destruct a; [now exists b | discriminate].
  - change (contains (c :: s) sub) with (startswith (c :: s) sub || contains s sub).
    rewrite orb_true_iff, IH, startswith_spec. split.
    + intros [(rest & H) | (a & b & ->)].
      * now exists [], rest.
      * now exists (c :: a), b.
    + intros (a & b & H). destruct a as [|x a].
      * left. now exists b.
      * right. injection H as -> ->. now exists a, b.
Qed.

Lemma begins_ci_startswith (kw t : ustr) :
  begins_ci E t kw <-> startswith (upper (unicode_upper E) t) kw = true.
Proof.
  rewrite startswith_spec. split.
  - intros (u & rest & Hu & ->). apply upper_of_spec in Hu. now exists rest.
  - intros (rest & H). exists (upper (unicode_upper E) t), rest.
    split; [now apply upper_of_spec | exact H].
Qed.

Lemma occurs_ci_contains (kw t : ustr) :
  occurs_ci E t kw <-> contains (upper (unicode_upper E) t) kw = true.
Proof.
  rewrite contains_spec. split.
  - intros (u & a & b & Hu & ->). apply upper_of_spec in Hu. now exists a, b.
  - intros (a & b & H). exists (upper (unicode_upper E) t), a, b.
    split; [now apply upper_of_spec | exact H].
Qed.

Lemma gate_spec (t : ustr) :
  begins_select_or_with E t <->
  startswith_any (upper (unicode_upper E) t) [of_ascii "SELECT"; of_ascii "WITH"] = true.
Proof.
  unfold begins_select_or_with, startswith_any. cbn [existsb].
  rewrite orb_false_r, orb_true_iff, !begins_ci_startswith. reflexivity.
Qed.

Lemma limit_spec (t : ustr) :
  occurs_ci E t LIMIT <->
  contains (upper (unicode_upper E) t) (of_ascii "LIMIT") = true.
Proof. apply occurs_ci_contains. Qed.

End Upper.

End TextFacts.

(* ===================================================================== *)
(** ** The query gateway: [execute_sql]                                   *)
(* ===================================================================== *)

Section Gateway.

Import Text Spec.
Local Open Scope list_scope.
Context (E : Env).

Lemma execute_sql_unknown (w : World) (q : ustr) (db : string) (limit : Z) :
  db_connections w !! db = None ->
  execute_sql E q db limit w = (unknown_db db, w).
Proof. intros H. unfold execute_sql, run_tool, bind, get_world. now rewrite H. Qed.

Lemma execute_sql_rejected (w : World) (q : ustr) (db : string) (limit : Z)
    (entry : DbEntry) :
  db_connections w !! db = Some entry ->
  startswith_any (upper (unicode_upper E) (strip q))
    [of_ascii "SELECT"; of_ascii "WITH"] = false ->
  execute_sql E q db limit w = (error_result "只支持SELECT和WITH查询语句", w).
Proof.
  intros H Hg. unfold execute_sql, run_tool, bind, get_world.
  rewrite H. cbv beta iota zeta. now rewrite Hg.
Qed.

Lemma execute_sql_accepted (w : World) (q : ustr) (db : string) (limit : Z)
    (entry : DbEntry) :
  db_connections w !! db = Some entry ->
  startswith_any (upper (unicode_upper E) (strip q))
    [of_ascii "SELECT"; of_ascii "WITH"] = true ->
  execute_sql E q db limit w =
    let conn := connection entry in
    let sql := encode (effective_query E q limit) in
    let w' := fun cat => log_engine conn (ReadSqlQuery sql) (set_catalog conn cat w) in
    match read_sql_query E sql (catalog_of w conn) with
    | (inr df, cat) => (query_result db sql df, w' cat)
    | (inl e, cat) => (error_result ("执行SQL时出错: " +:+ exn_str e), w' cat)
    end.
Proof.
  intros H Hg. unfold execute_sql, run_tool, bind, get_world.
  rewrite H. cbv beta iota zeta. rewrite Hg. cbn [negb].
  unfold effective_query, pd_read_sql_query.
  destruct (read_sql_query E _ (catalog_of w (connection entry)))
    as [[e|df] cat]; reflexivity.
Qed.

(** The text made of an accepted query begins with the trimmed query. *)
Lemma effective_query_begins (q : ustr) (limit : Z) :
  exists rest : ustr, effective_query E q limit = (strip q ++ rest)%list.
Proof.
  unfold effective_query. destruct (negb _).
  - now eexists.
  - exists []. now rewrite app_nil_r.
Qed.

(** C1. On a known store, a query whose trimmed text does not begin,
    case-insensitively, with SELECT or WITH is answered with a structured
    error and the process state, engine included, is left as it was; a
    query whose trimmed text does begin with SELECT or WITH is handed to
    the engine, once, as a text that begins with the trimmed query, and
    the result is what the engine made of it.  Trimming removes the
    white space of Unicode, and the comparison is made on upper-case
    forms, as [str.strip] and [str.upper] do. *)
Theorem execute_sql_safety_gate
    (w : World) (q : ustr) (db : string) (limit : Z) (entry : DbEntry) (t : ustr) :
  db_connections w !! db = Some entry ->
  trimmed_of q t ->
  (~ begins_select_or_with E t ->
     is_error (fst (execute_sql E q db limit w)) /\
     snd (execute_sql E q db limit w) = w)
  /\
  (begins_select_or_with E t ->
     exists rest : ustr,
       engine_log (snd (execute_sql E q db limit w)) =
         (engine_log w
          ++ [(connection entry, ReadSqlQuery (encode (t ++ rest)))])%list /\
       match fst (read_sql_query E (encode (t ++ rest))
                    (catalog_of w (connection entry))) with
       | inr df =>
           fst (execute_sql E q db limit w) = query_result db (encode (t ++ rest)) df
       | inl e => is_error (fst (execute_sql E q db limit w))
       end).
Proof.
  intros Hdb Ht. pose proof (strip_trimmed q t Ht) as Hstrip. split.
  - intros Hno. rewrite (execute_sql_rejected w q db limit entry Hdb).
    + split; [|reflexivity]. split; [reflexivity|]. now eexists.
    + rewrite Hstrip.
      destruct (startswith_any (upper (unicode_upper E) t)
                  [of_ascii "SELECT"; of_ascii "WITH"]) eqn:Hg; [|reflexivity].
      exfalso. apply Hno. now apply gate_spec.
  - intros Hyes. apply gate_spec in Hyes. rewrite <- Hstrip in Hyes.
    rewrite (execute_sql_accepted w q db limit entry Hdb Hyes). cbv zeta.
    destruct (effective_query_begins q limit) as (rest & Hrest).
    rewrite Hstrip in Hrest. rewrite Hrest. exists rest.
    destruct (read_sql_query E (encode (t ++ rest))
                (catalog_of w (connection entry))) as [[e|df] cat]; simpl.
    + split; [reflexivity|]. split; [reflexivity|]. now eexists.
    + split; reflexivity.
Qed.

(** C2, as amended.  For a query that passes the gate on a known store,
    the engine receives the trimmed query with [" LIMIT <limit>"]
    appended when the upper-case form of the trimmed text does not
    contain LIMIT, and the trimmed query with nothing appended when it
    does; a successful result reports that same text. *)
Theorem execute_sql_auto_limit
    (w : World) (q : ustr) (db : string) (limit : Z) (entry : DbEntry) (t : ustr) :
  db_connections w !! db = Some entry ->
  trimmed_of q t ->
  begins_select_or_with E t ->
  exists sql : ustr,
    engine_log (snd (execute_sql E q db limit w)) =
      (engine_log w ++ [(connection entry, ReadSqlQuery (encode sql))])%list /\
    (~ occurs_ci E t LIMIT ->
     sql = (t ++ of_ascii (" LIMIT " +:+ str_of_int limit))%list) /\
    (occurs_ci E t LIMIT -> sql = t) /\
    (is_success (fst (execute_sql E q db limit w)) ->
     field (fst (execute_sql E q db limit w)) "query" = Some (PStr (encode sql))).
Proof.
  intros Hdb Ht Hyes. pose proof (strip_trimmed q t Ht) as Hstrip.
  apply gate_spec in Hyes. rewrite <- Hstrip in Hyes.
  rewrite (execute_sql_accepted w q db limit entry Hdb Hyes). cbv zeta.
  exists (effective_query E q limit).
  assert (Hlog : forall (r : pyval) (cat : Catalog),
             engine_log (snd (r, log_engine (connection entry)
                                   (ReadSqlQuery (encode (effective_query E q limit)))
                                   (set_catalog (connection entry) cat w))) =
             (engine_log w
              ++ [(connection entry,
                   ReadSqlQuery (encode (effective_query E q limit)))])%list)
    by reflexivity.
  split; [|split; [|split]].
  - destruct (read_sql_query E _ _) as [[e|df] cat]; apply Hlog.
  - intros Hno. unfold effective_query. rewrite Hstrip.
    destruct (contains (upper (unicode_upper E) t) (of_ascii "LIMIT")) eqn:Hc;
      [|reflexivity].
    exfalso. apply Hno. now apply limit_spec.
  - intros Hocc. unfold effective_query. rewrite Hstrip.
    apply limit_spec in Hocc. now rewrite Hocc.
  - destruct (read_sql_query E _ _) as [[e|df] cat]; simpl.
    + unfold is_success. simpl. discriminate.
    + reflexivity.
Qed.

End Gateway.

Lemma execute_sql_safety_gate_witness :
  db_connections Demo.with_sales !! "default" = Some Demo.sales_entry /\
  Spec.trimmed_of padded_query plain_query /\
  (~ Spec.begins_select_or_with Demo.env plain_query ->
     Spec.is_error (fst (execute_sql Demo.env padded_query "default" 5 Demo.with_sales)) /\
     snd (execute_sql Demo.env padded_query "default" 5 Demo.with_sales) = Demo.with_sales)
  /\
  (Spec.begins_select_or_with Demo.env plain_query ->
     exists rest : Text.ustr,
       engine_log (snd (execute_sql Demo.env padded_query "default" 5 Demo.with_sales)) =
         (engine_log Demo.with_sales
          ++ [(connection Demo.sales_entry,
               ReadSqlQuery (Text.encode (plain_query ++ rest)%list))])%list /\
       match fst (read_sql_query Demo.env (Text.encode (plain_query ++ rest)%list)
                    (catalog_of Demo.with_sales (connection Demo.sales_entry))) with
       | inr df => fst (execute_sql Demo.env padded_query "default" 5 Demo.with_sales)
                   = query_result "default" (Text.encode (plain_query ++ rest)%list) df
       | inl e => Spec.is_error (fst (execute_sql Demo.env padded_query "default" 5
                                        Demo.with_sales))
       end).
Proof.
  assert (H1 : db_connections Demo.with_sales !! "default" = Some Demo.sales_entry)
    by (vm_compute; reflexivity).
  assert (H2 : Spec.trimmed_of padded_query plain_query).
  { exists [160; 32]%N, [32; 8195]%N. split; [reflexivity|].
    split; [repeat constructor; apply isspace_spec; reflexivity|].
    split; [repeat constructor; apply isspace_spec; reflexivity|].
    split; intros c Hc; vm_compute in Hc; injection Hc as <-;
      apply isspace_false; reflexivity. }
  split; [exact H1|]. split; [exact H2|].
  exact (execute_sql_safety_gate Demo.env Demo.with_sales padded_query
           "default" 5 Demo.sales_entry plain_query H1 H2).
Defined.

Lemma execute_sql_auto_limit_witness :
  db_connections Demo.with_sales !! "default" = Some Demo.sales_entry /\
  Spec.trimmed_of padded_query plain_query /\
  Spec.begins_select_or_with Demo.env plain_query /\
  exists sql : Text.ustr,
    engine_log (snd (execute_sql Demo.env padded_query "default" 5 Demo.with_sales)) =
      (engine_log Demo.with_sales
       ++ [(connection Demo.sales_entry, ReadSqlQuery (Text.encode sql))])%list /\
    (~ Spec.occurs_ci Demo.env plain_query Spec.LIMIT ->
     sql = (plain_query ++ Text.of_ascii (" LIMIT " +:+ Text.str_of_int 5))%list) /\
    (Spec.occurs_ci Demo.env plain_query Spec.LIMIT -> sql = plain_query) /\
    (Spec.is_success (fst (execute_sql Demo.env padded_query "default" 5 Demo.with_sales)) ->
     field (fst (execute_sql Demo.env padded_query "default" 5 Demo.with_sales)) "query"
     = Some (PStr (Text.encode sql))).
Proof.
  assert (H1 : db_connections Demo.with_sales !! "default" = Some Demo.sales_entry)
    by (vm_compute; reflexivity).
  assert (H2 : Spec.trimmed_of padded_query plain_query).
  { exists [160; 32]%N, [32; 8195]%N. split; [reflexivity|].
    split; [repeat constructor; apply isspace_spec; reflexivity|].
    split; [repeat constructor; apply isspace_spec; reflexivity|].
    split; intros c Hc; vm_compute in Hc; injection Hc as <-;
      apply isspace_false; reflexivity. }
  assert (H3 : Spec.begins_select_or_with Demo.env plain_query)
    by (apply gate_spec; reflexivity).
  split; [exact H1|]. split; [exact H2|]. split; [exact H3|].
  exact (execute_sql_auto_limit Demo.env Demo.with_sales padded_query
           "default" 5 Demo.sales_entry plain_query H1 H2 H3).
Defined.

(** C2, as stated, fails three times.  With leading white space the
    text executed is not the original query with the clause appended:
    the query [" SELECT * FROM sales"] passes the gate and holds no
    LIMIT, and the engine receives ["SELECT * FROM sales LIMIT 5"].  The
    appended clause need not bound the rows: after a query that ends in a
    comment it is part of the comment, and with [limit = 2] the three
    rows of the table come back; and with [limit = -1] the engine
    receives ["SELECT * FROM sales LIMIT -1"] and returns the three rows
    as well. *)
Lemma execute_sql_original_text_counterexample :
  exists entry : DbEntry,
    db_connections Demo.with_sales !! "default" = Some entry /\
    Spec.trimmed_of spaced_query plain_query /\
    Spec.begins_select_or_with Demo.env plain_query /\
    ~ Spec.occurs_ci Demo.env spaced_query Spec.LIMIT /\
    engine_log (snd (execute_sql Demo.env spaced_query "default" 5 Demo.with_sales)) =
      (engine_log Demo.with_sales
         ++ [(connection entry, ReadSqlQuery "SELECT * FROM sales LIMIT 5")])%list /\
    "SELECT * FROM sales LIMIT 5" <>
      Text.encode (spaced_query ++ Text.of_ascii (" LIMIT " +:+ Text.str_of_int 5))%list /\
    Spec.trimmed_of commented_query commented_query /\
    Spec.begins_select_or_with Demo.env commented_query /\
    ~ Spec.occurs_ci Demo.env commented_query Spec.LIMIT /\
    engine_log (snd (execute_sql Demo.env commented_query "default" 2 Demo.with_sales)) =
      (engine_log Demo.with_sales
         ++ [(connection entry,
              ReadSqlQuery "SELECT * FROM sales -- all rows LIMIT 2")])%list /\
    field (fst (execute_sql Demo.env commented_query "default" 2 Demo.with_sales))
      "row_count" = Some (PInt 3) /\
    (2 < 3)%Z /\
    engine_log (snd (execute_sql Demo.env plain_query "default" (-1) Demo.with_sales)) =
      (engine_log Demo.with_sales
         ++ [(connection entry, ReadSqlQuery "SELECT * FROM sales LIMIT -1")])%list /\
    field (fst (execute_sql Demo.env plain_query "default" (-1) Demo.with_sales))
      "row_count" = Some (PInt 3) /\
    (-1 < 3)%Z.
Proof.
  eexists. split; [vm_compute; reflexivity|].
  split.
  { exists [32%N], []. split; [reflexivity|].
    split; [repeat constructor; apply isspace_spec; reflexivity|].
    split; [constructor|].
    split; intros c Hc; vm_compute in Hc; injection Hc as <-;
      apply isspace_false; reflexivity. }
  split; [apply gate_spec; reflexivity|].
  split; [intros H; apply limit_spec in H; vm_compute in H; discriminate|].
  split; [vm_compute; reflexivity|]. split; [vm_compute; discriminate|].
  split.
  { exists [], []. split; [reflexivity|]. split; [constructor|]. split; [constructor|].
    split; intros c Hc; vm_compute in Hc; injection Hc as <-;
      apply isspace_false; reflexivity. }
  split; [apply gate_spec; reflexivity|].
  split; [intros H; apply limit_spec in H; vm_compute in H; discriminate|].
  repeat split; vm_compute; reflexivity.
Qed.

(** The gate on the demo store: a DROP and an INSERT are refused and leave
    the state alone, a WITH in mixed case reaches the engine, and so do a
    SELECT behind a no-break space and one spelt with a long s; a text
    whose upper-case form holds LIMIT gets no clause. *)
Example demo_gate :
  execute_sql Demo.env (Text.of_ascii "DROP TABLE sales") "default" 100 Demo.with_sales
    = (error_result "只支持SELECT和WITH查询语句", Demo.with_sales) /\
  execute_sql Demo.env (Text.of_ascii "  insert into sales values (1)") "default" 100
      Demo.with_sales
    = (error_result "只支持SELECT和WITH查询语句", Demo.with_sales) /\
  engine_log (snd (execute_sql Demo.env
                     (Text.of_ascii "With t AS (SELECT 1) SELECT * FROM t") "default" 100
                     Demo.with_sales))
    = (engine_log Demo.with_sales
       ++ [(Demo.default_conn,
            ReadSqlQuery "With t AS (SELECT 1) SELECT * FROM t LIMIT 100")])%list /\
  engine_log (snd (execute_sql Demo.env padded_query "default" 100 Demo.with_sales))
    = (engine_log Demo.with_sales
       ++ [(Demo.default_conn, ReadSqlQuery "SELECT * FROM sales LIMIT 100")])%list /\
  field (fst (execute_sql Demo.env padded_query "default" 100 Demo.with_sales)) "row_count"
    = Some (PInt 3) /\
  engine_log (snd (execute_sql Demo.env long_s_query "default" 100 Demo.with_sales))
    = (engine_log Demo.with_sales
       ++ [(Demo.default_conn, ReadSqlQuery "ſelect * from sales LIMIT 100")])%list /\
  engine_log (snd (execute_sql Demo.env dotless_query "default" 100 Demo.with_sales))
    = (engine_log Demo.with_sales
       ++ [(Demo.default_conn, ReadSqlQuery "SELECT 'lımıt' FROM sales")])%list.
Proof. repeat split; vm_compute; reflexivity. Qed.

(* ===================================================================== *)
(** ** Results are structured                                             *)
(* ===================================================================== *)

Section Structured.

Import Spec.
Context (E : Env).

Lemma returns_ret {A : Type} (a : A) (P : A -> Prop) : P a -> returns (ret a) P.
Proof. intros Ha w b w' H. unfold ret in H. now inversion H; subst. Qed.

Lemma returns_raise {A : Type} (e : exn) (P : A -> Prop) : returns (raise e) P.
Proof. intros w b w' H. unfold raise in H. inversion H. Qed.

Lemma returns_bind {A B : Type} (m : M A) (k : A -> M B) (Q : A -> Prop) (P : B -> Prop) :
  returns m Q -> (forall a, Q a -> returns (k a) P) -> returns (bind m k) P.
Proof.
  intros Hm Hk w b w' H. unfold bind in H.
  destruct (m w) as [[e|a] w1] eqn:Hmw; [inversion H|].
  exact (Hk a (Hm w a w1 Hmw) w1 b w' H).
Qed.

Lemma returns_any {A : Type} (m : M A) : returns m (fun _ => True).
Proof. intros w a w' _. exact I. Qed.

Lemma returns_then {A B : Type} (m : M A) (k : A -> M B) (P : B -> Prop) :
  (forall a, returns (k a) P) -> returns (bind m k) P.
Proof. intros Hk. apply (returns_bind m k (fun _ => True)); auto using returns_any. Qed.

Lemma run_tool_structured (prefix : string) (body : M pyval) (w : World) :
  returns body structured -> structured (fst (run_tool prefix body w)).
Proof.
  intros Hb. unfold run_tool. destruct (body w) as [[e|v] w'] eqn:Hbw; simpl.
  - right. split; [reflexivity | now eexists].
  - exact (Hb w v w' Hbw).
Qed.

Lemma structured_error (msg : string) : structured (error_result msg).
Proof. right. split; [reflexivity | now eexists]. Qed.

Lemma structured_success (d : list (string * pyval)) :
  structured (PDict (("status", PStr "success") :: d)).
Proof. now left. Qed.

Lemma structured_unknown_db (db_name : string) : structured (unknown_db db_name).
Proof. apply structured_error. Qed.

Create HintDb tools.
#[local] Hint Resolve structured_error structured_success structured_unknown_db : tools.

Lemma import_load_early (file_path file_ext : string) (sheet_name encoding : option string) :
  returns (import_load E file_path file_ext sheet_name encoding)
          (fun r => match r with
                    | inl early => exists msg, early = error_result msg
                    | inr _ => True
                    end).
Proof.
  unfold import_load.
  repeat match goal with
         | |- returns (if ?b then _ else _) _ => destruct b
         | |- returns (match ?x with inl _ => _ | inr _ => _ end) _ => destruct x
         | |- returns (bind _ _) _ => apply returns_then; intros
         | |- returns (ret (inr _)) _ => now apply returns_ret
         | |- returns (ret (inl _)) _ => apply returns_ret; now eexists
         | |- returns (raise _) _ => apply returns_raise
         end.
Qed.

Ltac step_tool :=
  repeat match goal with
         | |- structured (fst (run_tool _ _ _)) => apply run_tool_structured
         | |- returns (if ?b then _ else _) _ => destruct b
         | |- returns (match ?x with Some _ => _ | None => _ end) _ => destruct x
         | |- returns (match ?x with [] => _ | _ :: _ => _ end) _ => destruct x
         | |- returns (bind _ _) _ => apply returns_then; intros
         | |- returns (ret _) _ => apply returns_ret; auto with tools
         | |- returns (raise _) _ => apply returns_raise
         end.

(** C5. Each of the seven tools, on every input and in every state,
    returns a result whose status is "success", or "error" with a message;
    an exception raised inside a tool is turned into such an error result
    at the tool's boundary. *)
Theorem tools_return_structured_results (w : World) :
  (forall (file_path : string) (table_name : option string) (db_name : string)
          (sheet_name encoding : option string),
      structured (fst (import_file E file_path table_name db_name sheet_name encoding w))) /\
  (forall db_name : string, structured (fst (list_tables E db_name w))) /\
  (forall table_name db_name : string,
      structured (fst (describe_table E table_name db_name w))) /\
  (forall (query : Text.ustr) (db_name : string) (limit : Z),
      structured (fst (execute_sql E query db_name limit w))) /\
  (forall table_name db_name analysis_type : string,
      structured (fst (generate_analysis_report E table_name db_name analysis_type w))) /\
  (forall query output_path db_name format : string,
      structured (fst (export_query_result E query output_path db_name format w))) /\
  (forall db_name : string, structured (fst (clean_database E db_name w))).
Proof.
  repeat split; intros.
  - unfold import_file. apply run_tool_structured.
    destruct (negb (path_exists E file_path)); [apply returns_ret; auto with tools|].
    eapply returns_bind; [apply import_load_early|].
    intros [early|df] Hl; [destruct Hl as [msg ->]; apply returns_ret; auto with tools|].
    step_tool.
  - unfold list_tables. step_tool.
  - unfold describe_table. step_tool.
  - unfold execute_sql. step_tool.
  - unfold generate_analysis_report. step_tool.
  - unfold export_query_result. step_tool.
  - unfold clean_database. step_tool.
Qed.

End Structured.

(* ===================================================================== *)
(** ** The store registry: [get_or_create_db]                             *)
(* ===================================================================== *)

Section Registry.

Context (E : Env).

Lemma get_or_create_db_known (w : World) (db_name : string) (entry : DbEntry) :
  db_connections w !! db_name = Some entry ->
  get_or_create_db E db_name w = (inr (connection entry), w).
Proof.
  intros H. unfold get_or_create_db, bind, get_world, ret.
  rewrite H. now rewrite H.
Qed.

Lemma get_or_create_db_fresh (w : World) (db_name : string) :
  db_connections w !! db_name = None ->
  connect_error E (db_path_for E db_name w) = None ->
  get_or_create_db E db_name w =
    (inr {| conn_id := next_conn w; conn_path := db_path_for E db_name w |},
     with_new_store E db_name w).
Proof.
  intros H Hc. unfold get_or_create_db, bind, get_world, uuid4, sqlite3_connect, bind.
  rewrite H. cbn [uuids_drawn]. fold (db_path_for E db_name w).
  rewrite Hc. unfold check, ret, modify, set_db_connections. cbn.
  rewrite lookup_insert_eq. reflexivity.
Qed.

Lemma get_or_create_db_refused (w : World) (db_name : string) (e : exn) :
  db_connections w !! db_name = None ->
  connect_error E (db_path_for E db_name w) = Some e ->
  exists w', get_or_create_db E db_name w = (inl e, w') /\
             db_connections w' = db_connections w /\ databases w' = databases w.
Proof.
  intros H Hc. unfold get_or_create_db, bind, get_world, uuid4, sqlite3_connect, bind.
  rewrite H. cbn [uuids_drawn]. fold (db_path_for E db_name w).
  rewrite Hc. unfold check, raise. cbn. eexists. split; [reflexivity|]. split; reflexivity.
Qed.

(** Whenever [get_or_create_db] returns, the store is registered with the
    connection it returned. *)
Lemma get_or_create_db_returns (w w' : World) (db_name : string) (conn : Conn) :
  get_or_create_db E db_name w = (inr conn, w') ->
  exists entry, db_connections w' !! db_name = Some entry /\ connection entry = conn.
Proof.
  intros H. destruct (db_connections w !! db_name) as [entry|] eqn:Hl.
  - rewrite (get_or_create_db_known w db_name entry Hl) in H.
    inversion H; subst. now exists entry.
  - destruct (connect_error E (db_path_for E db_name w)) as [e|] eqn:Hc.
    + destruct (get_or_create_db_refused w db_name e Hl Hc) as (w1 & Hr & _).
      rewrite Hr in H. discriminate.
    + rewrite (get_or_create_db_fresh w db_name Hl Hc) in H. inversion H; subst.
      eexists. split; [apply lookup_insert_eq | reflexivity].
Qed.

End Registry.



(* ===================================================================== *)
(** ** Ingestion: [import_file]                                           *)
(* ===================================================================== *)

Section Catalogs.

Lemma drop_table_absent (name : string) (c : Catalog) :
  count_occ string_dec (table_names (drop_table name c)) name = 0.
Proof.
  induction c as [|[n df] c IH]; [reflexivity|]. simpl.
  destruct (String.eqb_spec n name) as [->|Hne]; simpl; [exact IH|].
  destruct (string_dec n name); [contradiction | exact IH].
Qed.

Lemma drop_table_idem (name : string) (c : Catalog) :
  drop_table name (drop_table name c) = drop_table name c.
Proof.
  induction c as [|[n df] c IH]; [reflexivity|]. simpl.
  destruct (String.eqb_spec n name) as [->|Hne]; simpl; [exact IH|].
  destruct (String.eqb_spec n name); [contradiction | now rewrite IH].
Qed.

Lemma drop_table_app (name : string) (c1 c2 : Catalog) :
  drop_table name (c1 ++ c2)%list = (drop_table name c1 ++ drop_table name c2)%list.
Proof. apply List.filter_app. Qed.

Lemma dict_get_drop_table (name : string) (df : DataFrame) (c : Catalog) :
  dict_get (drop_table name c ++ [(name, df)])%list name = Some df.
Proof.
  induction c as [|[n d] c IH]; simpl.
  - now rewrite String.eqb_refl.
  - destruct (String.eqb_spec n name) as [->|Hne]; simpl; [exact IH|].
    destruct (String.eqb_spec n name); [contradiction | exact IH].
Qed.

(** Storing a frame under a name leaves exactly one table of that name,
    holding that frame; storing it again changes nothing. *)
Lemma to_sql_replace_once (name : string) (df : DataFrame) (c : Catalog) :
  count_occ string_dec (table_names (to_sql_replace name df c)) name = 1.
Proof.
  unfold to_sql_replace, table_names. rewrite List.map_app, count_occ_app.
  fold (table_names (drop_table name c)). rewrite drop_table_absent. simpl.
  destruct (string_dec name name); [reflexivity | contradiction].
Qed.

Lemma to_sql_replace_lookup (name : string) (df : DataFrame) (c : Catalog) :
  dict_get (to_sql_replace name df c) name = Some df.
Proof. apply dict_get_drop_table. Qed.

Lemma to_sql_replace_idem (name : string) (df : DataFrame) (c : Catalog) :
  to_sql_replace name df (to_sql_replace name df c) = to_sql_replace name df c.
Proof.
  unfold to_sql_replace. rewrite drop_table_app, drop_table_idem. simpl.
  rewrite String.eqb_refl. simpl. now rewrite List.app_nil_r.
Qed.

End Catalogs.

Section Ingestion.

Import Spec.
Context (E : Env).

Lemma csv_fallback_stateless (file_path : string) (encs : list string) :
  exists r, forall w, csv_fallback E file_path encs w = (r, w).
Proof.
  induction encs as [|enc rest [r IH]]; simpl.
  - eexists. intros w. reflexivity.
  - destruct (read_csv E file_path "," enc) as [e|df].
    + now exists r.
    + eexists. intros w. reflexivity.
Qed.

(** Loading reads the file system and leaves the process state alone. *)
Lemma import_load_stateless (file_path file_ext : string) (sheet_name encoding : option string) :
  exists r, forall w, import_load E file_path file_ext sheet_name encoding w = (r, w).
Proof.
  unfold import_load.
  repeat match goal with
         | |- exists r, forall w, (if ?b then _ else _) w = _ => destruct b
         end.
  - destruct (read_csv E file_path "," _) as [e|df].
    + destruct (is_UnicodeDecodeError e).
      * destruct (csv_fallback_stateless file_path fallback_encodings) as [r Hr].
        exists (match r with inl x => inl x | inr df => inr (inr df) end).
        intros w. unfold bind. rewrite Hr. now destruct r.
      * eexists. intros w. reflexivity.
    + eexists. intros w. reflexivity.
  - destruct (truthy_str sheet_name);
      match goal with |- context [lift ?x] => destruct x as [e|df] eqn:Hx end;
      eexists; intros w; unfold bind, lift; reflexivity.
  - match goal with |- context [lift ?x] => destruct x as [e|df] eqn:Hx end;
      eexists; intros w; unfold bind, lift; reflexivity.
  - match goal with |- context [lift ?x] => destruct x as [e|df] eqn:Hx end;
      eexists; intros w; unfold bind, lift; reflexivity.
  - match goal with |- context [lift ?x] => destruct x as [e|df] eqn:Hx end;
      eexists; intros w; unfold bind, lift; reflexivity.
  - eexists. intros w. reflexivity.
Qed.

(** The fallback loop returns the frame of the first encoding of the list
    that reads the file, and raises only when none does. *)
Lemma csv_fallback_first (file_path : string) (pre post : list string) (enc : string)
    (df : DataFrame) (w : World) :
  Forall (fun x => exists e, read_csv E file_path "," x = inl e) pre ->
  read_csv E file_path "," enc = inr df ->
  csv_fallback E file_path (pre ++ enc :: post) w = (inr df, w).
Proof.
  intros Hpre Henc. induction Hpre as [|x pre [e Hx] _ IH]; simpl.
  - now rewrite Henc.
  - now rewrite Hx.
Qed.

Lemma csv_fallback_none (file_path : string) (encs : list string) (w : World) :
  Forall (fun x => exists e, read_csv E file_path "," x = inl e) encs ->
  csv_fallback E file_path encs w = (inl (Exn ValueError "无法确定文件编码"), w).
Proof.
  intros H. induction H as [|x encs [e Hx] _ IH]; simpl; [reflexivity|].
  now rewrite Hx.
Qed.

(** A [.csv] file whose first decoding fails goes through the fallback
    list. *)
Lemma import_load_csv_retries (file_path : string) (sheet_name encoding : option string)
    (e : exn) (w : World) :
  read_csv E file_path "," (chosen_encoding E file_path encoding) = inl e ->
  is_UnicodeDecodeError e = true ->
  import_load E file_path ".csv" sheet_name encoding w =
    match csv_fallback E file_path ["utf-8"; "gbk"; "gb2312"; "latin-1"] w with
    | (inr df, w') => (inr (inr df), w')
    | (inl e', w') => (inl e', w')
    end.
Proof.
  intros Hr He. unfold import_load, chosen_encoding in *.
  change (String.eqb ".csv" ".csv") with true. cbv iota.
  rewrite Hr, He. unfold bind, fallback_encodings.
  destruct (csv_fallback E file_path _ w) as [[e'|df] w']; reflexivity.
Qed.

(** A [.tsv] file whose decoding fails is not retried: the failure is the
    tool's answer. *)
Lemma import_file_tsv_not_retried (file_path : string) (table_name : option string)
    (db_name : string) (sheet_name encoding : option string) (e : exn) (w : World) :
  path_exists E file_path = true ->
  Text.lower (path_suffix E file_path) = ".tsv" ->
  read_csv E file_path TAB (chosen_encoding E file_path encoding) = inl e ->
  import_file E file_path table_name db_name sheet_name encoding w =
    (error_result ("导入文件时出错: " +:+ exn_str e), w).
Proof.
  intros Hp Hs Hr. unfold import_file, run_tool. rewrite Hp, Hs. cbn [negb].
  unfold bind at 1. unfold import_load, chosen_encoding in *.
  change (String.eqb ".tsv" ".csv") with false.
  change (String.eqb ".tsv" ".xlsx" || String.eqb ".tsv" ".xls") with false.
  change (String.eqb ".tsv" ".json") with false.
  change (String.eqb ".tsv" ".parquet") with false.
  change (String.eqb ".tsv" ".tsv") with true. cbv iota.
  unfold bind, lift. now rewrite Hr.
Qed.

Lemma import_file_missing (file_path : string) (table_name : option string)
    (db_name : string) (sheet_name encoding : option string) (w : World) :
  path_exists E file_path = false ->
  import_file E file_path table_name db_name sheet_name encoding w =
    (error_result ("文件不存在: " +:+ path_str E file_path), w).
Proof. intros Hp. unfold import_file, run_tool. now rewrite Hp. Qed.

Lemma import_file_stored (w wg : World) (file_path : string) (table_name : option string)
    (db_name : string) (sheet_name encoding : option string)
    (df : DataFrame) (entry : DbEntry) :
  path_exists E file_path = true ->
  import_load E file_path (Text.lower (path_suffix E file_path)) sheet_name encoding w
    = (inr (inr df), w) ->
  get_or_create_db E db_name w = (inr (connection entry), wg) ->
  db_connections wg !! db_name = Some entry ->
  to_sql_error E (resolve_table_name E file_path table_name) df = None ->
  import_file E file_path table_name db_name sheet_name encoding w =
    (import_success E file_path db_name (resolve_table_name E file_path table_name) df,
     registered db_name (resolve_table_name E file_path table_name) entry
       (stored (connection entry) (resolve_table_name E file_path table_name) df wg)).
Proof.
  intros Hp Hl Hg He Ht. unfold import_file, run_tool. rewrite Hp. cbn [negb].
  fold (resolve_table_name E file_path table_name).
  unfold bind at 1. rewrite Hl. unfold bind at 1. rewrite Hg.
  unfold bind at 1. unfold df_to_sql. rewrite Ht.
  unfold bind at 1. unfold register_table, bind, get_world.
  fold (stored (connection entry) (resolve_table_name E file_path table_name) df wg).
  change (db_connections (stored (connection entry)
            (resolve_table_name E file_path table_name) df wg))
    with (db_connections wg).
  rewrite He. reflexivity.
Qed.

Lemma not_success_error (msg : string) : ~ is_success (error_result msg).
Proof. unfold is_success. simpl. discriminate. Qed.

(** A successful import went all the way: the file was loaded, the store
    obtained, the frame stored and the name registered. *)
Lemma import_file_success_inv (w0 w1 : World) (file_path : string)
    (table_name : option string) (db_name : string) (sheet_name encoding : option string)
    (r1 : pyval) :
  import_file E file_path table_name db_name sheet_name encoding w0 = (r1, w1) ->
  is_success r1 ->
  exists (df : DataFrame) (wg : World) (entry : DbEntry),
    path_exists E file_path = true /\
    (forall w, import_load E file_path (Text.lower (path_suffix E file_path))
                 sheet_name encoding w = (inr (inr df), w)) /\
    get_or_create_db E db_name w0 = (inr (connection entry), wg) /\
    db_connections wg !! db_name = Some entry /\
    to_sql_error E (resolve_table_name E file_path table_name) df = None /\
    r1 = import_success E file_path db_name (resolve_table_name E file_path table_name) df /\
    w1 = registered db_name (resolve_table_name E file_path table_name) entry
           (stored (connection entry) (resolve_table_name E file_path table_name) df wg).
Proof.
  intros H Hs.
  destruct (path_exists E file_path) eqn:Hp.
  2: { rewrite (import_file_missing _ _ _ _ _ _ Hp) in H. inversion H; subst.
       now apply not_success_error in Hs. }
  destruct (import_load_stateless file_path (Text.lower (path_suffix E file_path))
              sheet_name encoding) as [r Hr].
  destruct r as [e|[early|df]].
  - exfalso. unfold import_file, run_tool in H. rewrite Hp in H. cbn [negb] in H.
    unfold bind at 1 in H. rewrite Hr in H. inversion H; subst.
    now apply not_success_error in Hs.
  - exfalso. destruct (import_load_early E _ _ _ _ w0 _ w0 (Hr w0)) as [msg ->].
    unfold import_file, run_tool in H. rewrite Hp in H. cbn [negb] in H.
    unfold bind at 1 in H. rewrite Hr in H. unfold ret in H. inversion H; subst.
    now apply not_success_error in Hs.
  - destruct (get_or_create_db E db_name w0) as [[e|conn] wg] eqn:Hg.
    + exfalso. unfold import_file, run_tool in H. rewrite Hp in H. cbn [negb] in H.
      unfold bind at 1 in H. rewrite Hr in H. unfold bind at 1 in H. rewrite Hg in H.
      inversion H; subst. now apply not_success_error in Hs.
    + destruct (get_or_create_db_returns E w0 wg db_name conn Hg) as (entry & He & <-).
      destruct (to_sql_error E (resolve_table_name E file_path table_name) df) as [e|] eqn:Ht.
      * exfalso. unfold import_file, run_tool in H. rewrite Hp in H. cbn [negb] in H.
        fold (resolve_table_name E file_path table_name) in H.
        unfold bind at 1 in H. rewrite Hr in H. unfold bind at 1 in H. rewrite Hg in H.
        unfold bind at 1 in H. unfold df_to_sql in H. rewrite Ht in H.
        inversion H; subst. now apply not_success_error in Hs.
      * rewrite (import_file_stored w0 wg _ _ _ _ _ df entry Hp (Hr w0) Hg He Ht) in H.
        inversion H; subst. exists df, wg, entry. auto 10.
Qed.

Lemma catalog_of_stored (conn : Conn) (name : string) (df : DataFrame) (w : World) :
  catalog_of (stored conn name df w) conn = to_sql_replace name df (catalog_of w conn).
Proof.
  unfold catalog_of at 1. unfold stored, set_catalog, set_databases. cbn [databases log_engine].
  now rewrite lookup_insert_eq.
Qed.

(** C6. When an import succeeds, importing the same file again under the
    same table name into the same store returns the same result (same
    table, same row and column statistics) and leaves the registry and
    every database as the first import left them: the catalog holds
    exactly one table of that name, and it is the frame that was loaded,
    whose length and columns are the counts reported. *)
Theorem import_file_twice_idempotent (w0 w1 : World) (file_path : string)
    (table_name : option string) (db_name : string) (sheet_name encoding : option string)
    (r1 : pyval) :
  import_file E file_path table_name db_name sheet_name encoding w0 = (r1, w1) ->
  is_success r1 ->
  exists (name : string) (df : DataFrame) (entry : DbEntry),
    field r1 "table" = Some (PStr name) /\
    field r1 "statistics" = Some (import_statistics df) /\
    field (import_statistics df) "rows" = Some (PInt (Z.of_nat (df_len df))) /\
    field (import_statistics df) "columns"
      = Some (PInt (Z.of_nat (List.length (df_columns df)))) /\
    db_connections w1 !! db_name = Some entry /\
    fst (import_file E file_path table_name db_name sheet_name encoding w1) = r1 /\
    db_connections (snd (import_file E file_path table_name db_name sheet_name encoding w1))
      = db_connections w1 /\
    databases (snd (import_file E file_path table_name db_name sheet_name encoding w1))
      = databases w1 /\
    count_occ string_dec
      (table_names
         (catalog_of (snd (import_file E file_path table_name db_name sheet_name encoding w1))
            (connection entry))) name = 1 /\
    dict_get
      (catalog_of (snd (import_file E file_path table_name db_name sheet_name encoding w1))
         (connection entry)) name = Some df.
Proof.
  intros H Hs.
  destruct (import_file_success_inv w0 w1 _ _ _ _ _ r1 H Hs)
    as (df & wg & entry & Hp & Hl & Hg & He & Ht & -> & ->).
  set (name := resolve_table_name E file_path table_name) in *.
  set (conn := connection entry) in *.
  set (entry1 := {| connection := conn; path := path entry;
                    tables := {[name]} ∪ tables entry |}).
  set (w1 := registered db_name name entry (stored conn name df wg)).
  assert (He1 : db_connections w1 !! db_name = Some entry1)
    by (unfold w1, registered, set_db_connections; cbn [db_connections];
        apply lookup_insert_eq).
  assert (Hcat1 : catalog_of w1 conn = to_sql_replace name df (catalog_of wg conn))
    by (exact (catalog_of_stored conn name df wg)).
  pose proof (import_file_stored w1 w1 file_path table_name db_name sheet_name encoding
                df entry1 Hp (Hl w1) (get_or_create_db_known E w1 db_name entry1 He1)
                He1 Ht) as H2.
  fold name in H2. change (connection entry1) with conn in H2.
  assert (Hdbs : databases (registered db_name name entry1 (stored conn name df w1))
                 = databases w1).
  { change (databases (registered db_name name entry1 (stored conn name df w1)))
      with (<[conn_path conn := to_sql_replace name df (catalog_of w1 conn)]> (databases w1)).
    rewrite Hcat1, to_sql_replace_idem.
    change (databases w1)
      with (<[conn_path conn := to_sql_replace name df (catalog_of wg conn)]> (databases wg)).
    apply insert_insert_eq. }
  assert (Hcat2 : catalog_of (registered db_name name entry1 (stored conn name df w1)) conn
                  = to_sql_replace name df (catalog_of wg conn)).
  { unfold catalog_of at 1. rewrite Hdbs. exact Hcat1. }
  exists name, df, entry1. rewrite H2. cbn [fst snd].
  split; [reflexivity|]. split; [reflexivity|]. split; [reflexivity|].
  split; [reflexivity|]. split; [exact He1|]. split; [reflexivity|].
  split; [|split; [exact Hdbs|]].
  - change (db_connections (registered db_name name entry1 (stored conn name df w1)))
      with (<[db_name := {| connection := conn; path := path entry;
                            tables := {[name]} ∪ ({[name]} ∪ tables entry) |}]>
              (db_connections w1)).
    rewrite (assoc_L (∪) {[name]} {[name]} (tables entry)), (union_idemp_L {[name]}).
    change (db_connections w1) with (<[db_name := entry1]> (db_connections wg)).
    apply insert_insert_eq.
  - change (connection entry1) with conn. rewrite Hcat2.
    split; [apply to_sql_replace_once | apply to_sql_replace_lookup].
Qed.

End Ingestion.

Lemma import_file_twice_idempotent_witness :
  import_file Demo.env "sales.csv" None "default" None None Demo.start
    = (import_success Demo.env "sales.csv" "default" "sales" Demo.sales, Demo.with_sales) /\
  Spec.is_success (import_success Demo.env "sales.csv" "default" "sales" Demo.sales) /\
  fst (import_file Demo.env "sales.csv" None "default" None None Demo.with_sales)
    = import_success Demo.env "sales.csv" "default" "sales" Demo.sales /\
  databases (snd (import_file Demo.env "sales.csv" None "default" None None Demo.with_sales))
    = databases Demo.with_sales.
Proof.
  assert (H1 : import_file Demo.env "sales.csv" None "default" None None Demo.start
               = (import_success Demo.env "sales.csv" "default" "sales" Demo.sales,
                  Demo.with_sales))
    by (vm_compute; reflexivity).
  assert (H2 : Spec.is_success (import_success Demo.env "sales.csv" "default" "sales" Demo.sales))
    by reflexivity.
  split; [exact H1|]. split; [exact H2|].
  destruct (import_file_twice_idempotent Demo.env Demo.start Demo.with_sales "sales.csv"
              None "default" None None _ H1 H2)
    as (name & df & entry & _ & _ & _ & _ & _ & H3 & _ & H4 & _).
  split; [exact H3 | exact H4].
Defined.

(** C4 fails on the code for [.tsv] files.  [legacy.tsv] is GBK text that
    the detector takes for ASCII: the import stops at the first decoding
    failure, although the fallback encoding "gbk" reads the file, and
    although the same bytes imported as [legacy.csv] go through the
    fallback list and succeed. *)
Theorem import_file_tsv_has_no_fallback :
  chosen_encoding Demo.env "legacy.tsv" None = "ascii" /\
  is_UnicodeDecodeError (Demo.decode_error "ascii") = true /\
  read_csv Demo.env "legacy.tsv" TAB "ascii" = inl (Demo.decode_error "ascii") /\
  read_csv Demo.env "legacy.tsv" TAB "gbk" = inr Demo.sales /\
  import_file Demo.env "legacy.tsv" None "default" None None Demo.start
    = (error_result ("导入文件时出错: " +:+ exn_str (Demo.decode_error "ascii")), Demo.start) /\
  fst (import_file Demo.env "legacy.csv" None "default" None None Demo.start)
    = import_success Demo.env "legacy.csv" "default" "legacy" Demo.sales.
Proof. repeat split; vm_compute; reflexivity. Qed.

(* ===================================================================== *)
(** ** The analysis engine: [generate_analysis_report]                    *)
(* ===================================================================== *)

Section Dicts.

Context {V : Type}.

Lemma dict_get_set_eq (d : list (string * V)) (k : string) (v : V) :
  dict_get (dict_set d k v) k = Some v.
Proof.
  induction d as [|[k' v'] d IH]; simpl.
  - now rewrite String.eqb_refl.
  - destruct (String.eqb_spec k' k) as [->|Hne]; simpl.
    + now rewrite String.eqb_refl.
    + destruct (String.eqb_spec k' k); [contradiction | exact IH].
Qed.

Lemma dict_get_set_ne (d : list (string * V)) (k k' : string) (v : V) :
  k' <> k -> dict_get (dict_set d k' v) k = dict_get d k.
Proof.
  intros Hne. induction d as [|[k0 v0] d IH]; simpl.
  - destruct (String.eqb_spec k' k); [contradiction | reflexivity].
  - destruct (String.eqb_spec k0 k') as [->|H0]; simpl.
    + destruct (String.eqb_spec k' k); [contradiction | reflexivity].
    + destruct (String.eqb_spec k0 k); [reflexivity | exact IH].
Qed.

Lemma dict_get_if_set_ne (b : bool) (d : list (string * V)) (k k' : string) (v : V) :
  k' <> k -> dict_get (if b then dict_set d k' v else d) k = dict_get d k.
Proof. intros Hne. destruct b; [now apply dict_get_set_ne | reflexivity]. Qed.

Lemma dict_get_absent (d : list (string * V)) (k : string) :
  ~ In k (map fst d) -> dict_get d k = None.
Proof.
  induction d as [|[k' v'] d IH]; simpl; intros H; [reflexivity|].
  destruct (String.eqb_spec k' k) as [->|Hne]; [exfalso; auto | apply IH; auto].
Qed.

Lemma dict_set_fresh (d : list (string * V)) (k : string) (v : V) :
  ~ In k (map fst d) -> dict_set d k v = (d ++ [(k, v)])%list.
Proof.
  induction d as [|[k' v'] d IH]; simpl; intros H; [reflexivity|].
  destruct (String.eqb_spec k' k) as [->|Hne]; [exfalso; auto|].
  rewrite IH; auto.
Qed.

(** With distinct keys, the dictionary made from a list of pairs is that
    list, and a lookup finds exactly the pairs of the list. *)
Lemma dict_of_pairs_distinct (l : list (string * V)) :
  List.NoDup (map fst l) -> dict_of_pairs l = l.
Proof.
  unfold dict_of_pairs.
  assert (G : forall acc, List.NoDup (map fst (acc ++ l)%list) ->
                          fold_left (fun d kv => dict_set d (fst kv) (snd kv)) l acc
                          = (acc ++ l)%list).
  { induction l as [|[k v] l IH]; intros acc Hnd; simpl.
    - now rewrite List.app_nil_r.
    - rewrite dict_set_fresh.
      + rewrite IH; rewrite <- List.app_assoc; [reflexivity | exact Hnd].
      + rewrite List.map_app in Hnd. simpl in Hnd.
        apply NoDup_remove_2 in Hnd. intros Hin. apply Hnd.
        apply List.in_or_app. now left. }
  intros Hnd. now apply (G []).
Qed.

Lemma dict_get_distinct (l : list (string * V)) (k : string) (v : V) :
  List.NoDup (map fst l) -> (dict_get l k = Some v <-> In (k, v) l).
Proof.
  induction l as [|[k' v'] l IH]; simpl; intros Hnd.
  - split; [discriminate | contradiction].
  - inversion Hnd as [|? ? Hnotin Hnd']; subst.
    destruct (String.eqb_spec k' k) as [->|Hne].
    + split.
      * intros [= ->]. now left.
      * intros [[= ->]|Hin]; [reflexivity|].
        exfalso. apply Hnotin. apply (List.in_map fst) in Hin. exact Hin.
    + rewrite (IH Hnd'). split; [now right|].
      intros [[= -> ->]|Hin]; [contradiction | exact Hin].
Qed.

End Dicts.

Section Pairs.

Lemma fold_append_filter {A B : Type} (p : A -> bool) (f : A -> B) (l : list A) (acc : list B) :
  fold_left (fun acc x => if p x then (acc ++ [f x])%list else acc) l acc
  = (acc ++ map f (List.filter p l))%list.
Proof.
  revert acc. induction l as [|x l IH]; intros acc; simpl.
  - now rewrite List.app_nil_r.
  - rewrite IH. destruct (p x); simpl; [now rewrite <- List.app_assoc | reflexivity].
Qed.

Lemma fold_append_flat_map {A B : Type} (g : A -> list B) (l : list A) (acc : list B) :
  fold_left (fun acc x => (acc ++ g x)%list) l acc = (acc ++ flat_map g l)%list.
Proof.
  revert acc. induction l as [|x l IH]; intros acc; simpl.
  - now rewrite List.app_nil_r.
  - rewrite IH. now rewrite <- List.app_assoc.
Qed.

Lemma map_filter_pair {A B C : Type} (p : A * B -> bool) (f : A * B -> C) (a : A) (l : list B) :
  map f (List.filter p (map (pair a) l))
  = map (fun b => f (a, b)) (List.filter (fun b => p (a, b)) l).
Proof.
  induction l as [|b l IH]; simpl; [reflexivity|].
  destruct (p (a, b)); simpl; now rewrite IH.
Qed.

Lemma in_all_pairs (n i j : nat) : In (i, j) (all_pairs n) <-> i < j < n.
Proof.
  unfold all_pairs, range. rewrite in_flat_map. split.
  - intros (x & Hx & Hin). apply in_map_iff in Hin as (y & [= -> ->] & Hy).
    apply in_seq in Hx, Hy. lia.
  - intros H. exists i. split; [apply in_seq; lia|].
    apply in_map_iff. exists j. split; [reflexivity | apply in_seq; lia].
Qed.

Lemma NoDup_pairs_of {A B : Type} (g : A -> list B) (l : list A) :
  List.NoDup l -> (forall a, List.NoDup (g a)) ->
  List.NoDup (flat_map (fun a => map (pair a) (g a)) l).
Proof.
  intros Hl Hg. induction Hl as [|a l Hnotin Hl IH]; simpl; [constructor|].
  apply List.NoDup_app.
  - apply Finite.Injective_map_NoDup; [|apply Hg]. intros x y [= ->]. reflexivity.
  - exact IH.
  - intros [x y] Hin1 Hin2.
    apply in_map_iff in Hin1 as (y' & [= <- <-] & _).
    apply in_flat_map in Hin2 as (a' & Ha' & Hin2).
    apply in_map_iff in Hin2 as (y'' & [= <- _] & _). contradiction.
Qed.

Lemma NoDup_all_pairs (n : nat) : List.NoDup (all_pairs n).
Proof.
  apply NoDup_pairs_of; [apply seq_NoDup | intros; apply seq_NoDup].
Qed.

End Pairs.

Section Reports.

Import Spec.
Context (E : Env).

Lemma basic_tier_get (df : DataFrame) (report : list (string * pyval)) (k : string) :
  k <> "numeric_summary" -> k <> "missing_values" -> k <> "data_types" ->
  dict_get (basic_tier E df report) k = dict_get report k.
Proof.
  intros H1 H2 H3. unfold basic_tier. cbv zeta.
  rewrite dict_get_set_ne by congruence.
  rewrite dict_get_if_set_ne by congruence.
  now rewrite dict_get_if_set_ne by congruence.
Qed.

Lemma basic_tier_missing (df : DataFrame) (report : list (string * pyval)) :
  dict_get (basic_tier E df report) "missing_values" =
    if (0 <? list_sum (map snd (isnull_sum df)))%nat
    then Some (PDict (missing_to_dict (isnull_sum df)))
    else dict_get report "missing_values".
Proof.
  unfold basic_tier. cbv zeta. rewrite dict_get_set_ne by discriminate.
  destruct (0 <? list_sum (map snd (isnull_sum df)))%nat.
  - apply dict_get_set_eq.
  - now rewrite dict_get_if_set_ne by discriminate.
Qed.

Lemma statistical_tier_get (df : DataFrame) (report R : list (string * pyval))
    (k : string) :
  statistical_tier E df report = inr R ->
  k <> "duplicate_rows" -> k <> "unique_value_counts" ->
  dict_get R k = dict_get report k.
Proof.
  intros H H1 H2. unfold statistical_tier in H. cbv zeta in H.
  destruct (unique_counts_loop E df (column_names df) []) as [e|[|u l]];
    [discriminate| |]; injection H as <-.
  - now rewrite dict_get_if_set_ne by congruence.
  - rewrite dict_get_set_ne by congruence.
    now rewrite dict_get_if_set_ne by congruence.
Qed.

Lemma correlation_tier_get (df : DataFrame) (report : list (string * pyval)) (k : string) :
  k <> "high_correlations" ->
  dict_get (correlation_tier E df report) k = dict_get report k.
Proof.
  intros H1. unfold correlation_tier. cbv zeta.
  destruct (1 <? _)%nat; [|reflexivity].
  destruct (high_corr_loop E (select_number df)); [reflexivity|].
  now rewrite dict_get_set_ne by congruence.
Qed.

Lemma is_tier_in_list (analysis_type : string) :
  is_tier analysis_type ->
  in_list analysis_type ["basic"; "statistical"; "correlation"] = true.
Proof. intros [->|[->| ->]]; reflexivity. Qed.

(** In every tier, the "missing_values" key is set exactly under the test
    [missing_data.sum() > 0]. *)
(** A report that was built went through the tiers of its type. *)
Lemma build_report_inv (table_name analysis_type : string) (df : DataFrame)
    (report : list (string * pyval)) :
  build_report E table_name analysis_type df = inr report ->
  exists R1 R2 : list (string * pyval),
    R1 = (if in_list analysis_type ["basic"; "statistical"; "correlation"]
          then basic_tier E df (report_header E table_name analysis_type df)
          else report_header E table_name analysis_type df) /\
    (if in_list analysis_type ["statistical"; "correlation"]
     then statistical_tier E df R1 else inr R1) = inr R2 /\
    report = (if String.eqb analysis_type "correlation"
              then correlation_tier E df R2 else R2).
Proof.
  unfold build_report. cbv zeta. fold (report_header E table_name analysis_type df).
  intros H.
  destruct (if in_list analysis_type ["statistical"; "correlation"] then _ else _)
    as [e|R2] eqn:HR2; [discriminate|].
  injection H as <-. eexists. exists R2. split; [reflexivity|].
  split; [exact HR2 | reflexivity].
Qed.

Lemma build_report_missing (table_name analysis_type : string) (df : DataFrame)
    (report : list (string * pyval)) :
  build_report E table_name analysis_type df = inr report ->
  is_tier analysis_type ->
  dict_get report "missing_values" =
    if (0 <? list_sum (map snd (isnull_sum df)))%nat
    then Some (PDict (missing_to_dict (isnull_sum df)))
    else None.
Proof.
  intros H Ht. destruct (build_report_inv _ _ _ _ H) as (R1 & R2 & HR1 & HR2 & ->).
  rewrite (is_tier_in_list _ Ht) in HR1.
  assert (G2 : dict_get R2 "missing_values" = dict_get R1 "missing_values").
  { destruct (in_list analysis_type ["statistical"; "correlation"]).
    - now apply (statistical_tier_get df R1 R2).
    - now injection HR2 as <-. }
  assert (G3 : dict_get (if String.eqb analysis_type "correlation"
                         then correlation_tier E df R2 else R2) "missing_values"
               = dict_get R2 "missing_values").
  { destruct (String.eqb analysis_type "correlation");
      [now rewrite correlation_tier_get by discriminate | reflexivity]. }
  rewrite G3, G2, HR1, basic_tier_missing. reflexivity.
Qed.

(** In the correlation tier, the "high_correlations" key is set exactly
    when there are at least two numeric columns and the loops emitted an
    entry. *)
Lemma build_report_high (table_name : string) (df : DataFrame)
    (report : list (string * pyval)) :
  build_report E table_name "correlation" df = inr report ->
  dict_get report "high_correlations" =
    if (1 <? List.length (df_columns (select_number df)))%nat then
      match high_corr_loop E (select_number df) with
      | [] => None
      | l => Some (PList l)
      end
    else None.
Proof.
  intros H. destruct (build_report_inv _ _ _ _ H) as (R1 & R2 & HR1 & HR2 & ->).
  change (in_list "correlation" ["basic"; "statistical"; "correlation"]) with true in HR1.
  change (in_list "correlation" ["statistical"; "correlation"]) with true in HR2.
  change (String.eqb "correlation" "correlation") with true. cbv iota in *.
  assert (G : dict_get R2 "high_correlations" = None).
  { rewrite (statistical_tier_get df R1 R2 _ HR2) by discriminate.
    subst R1. now rewrite basic_tier_get by discriminate. }
  unfold correlation_tier. cbv zeta.
  destruct (1 <? _)%nat; [|exact G].
  destruct (high_corr_loop E (select_number df)); [exact G | apply dict_get_set_eq].
Qed.

Lemma high_corr_inner_spec (numeric_df : DataFrame) (n i : nat) (acc : list pyval) :
  high_corr_inner E numeric_df n i acc =
    (acc ++ map (fun j => pair_entry E numeric_df (i, j))
              (List.filter (fun j => exceeds E numeric_df (i, j)) (range (i + 1) n)))%list.
Proof.
  unfold high_corr_inner.
  exact (fold_append_filter (fun j => exceeds E numeric_df (i, j))
           (fun j => pair_entry E numeric_df (i, j)) (range (i + 1) n) acc).
Qed.

Lemma filter_flat_map {A B C : Type} (p : B -> bool) (f : B -> C) (g : A -> list B) (l : list A) :
  map f (List.filter p (flat_map g l)) = flat_map (fun a => map f (List.filter p (g a))) l.
Proof.
  induction l as [|a l IH]; simpl; [reflexivity|].
  now rewrite List.filter_app, List.map_app, IH.
Qed.

(** The two loops emit, in order, the entries of the pairs [i < j < n]
    that pass the threshold test. *)
Lemma high_corr_loop_spec (numeric_df : DataFrame) :
  high_corr_loop E numeric_df =
    map (pair_entry E numeric_df)
        (List.filter (exceeds E numeric_df)
           (all_pairs (List.length (df_columns numeric_df)))).
Proof.
  unfold high_corr_loop. cbv zeta.
  set (n := List.length (df_columns numeric_df)).
  assert (G : forall l acc,
             fold_left (fun acc i => high_corr_inner E numeric_df n i acc) l acc
             = (acc ++ flat_map
                         (fun i => map (pair_entry E numeric_df)
                                       (List.filter (exceeds E numeric_df)
                                          (map (pair i) (range (i + 1) n)))) l)%list).
  { induction l as [|i l IH]; intros acc; simpl.
    - now rewrite List.app_nil_r.
    - rewrite IH, high_corr_inner_spec, map_filter_pair.
      now rewrite <- List.app_assoc. }
  rewrite G. simpl. unfold all_pairs. now rewrite filter_flat_map.
Qed.

Lemma generate_analysis_report_success_inv (w w' : World)
    (table_name db_name analysis_type : string) (r : pyval) :
  generate_analysis_report E table_name db_name analysis_type w = (r, w') ->
  is_success r ->
  exists (df : DataFrame) (report : list (string * pyval)),
    report_frame E w table_name db_name df /\
    build_report E table_name analysis_type df = inr report /\
    r = PDict [("status", PStr "success"); ("database", PStr db_name);
               ("report", PDict report)].
Proof.
  unfold generate_analysis_report, run_tool, bind, get_world. intros H Hs.
  destruct (db_connections w !! db_name) as [entry|] eqn:Hl.
  - unfold pd_read_sql_query in H.
    destruct (read_sql_query E ("SELECT * FROM " +:+ table_name)
                (catalog_of w (connection entry))) as [[e|df] cat] eqn:Hq.
    + inversion H; subst. now apply not_success_error in Hs.
    + unfold lift in H.
      destruct (build_report E table_name analysis_type df) as [e|report] eqn:Hb.
      * inversion H; subst. now apply not_success_error in Hs.
      * inversion H; subst. exists df, report.
        split; [now exists entry, cat|]. split; [exact Hb | reflexivity].
  - inversion H; subst. now apply not_success_error in Hs.
Qed.

(** C3. In a correlation-tier report there is a list of index pairs,
    without repetition, holding exactly the pairs [i < j] of numeric
    columns whose absolute correlation is above 0.7; "high_correlations"
    is the list of their entries (both column names and the correlation
    rounded to 3 places), and the key is absent when that list is empty,
    in particular when there are fewer than two numeric columns. *)
Theorem report_high_correlations (w w' : World) (table_name db_name : string) (r : pyval) :
  generate_analysis_report E table_name db_name "correlation" w = (r, w') ->
  is_success r ->
  exists (df : DataFrame) (report : list (string * pyval)) (pairs : list (nat * nat)),
    report_frame E w table_name db_name df /\
    field r "report" = Some (PDict report) /\
    List.NoDup pairs /\
    (forall i j : nat,
        In (i, j) pairs <->
        i < j < List.length (df_columns (select_number df)) /\
        PrimFloat.ltb 0.7%float
          (PrimFloat.abs (corr_iloc E (select_number df) i j)) = true) /\
    dict_get report "high_correlations" =
      match pairs with
      | [] => None
      | _ :: _ => Some (PList (map (pair_entry E (select_number df)) pairs))
      end /\
    (List.length (df_columns (select_number df)) < 2 ->
     dict_get report "high_correlations" = None).
Proof.
  intros H Hs.
  destruct (generate_analysis_report_success_inv w w' _ _ _ r H Hs)
    as (df & report & Hdf & Hb & ->).
  set (nd := select_number df).
  set (n := List.length (df_columns nd)).
  assert (Hin : forall i j, In (i, j) (List.filter (exceeds E nd) (all_pairs n)) <->
                            i < j < n /\
                            PrimFloat.ltb 0.7%float
                              (PrimFloat.abs (corr_iloc E nd i j)) = true).
  { intros i j. rewrite filter_In, in_all_pairs. reflexivity. }
  exists df, report, (List.filter (exceeds E nd) (all_pairs n)).
  split; [exact Hdf|]. split; [reflexivity|].
  split; [apply List.NoDup_filter, NoDup_all_pairs|].
  split; [exact Hin|].
  rewrite (build_report_high _ _ _ Hb), high_corr_loop_spec. fold nd. fold n.
  destruct (Nat.ltb_spec 1 n) as [Hn|Hn].
  - split; [|lia]. now destruct (List.filter (exceeds E nd) (all_pairs n)).
  - assert (Hnil : List.filter (exceeds E nd) (all_pairs n) = []).
    { destruct (List.filter (exceeds E nd) (all_pairs n)) as [|[i j] l] eqn:Hf; [reflexivity|].
      exfalso. destruct (Hin i j) as [Hij _].
      specialize (Hij (or_introl eq_refl)). lia. }
    rewrite Hnil. split; reflexivity.
Qed.

Lemma list_sum_positive (l : list nat) :
  (0 <? list_sum l)%nat = true <-> exists x, In x l /\ 0 < x.
Proof.
  rewrite Nat.ltb_lt. induction l as [|a l IH]; simpl.
  - split; [lia | intros (x & [] & _)].
  - split.
    + intros H. destruct a as [|a].
      * destruct IH as [IH _]. destruct (IH H) as (x & Hx & Hp). eauto.
      * exists (S a). split; [now left | lia].
    + intros (x & [->|Hx] & Hp); [lia|].
      destruct IH as [_ IH]. assert (0 < list_sum l) by eauto. lia.
Qed.

Lemma NoDup_keys_filter {V : Type} (p : string * V -> bool) (l : list (string * V)) :
  List.NoDup (map fst l) -> List.NoDup (map fst (List.filter p l)).
Proof.
  induction l as [|[k v] l IH]; simpl; intros Hnd; [constructor|].
  inversion Hnd as [|? ? Hnotin Hnd']; subst.
  destruct (p (k, v)); simpl; [|now apply IH].
  constructor; [|now apply IH].
  intros Hin. apply Hnotin. apply in_map_iff in Hin as ([k' v'] & Hk & Hin).
  apply filter_In in Hin as [Hin _]. apply in_map_iff. now exists (k', v').
Qed.

(** With distinct column names, [missing_to_dict] maps exactly the columns
    with a positive count to that count. *)
Lemma missing_to_dict_spec (df : DataFrame) (c : string) (v : pyval) :
  List.NoDup (column_names df) ->
  (dict_get (missing_to_dict (isnull_sum df)) c = Some v <->
   exists s : Series,
     In s (df_columns df) /\ s_name s = c /\ 0 < null_count s /\
     v = PInt (Z.of_nat (null_count s))).
Proof.
  intros Hnd. unfold missing_to_dict.
  set (kept := List.filter (fun p : string * nat => (0 <? snd p)%nat) (isnull_sum df)).
  assert (Hkeys : List.NoDup (map fst (map (fun p : string * nat =>
                                              (fst p, PInt (Z.of_nat (snd p)))) kept))).
  { rewrite List.map_map. simpl. apply NoDup_keys_filter.
    unfold isnull_sum. rewrite List.map_map. exact Hnd. }
  rewrite (dict_of_pairs_distinct _ Hkeys), (dict_get_distinct _ c v Hkeys).
  rewrite in_map_iff. unfold kept, isnull_sum. split.
  - intros ([k m] & [= <- <-] & Hin). apply filter_In in Hin as [Hin Hpos].
    apply in_map_iff in Hin as (s & [= <- <-] & Hs). apply Nat.ltb_lt in Hpos.
    now exists s.
  - intros (s & Hs & <- & Hpos & ->). exists (s_name s, null_count s).
    split; [reflexivity|]. apply filter_In. split.
    + apply in_map_iff. now exists s.
    + now apply Nat.ltb_lt.
Qed.

(** C8. In a report of any of the three tiers, "missing_values" is absent
    when no column has a missing value; when some column has one, it is
    a mapping that (the column names being distinct) has exactly the
    columns with at least one missing value as keys, each with its count. *)
Theorem report_missing_values (w w' : World) (table_name db_name analysis_type : string)
    (r : pyval) :
  generate_analysis_report E table_name db_name analysis_type w = (r, w') ->
  is_success r ->
  is_tier analysis_type ->
  exists (df : DataFrame) (report : list (string * pyval)),
    report_frame E w table_name db_name df /\
    field r "report" = Some (PDict report) /\
    ((forall s : Series, In s (df_columns df) -> null_count s = 0) ->
     dict_get report "missing_values" = None) /\
    ((exists s : Series, In s (df_columns df) /\ 0 < null_count s) ->
     exists m : list (string * pyval),
       dict_get report "missing_values" = Some (PDict m) /\
       (List.NoDup (column_names df) ->
        forall (c : string) (v : pyval),
          dict_get m c = Some v <->
          exists s : Series,
            In s (df_columns df) /\ s_name s = c /\ 0 < null_count s /\
            v = PInt (Z.of_nat (null_count s)))).
Proof.
  intros H Hs Ht.
  destruct (generate_analysis_report_success_inv w w' _ _ _ r H Hs)
    as (df & report & Hdf & Hb & ->).
  exists df, report.
  split; [exact Hdf|]. split; [reflexivity|].
  rewrite (build_report_missing table_name analysis_type df report Hb Ht).
  destruct (0 <? list_sum (map snd (isnull_sum df)))%nat eqn:Hsum.
  - apply list_sum_positive in Hsum as (x & Hx & Hpos).
    unfold isnull_sum in Hx. rewrite List.map_map in Hx. simpl in Hx.
    apply in_map_iff in Hx as (s & <- & Hs').
    split.
    + intros Hnone. specialize (Hnone s Hs'). lia.
    + intros _. eexists. split; [reflexivity|].
      intros Hnd c v. now apply missing_to_dict_spec.
  - split; [reflexivity|].
    intros (s & Hs' & Hpos). exfalso.
    assert (Hsum' : (0 <? list_sum (map snd (isnull_sum df)))%nat = true).
    { apply list_sum_positive. exists (null_count s). split; [|exact Hpos].
      unfold isnull_sum. rewrite List.map_map. simpl. apply in_map_iff. now exists s. }
    congruence.
Qed.

End Reports.

Lemma report_high_correlations_witness :
  generate_analysis_report Demo.env "sales" "default" "correlation" Demo.with_sales
    = (fst (generate_analysis_report Demo.env "sales" "default" "correlation" Demo.with_sales),
       snd (generate_analysis_report Demo.env "sales" "default" "correlation" Demo.with_sales)) /\
  Spec.is_success
    (fst (generate_analysis_report Demo.env "sales" "default" "correlation" Demo.with_sales)) /\
  exists (df : DataFrame) (report : list (string * pyval)) (pairs : list (nat * nat)),
    report_frame Demo.env Demo.with_sales "sales" "default" df /\
    field (fst (generate_analysis_report Demo.env "sales" "default" "correlation"
                  Demo.with_sales)) "report" = Some (PDict report) /\
    List.NoDup pairs /\
    (forall i j : nat,
        In (i, j) pairs <->
        i < j < List.length (df_columns (select_number df)) /\
        PrimFloat.ltb 0.7%float
          (PrimFloat.abs (corr_iloc Demo.env (select_number df) i j)) = true) /\
    dict_get report "high_correlations" =
      match pairs with
      | [] => None
      | _ :: _ => Some (PList (map (pair_entry Demo.env (select_number df)) pairs))
      end /\
    (List.length (df_columns (select_number df)) < 2 ->
     dict_get report "high_correlations" = None).
Proof.
  assert (H1 : generate_analysis_report Demo.env "sales" "default" "correlation" Demo.with_sales
    = (fst (generate_analysis_report Demo.env "sales" "default" "correlation" Demo.with_sales),
       snd (generate_analysis_report Demo.env "sales" "default" "correlation" Demo.with_sales)))
    by apply surjective_pairing.
  assert (H2 : Spec.is_success
    (fst (generate_analysis_report Demo.env "sales" "default" "correlation" Demo.with_sales)))
    by (vm_compute; reflexivity).
  split; [exact H1|]. split; [exact H2|].
  exact (report_high_correlations Demo.env Demo.with_sales _ "sales" "default" _ H1 H2).
Defined.

Lemma report_missing_values_witness :
  generate_analysis_report Demo.env "sales" "default" "basic" Demo.with_sales
    = (fst (generate_analysis_report Demo.env "sales" "default" "basic" Demo.with_sales),
       snd (generate_analysis_report Demo.env "sales" "default" "basic" Demo.with_sales)) /\
  Spec.is_success
    (fst (generate_analysis_report Demo.env "sales" "default" "basic" Demo.with_sales)) /\
  Spec.is_tier "basic" /\
  exists (df : DataFrame) (report : list (string * pyval)),
    report_frame Demo.env Demo.with_sales "sales" "default" df /\
    field (fst (generate_analysis_report Demo.env "sales" "default" "basic" Demo.with_sales))
      "report" = Some (PDict report) /\
    ((forall s : Series, In s (df_columns df) -> null_count s = 0) ->
     dict_get report "missing_values" = None) /\
    ((exists s : Series, In s (df_columns df) /\ 0 < null_count s) ->
     exists m : list (string * pyval),
       dict_get report "missing_values" = Some (PDict m) /\
       (List.NoDup (column_names df) ->
        forall (c : string) (v : pyval),
          dict_get m c = Some v <->
          exists s : Series,
            In s (df_columns df) /\ s_name s = c /\ 0 < null_count s /\
            v = PInt (Z.of_nat (null_count s)))).
Proof.
  assert (H1 : generate_analysis_report Demo.env "sales" "default" "basic" Demo.with_sales
    = (fst (generate_analysis_report Demo.env "sales" "default" "basic" Demo.with_sales),
       snd (generate_analysis_report Demo.env "sales" "default" "basic" Demo.with_sales)))
    by apply surjective_pairing.
  assert (H2 : Spec.is_success
    (fst (generate_analysis_report Demo.env "sales" "default" "basic" Demo.with_sales)))
    by (vm_compute; reflexivity).
  assert (H3 : Spec.is_tier "basic") by (left; reflexivity).
  split; [exact H1|]. split; [exact H2|]. split; [exact H3|].
  exact (report_missing_values Demo.env Demo.with_sales _ "sales" "default" "basic" _
           H1 H2 H3).
Defined.

(** The demo report: one pair above the threshold (price and discount at
    0.98), the pair at -0.7 left out, and one column with a missing value. *)
Example demo_report :
  exists report : list (string * pyval),
    field (fst (generate_analysis_report Demo.env "sales" "default" "correlation"
                  Demo.with_sales)) "report" = Some (PDict report) /\
    dict_get report "high_correlations"
      = Some (PList [PDict [("column1", PStr "price"); ("column2", PStr "discount");
                            ("correlation", PFloat 0.98%float)]]) /\
    dict_get report "missing_values" = Some (PDict [("region", PInt 1)]).
Proof. eexists. repeat split; vm_compute; reflexivity. Qed.

(* ===================================================================== *)
(** ** Table description: [describe_table]                                *)
(* ===================================================================== *)

Section Describe.

Import Spec.
Context (E : Env).











End Describe.



(** The demo description: the average 0.0 of "balance" is reported as
    None, the average 2.67 of "price" as itself. *)
Example demo_describe :
  exists stats : list (string * pyval),
    field (fst (describe_table Demo.env "sales" "default" Demo.with_sales))
      "numeric_statistics" = Some (PDict stats) /\
    dict_get stats "balance"
      = Some (PDict [("min", PInt (-3)); ("max", PInt 3); ("avg", PNone)]) /\
    dict_get stats "price"
      = Some (PDict [("min", PFloat 1.5%float); ("max", PFloat 4%float);
                     ("avg", PFloat 2.67%float)]).
Proof. eexists. repeat split; vm_compute; reflexivity. Qed.

(* ===================================================================== *)
(** ** Maintenance: [clean_database]                                      *)
(* ===================================================================== *)

Section Maintenance.

Import Spec.
Context (E : Env).

Lemma clean_database_unknown (w : World) (db_name : string) :
  db_connections w !! db_name = None ->
  clean_database E db_name w = (unknown_db db_name, w).
Proof. intros H. unfold clean_database, run_tool, bind, get_world. now rewrite H. Qed.

Lemma catalog_of_executed (conn : Conn) (call : EngineCall) (cat : Catalog) (w : World) :
  catalog_of (log_engine conn call (set_catalog conn cat w)) conn = cat.
Proof.
  unfold catalog_of, log_engine, set_catalog, set_databases. cbn [databases].
  now rewrite lookup_insert_eq.
Qed.

Lemma dropping_registry (conn : Conn) (names : list string) (w : World) :
  db_connections (dropping E conn names w) = db_connections w.
Proof.
  revert w. induction names as [|n names IH]; intros w; [reflexivity|].
  unfold dropping in *. simpl. now rewrite IH.
Qed.

Lemma dropping_catalog (conn : Conn) (names : list string) (w : World) :
  catalog_of (dropping E conn names w) conn = drop_all names (catalog_of w conn).
Proof.
  revert w. induction names as [|n names IH]; intros w; [reflexivity|].
  unfold dropping, drop_all in *. simpl. now rewrite IH, catalog_of_executed.
Qed.

Lemma dropping_log (conn : Conn) (names : list string) (w : World) :
  engine_log (dropping E conn names w) =
    (engine_log w ++ map (fun n => (conn, Execute (drop_statement E (PStr n)))) names)%list.
Proof.
  revert w. induction names as [|n names IH]; intros w.
  - simpl. now rewrite List.app_nil_r.
  - unfold dropping in *. simpl. rewrite IH. cbn [engine_log log_engine].
    now rewrite <- List.app_assoc.
Qed.

Lemma drop_table_names (n : string) (c : Catalog) (p : string * DataFrame) :
  In p (drop_table n c) <-> In p c /\ fst p <> n.
Proof.
  unfold drop_table. rewrite filter_In.
  destruct (String.eqb_spec (fst p) n); simpl; intuition congruence.
Qed.

Lemma drop_all_covers (names : list string) (c : Catalog) :
  (forall p, In p c -> In (fst p) names) -> drop_all names c = [].
Proof.
  revert c. induction names as [|n names IH]; intros c Hc.
  - destruct c as [|p c]; [reflexivity|]. destruct (Hc p (or_introl eq_refl)).
  - unfold drop_all in *. simpl. apply IH. intros p Hp.
    apply drop_table_names in Hp as [Hp Hne].
    destruct (Hc p Hp) as [Heq|Hin]; [congruence | exact Hin].
Qed.

Lemma mapM_first_cells (names : list string) (w : World) :
  mapM (fun row => getitem row 0) (map (fun n => [PStr n]) names) w
  = (inr (map PStr names), w).
Proof.
  induction names as [|n names IH]; [reflexivity|].
  simpl. unfold bind at 1. unfold getitem at 1. simpl. unfold ret at 1.
  unfold bind. now rewrite IH.
Qed.

Lemma drop_loop (conn : Conn) (names : list string) (w : World) :
  Forall (drops_unquoted E) names ->
  forM_ (map PStr names)
        (fun table => let* _ := cursor_execute E conn (drop_statement E table) in ret tt) w
  = (inr tt, dropping E conn names w).
Proof.
  intros H. revert w. induction H as [|n names Hn _ IH]; intros w; [reflexivity|].
  simpl. unfold bind at 1. unfold bind at 1. unfold cursor_execute at 1.
  rewrite (Hn (catalog_of w conn)). unfold ret at 1. rewrite IH. reflexivity.
Qed.

(** Where the engine answers the catalog query and takes each table name
    unquoted, [clean_database] on a known store drops every table of the
    catalog, commits, empties the bookkeeping set and returns the names
    of the dropped tables. *)
Lemma clean_database_drops_all (w : World) (db_name : string) (entry : DbEntry) :
  db_connections w !! db_name = Some entry ->
  lists_tables E ->
  Forall (drops_unquoted E) (table_names (catalog_of w (connection entry))) ->
  exists w' : World,
    clean_database E db_name w =
      (PDict [("status", PStr "success");
              ("message",
               PStr ("成功清理数据库 " +:+ db_name +:+ "，删除了 "
                     +:+ Text.str_of_len
                           (List.length (table_names (catalog_of w (connection entry))))
                     +:+ " 个表"));
              ("deleted_tables",
               PList (map PStr (table_names (catalog_of w (connection entry)))))], w') /\
    catalog_of w' (connection entry) = [] /\
    db_connections w' !! db_name =
      Some {| connection := connection entry; path := path entry; tables := ∅ |} /\
    engine_log w' =
      (engine_log w
       ++ (connection entry, Execute master_query)
       :: map (fun n => (connection entry, Execute (drop_statement E (PStr n))))
              (table_names (catalog_of w (connection entry)))
       ++ [(connection entry, Commit)])%list.
Proof.
  intros Hl Hm Hd.
  set (conn := connection entry) in *.
  set (names := table_names (catalog_of w conn)) in *.
  set (w1 := log_engine conn (Execute master_query) (set_catalog conn (catalog_of w conn) w)).
  assert (Hcat1 : catalog_of w1 conn = catalog_of w conn) by apply catalog_of_executed.
  set (w2 := dropping E conn names w1).
  set (w3 := log_engine conn Commit w2).
  assert (Hreg : db_connections w3 !! db_name = Some entry).
  { change (db_connections w3) with (db_connections w2).
    unfold w2. rewrite dropping_registry. exact Hl. }
  eexists. split; [|split; [|split]].
  - unfold clean_database, run_tool. unfold bind at 1. unfold get_world at 1.
    rewrite Hl. unfold bind at 1. unfold cursor_execute at 1.
    rewrite (Hm (catalog_of w (connection entry))). fold conn. fold names. fold w1.
    unfold bind at 1. rewrite mapM_first_cells.
    unfold bind at 1. rewrite (drop_loop conn names w1 Hd). fold w2.
    unfold bind at 1. unfold conn_commit, modify. fold w3.
    unfold bind at 1. unfold clear_tables, bind, get_world. rewrite Hreg.
    unfold modify, ret. rewrite List.length_map. reflexivity.
  - unfold catalog_of. cbn [databases set_db_connections]. fold (catalog_of w3 conn).
    change (catalog_of w3 conn) with (catalog_of w2 conn).
    unfold w2. rewrite dropping_catalog, Hcat1. apply drop_all_covers.
    intros p Hp. unfold names, table_names. now apply List.in_map.
  - cbn [db_connections set_db_connections]. apply lookup_insert_eq.
  - cbn [engine_log set_db_connections]. change (engine_log w3)
      with (engine_log w2 ++ [(conn, Commit)])%list.
    unfold w2. rewrite dropping_log. cbn [engine_log log_engine w1 set_catalog set_databases].
    rewrite <- !List.app_assoc. reflexivity.
Qed.

End Maintenance.

(** The demo engine meets both assumptions for the table "sales". *)
Example clean_database_demo :
  exists w' : World,
    fst (clean_database Demo.env "default" Demo.with_sales)
      = PDict [("status", PStr "success");
               ("message", PStr "成功清理数据库 default，删除了 1 个表");
               ("deleted_tables", PList [PStr "sales"])] /\
    snd (clean_database Demo.env "default" Demo.with_sales) = w' /\
    catalog_of w' Demo.default_conn = [] /\
    db_connections w' !! "default"
      = Some {| connection := Demo.default_conn; path := path Demo.sales_entry;
                tables := ∅ |}.
Proof.
  assert (H1 : db_connections Demo.with_sales !! "default" = Some Demo.sales_entry)
    by (vm_compute; reflexivity).
  assert (H2 : lists_tables Demo.env) by (intros cat; reflexivity).
  assert (H3 : Forall (drops_unquoted Demo.env)
                 (table_names (catalog_of Demo.with_sales (connection Demo.sales_entry)))).
  { change (Forall (drops_unquoted Demo.env) ["sales"]).
    constructor; [|constructor]. intros cat. reflexivity. }
  destruct (clean_database_drops_all Demo.env Demo.with_sales "default" Demo.sales_entry
              H1 H2 H3) as (w' & Hc & Hcat & Hreg & _).
  exists w'. rewrite Hc. repeat split; assumption.
Qed.

(** C7 fails on the code for a table whose name SQLite does not read as
    one unquoted name.  After [import_file("2024_sales.csv")] the catalog
    holds the table "2024_sales"; [clean_database] builds
    [DROP TABLE IF EXISTS 2024_sales;], the engine rejects it, and the
    tool answers with an error: the table is still there, nothing was
    committed and the bookkeeping set still holds the name. *)
Theorem clean_database_unquoted_name :
  db_connections Demo.with_2024_sales !! "default" = Some Demo.sales_2024_entry /\
  table_names (catalog_of Demo.with_2024_sales Demo.default_conn) = ["2024_sales"] /\
  fst (clean_database Demo.env "default" Demo.with_2024_sales)
    = error_result ("清理数据库时出错: " +:+ exn_str (Demo.syntax_error "2024_sales")) /\
  table_names (catalog_of (snd (clean_database Demo.env "default" Demo.with_2024_sales))
                 Demo.default_conn) = ["2024_sales"] /\
  db_connections (snd (clean_database Demo.env "default" Demo.with_2024_sales)) !! "default"
    = Some Demo.sales_2024_entry /\
  engine_log (snd (clean_database Demo.env "default" Demo.with_2024_sales)) =
    (engine_log Demo.with_2024_sales
     ++ [(Demo.default_conn, Execute master_query);
         (Demo.default_conn, Execute "DROP TABLE IF EXISTS 2024_sales;")])%list.
Proof. repeat split; vm_compute; reflexivity. Qed.

(* ===================================================================== *)
(** ** The registry over the life of the process                          *)
(* ===================================================================== *)

Section Lifetime.

Context (E : Env).

Lemma same_connections_refl (w : World) : same_connections w w.
Proof. intros n e H. now exists e. Qed.

Lemma same_connections_trans (w1 w2 w3 : World) :
  same_connections w1 w2 -> same_connections w2 w3 -> same_connections w1 w3.
Proof.
  intros H12 H23 n e H. destruct (H12 n e H) as (e2 & H2 & Hc2 & Hp2).
  destruct (H23 n e2 H2) as (e3 & H3 & Hc3 & Hp3).
  exists e3. split; [exact H3|]. split; congruence.
Qed.

Lemma same_connections_registry (w w' : World) :
  db_connections w' = db_connections w -> same_connections w w'.
Proof. intros Heq n e H. exists e. now rewrite Heq. Qed.

Lemma keeps_ret {A : Type} (a : A) : keeps (ret a).
Proof. intros w r w' H. inversion H; subst. apply same_connections_refl. Qed.

Lemma keeps_raise {A : Type} (e : exn) : keeps (@raise A e).
Proof. intros w r w' H. inversion H; subst. apply same_connections_refl. Qed.

Lemma keeps_lift {A : Type} (x : exn + A) : keeps (lift x).
Proof. intros w r w' H. inversion H; subst. apply same_connections_refl. Qed.

Lemma keeps_check (o : option exn) : keeps (check o).
Proof. destruct o; [apply keeps_raise | apply keeps_ret]. Qed.

Lemma keeps_get_world : keeps get_world.
Proof. intros w r w' H. inversion H; subst. apply same_connections_refl. Qed.

Lemma keeps_bind {A B : Type} (m : M A) (k : A -> M B) :
  keeps m -> (forall a, keeps (k a)) -> keeps (bind m k).
Proof.
  intros Hm Hk w r w' H. unfold bind in H.
  destruct (m w) as [[e|a] w1] eqn:Hmw.
  - inversion H; subst. exact (Hm w _ _ Hmw).
  - exact (same_connections_trans _ _ _ (Hm w _ _ Hmw) (Hk a w1 _ _ H)).
Qed.

Lemma keeps_modify_log (f : World -> World) :
  (forall w, db_connections (f w) = db_connections w) -> keeps (modify f).
Proof.
  intros Hf w r w' H. inversion H; subst. now apply same_connections_registry.
Qed.

Lemma keeps_cursor_execute (conn : Conn) (sql : string) : keeps (cursor_execute E conn sql).
Proof.
  intros w r w' H. unfold cursor_execute in H.
  destruct (sqlite_execute E sql (catalog_of w conn)) as [x cat].
  inversion H; subst. now apply same_connections_registry.
Qed.

Lemma keeps_read_sql_query (sql : string) (conn : Conn) : keeps (pd_read_sql_query E sql conn).
Proof.
  intros w r w' H. unfold pd_read_sql_query in H.
  destruct (read_sql_query E sql (catalog_of w conn)) as [x cat].
  inversion H; subst. now apply same_connections_registry.
Qed.

Lemma keeps_to_sql (df : DataFrame) (name : string) (conn : Conn) :
  keeps (df_to_sql E df name conn).
Proof.
  intros w r w' H. unfold df_to_sql in H.
  destruct (to_sql_error E name df); inversion H; subst;
    now apply same_connections_registry.
Qed.

Lemma keeps_commit (conn : Conn) : keeps (conn_commit conn).
Proof. now apply keeps_modify_log. Qed.

Lemma keeps_getitem (t : list pyval) (i : nat) : keeps (getitem t i).
Proof. unfold getitem. destruct (nth_error t i); [apply keeps_ret | apply keeps_raise]. Qed.

Lemma keeps_mapM {A B : Type} (f : A -> M B) (l : list A) :
  (forall a, keeps (f a)) -> keeps (mapM f l).
Proof.
  intros Hf. induction l as [|a l IH]; simpl; [apply keeps_ret|].
  apply keeps_bind; [apply Hf|]. intros b.
  apply keeps_bind; [exact IH|]. intros bs. apply keeps_ret.
Qed.

Lemma keeps_forM_ {A : Type} (l : list A) (body : A -> M unit) :
  (forall a, keeps (body a)) -> keeps (forM_ l body).
Proof.
  intros Hb. induction l as [|a l IH]; simpl; [apply keeps_ret|].
  apply keeps_bind; [apply Hb | intros _; exact IH].
Qed.

Lemma keeps_replace_entry (db_name : string) (entry : DbEntry) (s : gset string) :
  forall w : World,
    db_connections w !! db_name = Some entry ->
    same_connections w
      (set_db_connections
         (fun reg => <[db_name := {| connection := connection entry; path := path entry;
                                     tables := s |}]> reg) w).
Proof.
  intros w Hl n e H. cbn [db_connections set_db_connections].
  destruct (decide (db_name = n)) as [->|Hne].
  - rewrite lookup_insert_eq. eexists. split; [reflexivity|].
    rewrite Hl in H. inversion H; subst. split; reflexivity.
  - rewrite lookup_insert_ne by exact Hne. now exists e.
Qed.

Lemma keeps_register_table (db_name table_name : string) :
  keeps (register_table db_name table_name).
Proof.
  intros w r w' H. unfold register_table, bind, get_world in H.
  destruct (db_connections w !! db_name) as [entry|] eqn:Hl.
  - inversion H; subst. now apply keeps_replace_entry.
  - inversion H; subst. apply same_connections_refl.
Qed.

Lemma keeps_clear_tables (db_name : string) : keeps (clear_tables db_name).
Proof.
  intros w r w' H. unfold clear_tables, bind, get_world in H.
  destruct (db_connections w !! db_name) as [entry|] eqn:Hl.
  - inversion H; subst. now apply keeps_replace_entry.
  - inversion H; subst. apply same_connections_refl.
Qed.

Lemma keeps_get_or_create_db (db_name : string) : keeps (get_or_create_db E db_name).
Proof.
  intros w r w' H.
  destruct (db_connections w !! db_name) as [entry|] eqn:Hl.
  - rewrite (get_or_create_db_known E w db_name entry Hl) in H. inversion H; subst.
    apply same_connections_refl.
  - destruct (connect_error E (db_path_for E db_name w)) as [e|] eqn:Hc.
    + destruct (get_or_create_db_refused E w db_name e Hl Hc) as (w1 & Hr & Hreg & _).
      rewrite Hr in H. inversion H; subst. now apply same_connections_registry.
    + rewrite (get_or_create_db_fresh E w db_name Hl Hc) in H. inversion H; subst.
      intros n e Hn. exists e. split; [|split; reflexivity].
      unfold with_new_store. cbn [db_connections].
      rewrite lookup_insert_ne; [exact Hn|]. intros ->. congruence.
Qed.

Lemma keeps_csv_fallback (file_path : string) (encs : list string) :
  keeps (csv_fallback E file_path encs).
Proof.
  induction encs as [|enc rest IH]; simpl; [apply keeps_raise|].
  destruct (read_csv E file_path "," enc); [exact IH | apply keeps_ret].
Qed.

Lemma keeps_py_round (v : pyval) (n : Z) : keeps (py_round E v n).
Proof. destruct v; simpl; try apply keeps_raise; apply keeps_ret. Qed.

Lemma keeps_fetchone_first (rows : list (list pyval)) : keeps (fetchone_first rows).
Proof. destruct rows; simpl; [apply keeps_raise | apply keeps_getitem]. Qed.

Lemma keeps_fetchone_unpack3 (rows : list (list pyval)) : keeps (fetchone_unpack3 rows).
Proof.
  destruct rows as [|[|a [|b [|c [|d row]]]] rows]; simpl;
    try apply keeps_raise; apply keeps_ret.
Qed.

Create HintDb keeps.
#[local] Hint Resolve keeps_ret keeps_raise keeps_lift keeps_check keeps_get_world
  keeps_cursor_execute keeps_read_sql_query keeps_to_sql keeps_commit keeps_getitem
  keeps_register_table keeps_clear_tables keeps_get_or_create_db keeps_csv_fallback
  keeps_py_round keeps_fetchone_first keeps_fetchone_unpack3 : keeps.

Ltac keeps_steps :=
  repeat match goal with
         | |- keeps (let _ := _ in _) => cbv zeta
         | |- keeps (bind _ _) => apply keeps_bind; [|intros]
         | |- keeps (mapM _ _) => apply keeps_mapM; intros
         | |- keeps (forM_ _ _) => apply keeps_forM_; intros
         | |- keeps (modify (log_fs _)) => now apply keeps_modify_log
         | |- keeps (if ?b then _ else _) => destruct b
         | |- keeps (match ?x with Some _ => _ | None => _ end) => destruct x
         | |- keeps (match ?x with inl _ => _ | inr _ => _ end) => destruct x
         | |- keeps (match ?x with [] => _ | _ :: _ => _ end) => destruct x
         | |- keeps (let '(_, _) := ?x in _) => destruct x
         | |- keeps _ => solve [auto with keeps]
         end.

Lemma keeps_numeric_stats_loop (conn : Conn) (table_name : string) (cols : list string) :
  forall acc, keeps (numeric_stats_loop E conn table_name cols acc).
Proof.
  induction cols as [|c cols IH]; intros acc; cbn [numeric_stats_loop]; [apply keeps_ret|].
  apply keeps_bind; [auto with keeps|]. intros rows.
  apply keeps_bind; [auto with keeps|]. intros [[min_val max_val] avg_val].
  apply keeps_bind; [|intros; apply IH].
  unfold avg_field. destruct (truthy avg_val); auto with keeps.
Qed.

Lemma keeps_column_info (col : list pyval) : keeps (column_info col).
Proof. unfold column_info. keeps_steps. Qed.

#[local] Hint Resolve keeps_numeric_stats_loop keeps_column_info : keeps.

Lemma keeps_run_tool (prefix : string) (body : M pyval) (w : World) :
  keeps body -> same_connections w (snd (run_tool prefix body w)).
Proof.
  intros Hb. unfold run_tool. destruct (body w) as [[e|v] w'] eqn:Hbw; simpl;
    exact (Hb w _ _ Hbw).
Qed.

(** No step of the process changes the connection or the path of a store
    that is registered. *)
Lemma tool_step_keeps (w w' : World) : tool_step E w w' -> same_connections w w'.
Proof.
  intros H. destruct H.
  - apply keeps_run_tool. unfold import_load. keeps_steps.
  - apply keeps_run_tool. keeps_steps.
  - apply keeps_run_tool. keeps_steps.
  - apply keeps_run_tool. keeps_steps.
  - apply keeps_run_tool. keeps_steps.
  - apply keeps_run_tool. unfold path_parent_mkdir, write_file. keeps_steps.
  - apply keeps_run_tool. keeps_steps.
  - destruct (get_or_create_db E db_name w) as [r w1] eqn:Hg.
    exact (keeps_get_or_create_db db_name w r w1 Hg).
Qed.

Lemma steps_keep (w w' : World) : rtc (tool_step E) w w' -> same_connections w w'.
Proof.
  induction 1 as [w|w1 w2 w3 H12 _ IH]; [apply same_connections_refl|].
  exact (same_connections_trans _ _ _ (tool_step_keeps _ _ H12) IH).
Qed.

Lemma lookup_or_insert {A : Type} (m : gmap string A) (p : string) (d : A) :
  match m !! p with Some _ => m | None => <[p := d]> m end !! p
  = Some (default d (m !! p)).
Proof. destruct (m !! p) eqn:H; [exact H | apply lookup_insert_eq]. Qed.

Lemma lookup_or_insert_ne {A : Type} (m : gmap string A) (p q : string) (d : A) :
  q <> p ->
  match m !! p with Some _ => m | None => <[p := d]> m end !! q = m !! q.
Proof.
  intros Hne. destruct (m !! p); [reflexivity|]. apply lookup_insert_ne. congruence.
Qed.

(** C9, as amended.  The first call for a name that is not registered,
    when the engine can open the path, opens the database file at the
    path made of the temporary directory, the name and the first eight
    hex digits of a newly drawn identifier, registers it with an empty
    bookkeeping set and returns its connection.  The file is created
    empty when nothing was at that path, and is taken as it is, tables
    included, when a file was there; no other file changes.  From then
    on, after any number of steps of the process, a call with the same
    name returns that same connection and changes nothing: no identifier
    is drawn, no connection opened, no store or path created. *)
Theorem get_or_create_db_idempotent (w : World) (db_name : string) :
  db_connections w !! db_name = None ->
  connect_error E (db_path_for E db_name w) = None ->
  exists (conn : Conn) (w1 : World),
    get_or_create_db E db_name w = (inr conn, w1) /\
    conn_path conn = db_path_for E db_name w /\
    db_connections w1 !! db_name =
      Some {| connection := conn; path := db_path_for E db_name w; tables := ∅ |} /\
    databases w1 !! conn_path conn =
      Some (default [] (databases w !! db_path_for E db_name w)) /\
    (databases w !! db_path_for E db_name w = None -> catalog_of w1 conn = []) /\
    (forall p : string, p <> conn_path conn -> databases w1 !! p = databases w !! p) /\
    uuids_drawn w1 = S (uuids_drawn w) /\
    next_conn w1 = S (next_conn w) /\
    (forall other : string,
        other <> db_name -> db_connections w1 !! other = db_connections w !! other) /\
    get_or_create_db E db_name w1 = (inr conn, w1) /\
    (forall w2 : World,
        rtc (tool_step E) w1 w2 ->
        get_or_create_db E db_name w2 = (inr conn, w2)).
Proof.
  intros Hl Hc. eexists; eexists.
  split; [exact (get_or_create_db_fresh E w db_name Hl Hc)|].
  split; [reflexivity|].
  assert (Hreg : db_connections (with_new_store E db_name w) !! db_name =
                 Some {| connection := {| conn_id := next_conn w;
                                          conn_path := db_path_for E db_name w |};
                         path := db_path_for E db_name w; tables := ∅ |})
    by apply lookup_insert_eq.
  assert (Hdb : databases (with_new_store E db_name w) !! db_path_for E db_name w =
                Some (default [] (databases w !! db_path_for E db_name w)))
    by exact (lookup_or_insert (databases w) (db_path_for E db_name w) []).
  split; [exact Hreg|]. split; [exact Hdb|].
  split.
  { intros Hf. unfold catalog_of. cbn [conn_path].
    exact (eq_trans (f_equal (default []) Hdb)
             (f_equal (default []) Hf)). }
  split.
  { intros p Hp. cbn [conn_path] in Hp.
    exact (lookup_or_insert_ne (databases w) (db_path_for E db_name w) p [] Hp). }
  split; [reflexivity|]. split; [reflexivity|].
  split; [intros other Hne; unfold with_new_store; cbn [db_connections];
          now apply lookup_insert_ne|].
  split; [exact (get_or_create_db_known E _ db_name _ Hreg)|].
  intros w2 Hsteps.
  destruct (steps_keep _ _ Hsteps db_name _ Hreg) as (e2 & H2 & Hconn & _).
  rewrite (get_or_create_db_known E w2 db_name e2 H2). now rewrite Hconn.
Qed.

End Lifetime.

Lemma get_or_create_db_idempotent_witness :
  db_connections Demo.start !! "default" = None /\
  connect_error Demo.env (db_path_for Demo.env "default" Demo.start) = None /\
  exists (conn : Conn) (w1 : World),
    get_or_create_db Demo.env "default" Demo.start = (inr conn, w1) /\
    conn_path conn = "/tmp/data_analysis_default_0c0ffee0.db" /\
    catalog_of w1 conn = [] /\
    get_or_create_db Demo.env "default" w1 = (inr conn, w1) /\
    (forall w2 : World,
        rtc (tool_step Demo.env) w1 w2 ->
        get_or_create_db Demo.env "default" w2 = (inr conn, w2)).
Proof.
  split; [reflexivity|]. split; [reflexivity|].
  destruct (get_or_create_db_idempotent Demo.env Demo.start "default" eq_refl eq_refl)
    as (conn & w1 & H1 & H2 & _ & _ & H3 & _ & _ & _ & _ & H4 & H5).
  exists conn, w1. split; [exact H1|]. split; [rewrite H2; vm_compute; reflexivity|].
  split; [apply H3; reflexivity|]. split; [exact H4 | exact H5].
Defined.

(** C9, as stated, fails on freshness: the path is not checked.  In a
    process that has just started while a database file with a table
    lies at the path of the first identifier, the first call for
    "default" registers that file: the path is not new and the store is
    not empty. *)
Lemma get_or_create_db_stale_file_counterexample :
  db_connections stale_start !! "default" = None /\
  exists (conn : Conn) (w1 : World),
    get_or_create_db Demo.env "default" stale_start = (inr conn, w1) /\
    databases stale_start !! conn_path conn = Some [("sales", Demo.sales)] /\
    catalog_of w1 conn = [("sales", Demo.sales)] /\
    catalog_of w1 conn <> [].
Proof.
  split; [reflexivity|]. eexists. eexists.
  split; [vm_compute; reflexivity|].
  split; [vm_compute; reflexivity|].
  split; [vm_compute; reflexivity | vm_compute; discriminate].
Qed.

(* ===================================================================== *)
(** ** Further properties of the tools                                    *)
(* ===================================================================== *)

Section UnknownStore.

Context (E : Env).

(** X1. Every tool that works on an existing store answers a store name
    that is not registered with the same "does not exist" error and
    leaves the whole process state as it was; none of them creates the
    store. *)
Theorem unknown_store_is_reported (w : World) (db_name : string) :
  db_connections w !! db_name = None ->
  list_tables E db_name w = (unknown_db db_name, w) /\
  (forall table_name : string,
      describe_table E table_name db_name w = (unknown_db db_name, w)) /\
  (forall (query : Text.ustr) (limit : Z),
      execute_sql E query db_name limit w = (unknown_db db_name, w)) /\
  (forall table_name analysis_type : string,
      generate_analysis_report E table_name db_name analysis_type w
      = (unknown_db db_name, w)) /\
  (forall query output_path format : string,
      export_query_result E query output_path db_name format w
      = (unknown_db db_name, w)) /\
  clean_database E db_name w = (unknown_db db_name, w) /\
  Spec.is_error (unknown_db db_name).
Proof.
  intros H. repeat split; intros;
    try (unfold list_tables, describe_table, execute_sql, generate_analysis_report,
           export_query_result, clean_database, run_tool, bind, get_world;
         now rewrite H).
  now eexists.
Qed.

End UnknownStore.

Lemma unknown_store_is_reported_witness :
  db_connections Demo.with_sales !! "ghost_store" = None /\
  list_tables Demo.env "ghost_store" Demo.with_sales
    = (unknown_db "ghost_store", Demo.with_sales) /\
  clean_database Demo.env "ghost_store" Demo.with_sales
    = (unknown_db "ghost_store", Demo.with_sales).
Proof.
  assert (H : db_connections Demo.with_sales !! "ghost_store" = None)
    by (vm_compute; reflexivity).
  destruct (unknown_store_is_reported Demo.env Demo.with_sales "ghost_store" H)
    as (H1 & _ & _ & _ & _ & H6 & _).
  split; [exact H|]. split; [exact H1 | exact H6].
Defined.

Section IngestionMore.

Import Spec.
Context (E : Env).

Lemma data_preserved_refl (w : World) : data_preserved w w.
Proof. split; auto. Qed.

Lemma data_preserved_trans (w1 w2 w3 : World) :
  data_preserved w1 w2 -> data_preserved w2 w3 -> data_preserved w1 w3.
Proof. intros [A1 B1] [A2 B2]. split; auto. Qed.

(** Whatever its outcome, [get_or_create_db] keeps every entry and every
    database that was there, and the tables seen through the connection
    of the store. *)
Lemma get_or_create_db_preserves (w w' : World) (db_name : string) (r : exn + Conn) :
  get_or_create_db E db_name w = (r, w') -> data_preserved w w'.
Proof.
  intros H. destruct (db_connections w !! db_name) as [entry|] eqn:Hl.
  - rewrite (get_or_create_db_known E w db_name entry Hl) in H. inversion H; subst.
    apply data_preserved_refl.
  - destruct (connect_error E (db_path_for E db_name w)) as [e|] eqn:Hc.
    + destruct (get_or_create_db_refused E w db_name e Hl Hc) as (w1 & Hr & Hreg & Hdb).
      rewrite Hr in H. inversion H; subst. split; intros; congruence.
    + rewrite (get_or_create_db_fresh E w db_name Hl Hc) in H. inversion H; subst.
      unfold with_new_store. cbv zeta. split; cbn [db_connections databases].
      * intros n e Hn. rewrite lookup_insert_ne; [exact Hn|]. intros ->. congruence.
      * intros p c Hp. destruct (databases w !! db_path_for E db_name w) eqn:Hd;
          [exact Hp|]. rewrite lookup_insert_ne; [exact Hp|]. intros Heq. congruence.
Qed.

Lemma get_or_create_db_catalog (w w' : World) (db_name : string) (conn : Conn) :
  get_or_create_db E db_name w = (inr conn, w') -> catalog_of w' conn = catalog_of w conn.
Proof.
  intros H. destruct (db_connections w !! db_name) as [entry|] eqn:Hl.
  - rewrite (get_or_create_db_known E w db_name entry Hl) in H. now inversion H; subst.
  - destruct (connect_error E (db_path_for E db_name w)) as [e|] eqn:Hc.
    + destruct (get_or_create_db_refused E w db_name e Hl Hc) as (w1 & Hr & _).
      rewrite Hr in H. discriminate.
    + rewrite (get_or_create_db_fresh E w db_name Hl Hc) in H. inversion H; subst.
      unfold catalog_of, with_new_store. cbv zeta. cbn [databases conn_path].
      unfold Catalog in *.
      match goal with
      | |- context [match ?x with Some _ => _ | None => _ end] => destruct x eqn:Hd
      end; [exact (f_equal (default []) Hd) | now rewrite lookup_insert_eq].
Qed.

(** X2. An import that does not succeed keeps every registry entry,
    bookkeeping set included.  Unless the failure is that of the write,
    it keeps the tables of every database as well; when [df.to_sql]
    itself fails, the target store holds what the failed write left of
    its tables, which need not be what it held, and every other database
    is kept. *)
Theorem failed_import_keeps_registry (w w' : World) (file_path : string)
    (table_name : option string) (db_name : string) (sheet_name encoding : option string)
    (r : pyval) :
  import_file E file_path table_name db_name sheet_name encoding w = (r, w') ->
  ~ is_success r ->
  (forall (n : string) (e : DbEntry),
      db_connections w !! n = Some e -> db_connections w' !! n = Some e) /\
  (data_preserved w w' \/
   exists entry : DbEntry,
     db_connections w' !! db_name = Some entry /\
     write_failed E (resolve_table_name E file_path table_name) (connection entry) w w' /\
     preserved_outside (conn_path (connection entry)) w w').
Proof.
  intros H Hns.
  assert (Hkeep : forall w1 : World, data_preserved w w1 ->
            (forall (n : string) (e : DbEntry),
                db_connections w !! n = Some e -> db_connections w1 !! n = Some e) /\
            (data_preserved w w1 \/
             exists entry : DbEntry,
               db_connections w1 !! db_name = Some entry /\
               write_failed E (resolve_table_name E file_path table_name)
                 (connection entry) w w1 /\
               preserved_outside (conn_path (connection entry)) w w1)).
  { intros w1 Hp. split; [exact (proj1 Hp) | now left]. }
  destruct (path_exists E file_path) eqn:Hp.
  2: { rewrite (import_file_missing E _ _ _ _ _ _ Hp) in H. inversion H; subst.
       apply Hkeep, data_preserved_refl. }
  destruct (import_load_stateless E file_path (Text.lower (path_suffix E file_path))
              sheet_name encoding) as [l Hl].
  unfold import_file, run_tool in H. rewrite Hp in H. cbn [negb] in H.
  fold (resolve_table_name E file_path table_name) in H.
  unfold bind at 1 in H. rewrite Hl in H.
  destruct l as [e|[early|df]].
  - inversion H; subst. apply Hkeep, data_preserved_refl.
  - unfold ret in H. inversion H; subst. apply Hkeep, data_preserved_refl.
  - unfold bind at 1 in H.
    destruct (get_or_create_db E db_name w) as [[e|conn] wg] eqn:Hg.
    + inversion H; subst. exact (Hkeep _ (get_or_create_db_preserves _ _ _ _ Hg)).
    + pose proof (get_or_create_db_preserves _ _ _ _ Hg) as [Hreg Hdbs].
      pose proof (get_or_create_db_catalog _ _ _ _ Hg) as Hcat.
      destruct (get_or_create_db_returns E w wg db_name conn Hg) as (entry & He & <-).
      unfold bind at 1 in H. unfold df_to_sql in H.
      destruct (to_sql_error E (resolve_table_name E file_path table_name) df) as [e|] eqn:Ht.
      * inversion H; subst. clear H. split.
        -- intros n e0 Hn. cbn [db_connections set_catalog set_databases log_engine].
           now apply Hreg.
        -- right. exists entry. split; [exact He|]. split; [|split].
           ++ exists df, e. split; [exact Ht|].
              rewrite <- Hcat. unfold catalog_of at 1.
              cbn [databases set_catalog set_databases log_engine].
              now rewrite lookup_insert_eq.
           ++ intros n e0 Hn. cbn [db_connections set_catalog set_databases log_engine].
              now apply Hreg.
           ++ intros q c Hq Hc. cbn [databases set_catalog set_databases log_engine].
              rewrite lookup_insert_ne by congruence. now apply Hdbs.
      * exfalso. apply Hns.
        unfold bind at 1 in H. unfold register_table, bind, get_world in H.
        cbn [db_connections set_catalog set_databases log_engine] in H.
        rewrite He in H. unfold modify, ret in H. inversion H; subst. reflexivity.
Qed.

End IngestionMore.

Lemma failed_import_keeps_registry_witness :
  import_file failing_write_env "sales.csv" None "default" None None Demo.with_sales
    = (fst (import_file failing_write_env "sales.csv" None "default" None None
              Demo.with_sales),
       snd (import_file failing_write_env "sales.csv" None "default" None None
              Demo.with_sales)) /\
  ~ Spec.is_success
      (fst (import_file failing_write_env "sales.csv" None "default" None None
              Demo.with_sales)) /\
  (forall (n : string) (e : DbEntry),
      db_connections Demo.with_sales !! n = Some e ->
      db_connections
        (snd (import_file failing_write_env "sales.csv" None "default" None None
                Demo.with_sales)) !! n = Some e) /\
  (data_preserved Demo.with_sales
     (snd (import_file failing_write_env "sales.csv" None "default" None None
             Demo.with_sales)) \/
   exists entry : DbEntry,
     db_connections
       (snd (import_file failing_write_env "sales.csv" None "default" None None
               Demo.with_sales)) !! "default" = Some entry /\
     write_failed failing_write_env (resolve_table_name failing_write_env "sales.csv" None)
       (connection entry) Demo.with_sales
       (snd (import_file failing_write_env "sales.csv" None "default" None None
               Demo.with_sales)) /\
     preserved_outside (conn_path (connection entry)) Demo.with_sales
       (snd (import_file failing_write_env "sales.csv" None "default" None None
               Demo.with_sales))).
Proof.
  assert (H1 : import_file failing_write_env "sales.csv" None "default" None None
                 Demo.with_sales
    = (fst (import_file failing_write_env "sales.csv" None "default" None None
              Demo.with_sales),
       snd (import_file failing_write_env "sales.csv" None "default" None None
              Demo.with_sales)))
    by apply surjective_pairing.
  assert (H2 : ~ Spec.is_success
      (fst (import_file failing_write_env "sales.csv" None "default" None None
              Demo.with_sales)))
    by (vm_compute; discriminate).
  split; [exact H1|]. split; [exact H2|].
  exact (failed_import_keeps_registry failing_write_env _ _ _ _ _ _ _ _ H1 H2).
Defined.

(** A failed write can cost the table it was to replace: on the demo
    store, which holds the three rows of "sales", an import of the same
    file whose insert fails leaves a table "sales" without rows, and
    the registry as it was. *)
Example failed_write_empties_the_table :
  fst (import_file failing_write_env "sales.csv" None "default" None None Demo.with_sales)
    = error_result "导入文件时出错: database or disk is full" /\
  option_map df_len
    (dict_get (catalog_of Demo.with_sales Demo.default_conn) "sales") = Some 3 /\
  option_map df_len
    (dict_get
       (catalog_of
          (snd (import_file failing_write_env "sales.csv" None "default" None None
                  Demo.with_sales)) Demo.default_conn) "sales") = Some 0 /\
  db_connections
    (snd (import_file failing_write_env "sales.csv" None "default" None None
            Demo.with_sales)) = db_connections Demo.with_sales.
Proof. repeat split; vm_compute; reflexivity. Qed.

Section IngestionEffects.

Import Spec.
Context (E : Env).

Lemma get_or_create_db_frame (w w' : World) (db_name : string) (conn : Conn) :
  get_or_create_db E db_name w = (inr conn, w') ->
  (forall n : string, n <> db_name -> db_connections w' !! n = db_connections w !! n) /\
  (forall p : string, p <> conn_path conn -> databases w' !! p = databases w !! p).
Proof.
  intros H. destruct (db_connections w !! db_name) as [entry|] eqn:Hl.
  - rewrite (get_or_create_db_known E w db_name entry Hl) in H. inversion H; subst. auto.
  - destruct (connect_error E (db_path_for E db_name w)) as [e|] eqn:Hc.
    + destruct (get_or_create_db_refused E w db_name e Hl Hc) as (w1 & Hr & _).
      rewrite Hr in H. discriminate.
    + rewrite (get_or_create_db_fresh E w db_name Hl Hc) in H. inversion H; subst.
      unfold with_new_store. cbv zeta. cbn [db_connections databases conn_path]. split.
      * intros n Hn. now rewrite lookup_insert_ne by congruence.
      * intros p Hp. destruct (databases w !! db_path_for E db_name w); [reflexivity|].
        now rewrite lookup_insert_ne by congruence.
Qed.

Lemma dict_get_to_sql_replace_other (name other : string) (df : DataFrame) (c : Catalog) :
  other <> name -> dict_get (to_sql_replace name df c) other = dict_get c other.
Proof.
  intros Hne. unfold to_sql_replace, drop_table.
  induction c as [|[n d] c IH]; simpl.
  - destruct (String.eqb_spec name other); [congruence | reflexivity].
  - destruct (String.eqb_spec n name) as [->|Hn]; simpl.
    + destruct (String.eqb_spec name other); [congruence | exact IH].
    + destruct (String.eqb_spec n other); [reflexivity | exact IH].
Qed.

(** X3. A successful import stores the loaded frame under the resolved
    table name and adds that name to the bookkeeping set of the store; it
    keeps the connection and the other names of a store that was already
    registered, every other table of the store, every other store of the
    registry and every other database file. *)
Theorem successful_import_effects (w w' : World) (file_path : string)
    (table_name : option string) (db_name : string) (sheet_name encoding : option string)
    (r : pyval) :
  import_file E file_path table_name db_name sheet_name encoding w = (r, w') ->
  is_success r ->
  exists (df : DataFrame) (entry' : DbEntry),
    field r "table" = Some (PStr (resolve_table_name E file_path table_name)) /\
    field r "statistics" = Some (import_statistics df) /\
    db_connections w' !! db_name = Some entry' /\
    resolve_table_name E file_path table_name ∈ tables entry' /\
    (forall old : DbEntry,
        db_connections w !! db_name = Some old ->
        connection entry' = connection old /\ path entry' = path old /\
        tables entry' = {[resolve_table_name E file_path table_name]} ∪ tables old) /\
    dict_get (catalog_of w' (connection entry')) (resolve_table_name E file_path table_name)
      = Some df /\
    (forall other : string,
        other <> resolve_table_name E file_path table_name ->
        dict_get (catalog_of w' (connection entry')) other
        = dict_get (catalog_of w (connection entry')) other) /\
    (forall n : string, n <> db_name -> db_connections w' !! n = db_connections w !! n) /\
    (forall p : string,
        p <> conn_path (connection entry') -> databases w' !! p = databases w !! p).
Proof.
  intros H Hs.
  destruct (import_file_success_inv E w w' _ _ _ _ _ r H Hs)
    as (df & wg & entry & Hp & Hl & Hg & He & Ht & -> & ->).
  set (name := resolve_table_name E file_path table_name) in *.
  set (conn := connection entry) in *.
  destruct (get_or_create_db_frame w wg db_name conn Hg) as [Freg Fdb].
  pose proof (get_or_create_db_catalog E w wg db_name conn Hg) as Hcat.
  exists df, {| connection := conn; path := path entry; tables := {[name]} ∪ tables entry |}.
  cbn [connection].
  assert (Hc' : catalog_of (registered db_name name entry (stored conn name df wg)) conn
                = to_sql_replace name df (catalog_of w conn)).
  { rewrite <- Hcat. exact (catalog_of_stored conn name df wg). }
  split; [reflexivity|]. split; [reflexivity|].
  split; [unfold registered, set_db_connections; cbn [db_connections];
          apply lookup_insert_eq|].
  split; [cbn [tables]; set_solver|].
  split.
  { intros old Hold.
    rewrite (get_or_create_db_known E w db_name old Hold) in Hg. inversion Hg; subst.
    rewrite Hold in He. inversion He; subst. auto. }
  split; [rewrite Hc'; apply to_sql_replace_lookup|].
  split; [intros other Hne; rewrite Hc'; now apply dict_get_to_sql_replace_other|].
  split.
  - intros n Hn. unfold registered, set_db_connections. cbn [db_connections].
    rewrite lookup_insert_ne by congruence. now apply Freg.
  - intros p Hpne.
    change (databases (registered db_name name entry (stored conn name df wg)))
      with (<[conn_path conn := to_sql_replace name df (catalog_of wg conn)]> (databases wg)).
    rewrite lookup_insert_ne by congruence. now apply Fdb.
Qed.

Lemma in_chars_replace (s : string) (a b c : ascii) :
  In c (chars (Text.replace s a b)) -> c = b \/ (In c (chars s) /\ c <> a).
Proof.
  unfold chars, Text.replace. induction s as [|x s IH]; simpl; [contradiction|].
  intros [Hc|Hin].
  - destruct (Ascii.eqb_spec x a) as [->|Hne]; [now left|].
    right. subst c. split; [now left | exact Hne].
  - destruct (IH Hin) as [->|[Hs Hne]]; [now left | right; auto].
Qed.

Lemma length_map_chars (f : ascii -> ascii) (s : string) :
  String.length (Text.map_chars f s) = String.length s.
Proof. induction s as [|x s IH]; simpl; [reflexivity | now rewrite IH]. Qed.

(** X4. A table name derived from the file name holds no space and no
    hyphen and is as long as the stem of the file name; a name given by
    the caller is taken as it is, and an empty one counts as not given. *)
Theorem derived_table_name_is_normalised (file_path : string) (table_name : option string) :
  (truthy_str table_name = false ->
   (forall c : ascii,
       In c (chars (resolve_table_name E file_path table_name)) ->
       c <> " "%char /\ c <> "-"%char) /\
   String.length (resolve_table_name E file_path table_name)
   = String.length (path_stem E file_path)) /\
  (forall s : string,
      table_name = Some s -> s <> "" -> resolve_table_name E file_path table_name = s) /\
  resolve_table_name E file_path (Some "") = resolve_table_name E file_path None.
Proof.
  unfold resolve_table_name. split; [|split; [|reflexivity]].
  - intros ->. split.
    + intros c Hc. apply in_chars_replace in Hc as [->|[Hc Hne]].
      * split; discriminate.
      * split; [|exact Hne].
        apply in_chars_replace in Hc as [->|[_ Hne']]; [discriminate | exact Hne'].
    + unfold Text.replace. now rewrite !length_map_chars.
  - intros s -> Hs. simpl. destruct (String.eqb_spec s ""); [contradiction | reflexivity].
Qed.

End IngestionEffects.

Lemma successful_import_effects_witness :
  import_file Demo.env "sales.csv" None "default" None None Demo.start
    = (import_success Demo.env "sales.csv" "default" "sales" Demo.sales, Demo.with_sales) /\
  Spec.is_success (import_success Demo.env "sales.csv" "default" "sales" Demo.sales) /\
  exists (df : DataFrame) (entry' : DbEntry),
    db_connections Demo.with_sales !! "default" = Some entry' /\
    resolve_table_name Demo.env "sales.csv" None ∈ tables entry' /\
    dict_get (catalog_of Demo.with_sales (connection entry'))
      (resolve_table_name Demo.env "sales.csv" None) = Some df.
Proof.
  assert (H1 : import_file Demo.env "sales.csv" None "default" None None Demo.start
               = (import_success Demo.env "sales.csv" "default" "sales" Demo.sales,
                  Demo.with_sales))
    by (vm_compute; reflexivity).
  assert (H2 : Spec.is_success (import_success Demo.env "sales.csv" "default" "sales" Demo.sales))
    by reflexivity.
  split; [exact H1|]. split; [exact H2|].
  destruct (successful_import_effects Demo.env _ _ _ _ _ _ _ _ H1 H2)
    as (df & entry' & _ & _ & A & B & _ & C & _).
  exists df, entry'. auto.
Defined.

Section CsvFallback.

Import Spec.
Context (E : Env).

(** X5. For a [.csv] file whose first decoding fails with a
    [UnicodeDecodeError], a successful import reports the frame read
    under the first encoding of utf-8, gbk, gb2312, latin-1 (in that
    order) that reads the file; when none of the four reads it, the tool
    answers with the encoding-undeterminable error and changes nothing. *)
Theorem csv_import_uses_first_readable_fallback (w : World) (file_path : string)
    (table_name : option string) (db_name : string) (sheet_name encoding : option string)
    (e : exn) :
  path_exists E file_path = true ->
  Text.lower (path_suffix E file_path) = ".csv" ->
  read_csv E file_path "," (chosen_encoding E file_path encoding) = inl e ->
  is_UnicodeDecodeError e = true ->
  (forall (pre post : list string) (enc : string) (df : DataFrame),
      ["utf-8"; "gbk"; "gb2312"; "latin-1"] = (pre ++ enc :: post)%list ->
      Forall (csv_unreadable_as E file_path) pre ->
      read_csv E file_path "," enc = inr df ->
      import_load E file_path ".csv" sheet_name encoding w = (inr (inr df), w) /\
      (is_success (fst (import_file E file_path table_name db_name sheet_name encoding w)) ->
       field (fst (import_file E file_path table_name db_name sheet_name encoding w))
         "statistics" = Some (import_statistics df))) /\
  (Forall (csv_unreadable_as E file_path) ["utf-8"; "gbk"; "gb2312"; "latin-1"] ->
   import_file E file_path table_name db_name sheet_name encoding w
   = (error_result "导入文件时出错: 无法确定文件编码", w)).
Proof.
  intros Hp Hs Hr He. split.
  - intros pre post enc df Hsplit Hpre Henc.
    assert (Hload : forall w0, import_load E file_path ".csv" sheet_name encoding w0
                               = (inr (inr df), w0)).
    { intros w0. rewrite (import_load_csv_retries E file_path sheet_name encoding e w0 Hr He).
      rewrite Hsplit. now rewrite (csv_fallback_first E file_path pre post enc df w0 Hpre Henc). }
    split; [apply Hload|]. intros Hsucc.
    destruct (import_file E file_path table_name db_name sheet_name encoding w)
      as [r w'] eqn:Hi. cbn [fst] in *.
    destruct (import_file_success_inv E w w' _ _ _ _ _ r Hi Hsucc)
      as (df0 & wg & entry & _ & Hl0 & _ & _ & _ & -> & _).
    specialize (Hl0 w). rewrite Hs, Hload in Hl0. now inversion Hl0; subst.
  - intros Hall. unfold import_file, run_tool. rewrite Hp, Hs. cbn [negb].
    unfold bind at 1.
    rewrite (import_load_csv_retries E file_path sheet_name encoding e w Hr He).
    now rewrite (csv_fallback_none E file_path _ w Hall).
Qed.

(** X6. For a [.csv] file whose first read fails with anything other
    than a [UnicodeDecodeError] (an unknown encoding name, a malformed
    file), no other encoding is tried: that failure is the tool's answer
    and nothing changes. *)
Theorem csv_other_failure_is_not_retried (w : World) (file_path : string)
    (table_name : option string) (db_name : string) (sheet_name encoding : option string)
    (e : exn) :
  path_exists E file_path = true ->
  Text.lower (path_suffix E file_path) = ".csv" ->
  read_csv E file_path "," (chosen_encoding E file_path encoding) = inl e ->
  is_UnicodeDecodeError e = false ->
  import_file E file_path table_name db_name sheet_name encoding w
  = (error_result ("导入文件时出错: " +:+ exn_str e), w).
Proof.
  intros Hp Hs Hr He. unfold import_file, run_tool. rewrite Hp, Hs. cbn [negb].
  unfold bind at 1. unfold import_load.
  change (String.eqb ".csv" ".csv") with true. cbv iota.
  fold (chosen_encoding E file_path encoding). now rewrite Hr, He.
Qed.

Lemma load_file_stateless (file_path : string) :
  exists r, forall w, load_file_to_dataframe E file_path w = (r, w).
Proof.
  unfold load_file_to_dataframe.
  destruct (negb (path_exists E file_path)); [eexists; intros; reflexivity|].
  cbv zeta.
  repeat match goal with
         | |- exists r, forall w, (if ?b then _ else _) w = _ => destruct b
         end; try (eexists; intros; reflexivity).
  destruct (read_csv E file_path "," _) as [e|df]; [|eexists; intros; reflexivity].
  destruct (is_UnicodeDecodeError e); [|eexists; intros; reflexivity].
  apply csv_fallback_stateless.
Qed.

(** X7. The stand-alone loader and the loader inside [import_file]
    (called without sheet name and without encoding) agree: on every
    file they load the same frame or fail with the same exception; where
    the tool returns its unsupported-format error result, the loader
    raises a [ValueError] with the same message; and a missing file gives
    the same message in both.  Neither changes the process state. *)
Theorem loader_agrees_with_import (w : World) (file_path : string) :
  (path_exists E file_path = true ->
   load_file_to_dataframe E file_path w =
     match import_load E file_path (Text.lower (path_suffix E file_path)) None None w with
     | (inr (inr df), _) => (inr df, w)
     | (inr (inl early), _) =>
         (inl (Exn ValueError
                 ("不支持的文件格式: " +:+ Text.lower (path_suffix E file_path))), w)
     | (inl e, _) => (inl e, w)
     end) /\
  (path_exists E file_path = true ->
   forall early w',
     import_load E file_path (Text.lower (path_suffix E file_path)) None None w
       = (inr (inl early), w') ->
     early = error_result ("不支持的文件格式: " +:+ Text.lower (path_suffix E file_path))) /\
  (path_exists E file_path = false ->
   load_file_to_dataframe E file_path w
     = (inl (Exn OtherError ("文件不存在: " +:+ path_str E file_path)), w) /\
   forall (table_name : option string) (db_name : string),
     import_file E file_path table_name db_name None None w
     = (error_result ("文件不存在: " +:+ path_str E file_path), w)).
Proof.
  split; [|split].
  - intros Hp. unfold load_file_to_dataframe, import_load. rewrite Hp. cbn [negb].
    cbv zeta. cbn [truthy_str].
    set (ext := Text.lower (path_suffix E file_path)).
    destruct (String.eqb ext ".csv").
    { destruct (read_csv E file_path "," (detect_file_encoding E file_path)) as [e|df];
        [|reflexivity].
      destruct (is_UnicodeDecodeError e); [|reflexivity].
      unfold bind, fallback_encodings.
      destruct (csv_fallback_stateless E file_path ["utf-8"; "gbk"; "gb2312"; "latin-1"])
        as [r Hr]. rewrite Hr. now destruct r. }
    destruct (String.eqb ext ".xlsx" || String.eqb ext ".xls").
    { unfold bind, lift. now destruct (read_excel E file_path None). }
    destruct (String.eqb ext ".json").
    { unfold bind, lift. now destruct (read_json E file_path). }
    destruct (String.eqb ext ".parquet").
    { unfold bind, lift. now destruct (read_parquet E file_path). }
    destruct (String.eqb ext ".tsv").
    { unfold bind, lift. now destruct (read_csv E file_path TAB _). }
    reflexivity.
  - intros Hp early w' H. unfold import_load in H. cbn [truthy_str] in H.
    set (ext := Text.lower (path_suffix E file_path)) in *.
    destruct (String.eqb ext ".csv").
    { destruct (read_csv E file_path "," (detect_file_encoding E file_path)) as [e|df];
        [|discriminate].
      destruct (is_UnicodeDecodeError e); [|discriminate].
      unfold bind in H. destruct (csv_fallback E file_path fallback_encodings w)
        as [[e'|df] w1]; discriminate. }
    destruct (String.eqb ext ".xlsx" || String.eqb ext ".xls").
    { unfold bind, lift in H. destruct (read_excel E file_path None); discriminate. }
    destruct (String.eqb ext ".json").
    { unfold bind, lift in H. destruct (read_json E file_path); discriminate. }
    destruct (String.eqb ext ".parquet").
    { unfold bind, lift in H. destruct (read_parquet E file_path); discriminate. }
    destruct (String.eqb ext ".tsv").
    { unfold bind, lift in H. destruct (read_csv E file_path TAB _); discriminate. }
    now inversion H.
  - intros Hp. split.
    + unfold load_file_to_dataframe. now rewrite Hp.
    + intros table_name db_name. now apply import_file_missing.
Qed.

End CsvFallback.

Lemma csv_import_uses_first_readable_fallback_witness :
  path_exists Demo.env "legacy.csv" = true /\
  Text.lower (path_suffix Demo.env "legacy.csv") = ".csv" /\
  read_csv Demo.env "legacy.csv" "," (chosen_encoding Demo.env "legacy.csv" None)
    = inl (Demo.decode_error "ascii") /\
  is_UnicodeDecodeError (Demo.decode_error "ascii") = true /\
  import_load Demo.env "legacy.csv" ".csv" None None Demo.start
    = (inr (inr Demo.sales), Demo.start).
Proof.
  repeat (split; [reflexivity|]).
  destruct (csv_import_uses_first_readable_fallback Demo.env Demo.start "legacy.csv"
              None "default" None None (Demo.decode_error "ascii")
              eq_refl eq_refl eq_refl eq_refl) as [H _].
  apply (H ["utf-8"] ["gb2312"; "latin-1"] "gbk" Demo.sales eq_refl).
  - constructor; [|constructor]. now eexists.
  - reflexivity.
Defined.

Lemma csv_other_failure_is_not_retried_witness :
  path_exists strict_env "sales.csv" = true /\
  Text.lower (path_suffix strict_env "sales.csv") = ".csv" /\
  read_csv strict_env "sales.csv" "," (chosen_encoding strict_env "sales.csv" (Some "klingon"))
    = inl (Exn OtherError "unknown encoding: klingon") /\
  is_UnicodeDecodeError (Exn OtherError "unknown encoding: klingon") = false /\
  read_csv strict_env "sales.csv" "," "utf-8" = inr Demo.sales /\
  import_file strict_env "sales.csv" None "default" None (Some "klingon") Demo.start
  = (error_result ("导入文件时出错: " +:+ "unknown encoding: klingon"), Demo.start).
Proof.
  repeat (split; [reflexivity|]).
  exact (csv_other_failure_is_not_retried strict_env Demo.start "sales.csv" None "default"
           None (Some "klingon") _ eq_refl eq_refl eq_refl eq_refl).
Defined.

Lemma loader_agrees_with_import_witness :
  path_exists Demo.env "legacy.tsv" = true /\
  path_exists Demo.env "nowhere.csv" = false /\
  load_file_to_dataframe Demo.env "legacy.tsv" Demo.start
    = (inl (Demo.decode_error "ascii"), Demo.start) /\
  load_file_to_dataframe Demo.env "nowhere.csv" Demo.start
    = (inl (Exn OtherError ("文件不存在: " +:+ "nowhere.csv")), Demo.start).
Proof.
  split; [reflexivity|]. split; [reflexivity|].
  destruct (loader_agrees_with_import Demo.env Demo.start "legacy.tsv") as (H1 & _ & _).
  destruct (loader_agrees_with_import Demo.env Demo.start "nowhere.csv") as (_ & _ & H3).
  split; [exact (H1 eq_refl) | exact (proj1 (H3 eq_refl))].
Defined.

(* ===================================================================== *)
(** ** Relations kept by every step of a tool                             *)
(* ===================================================================== *)

(** A relation [R] between states that is reflexive and transitive and
    holds across the elementary state changes is kept by whole tools.
    [allowed] says on which connections the engine may be called. *)
Section Evolution.

Context (E : Env).
Variable R : World -> World -> Prop.
Variable allowed : Conn -> Prop.
Variable store : string -> Prop.

Hypothesis R_refl : forall w, R w w.
Hypothesis R_trans : forall w1 w2 w3, R w1 w2 -> R w2 w3 -> R w1 w3.
Hypothesis R_engine :
  forall conn call cat w,
    allowed conn -> R w (log_engine conn call (set_catalog conn cat w)).
Hypothesis R_logged : forall conn call w, allowed conn -> R w (log_engine conn call w).
Hypothesis R_fs : forall call w, R w (log_fs call w).
Hypothesis R_entry :
  forall w db entry s,
    store db ->
    db_connections w !! db = Some entry ->
    R w (set_db_connections
           (fun reg => <[db := {| connection := connection entry; path := path entry;
                                  tables := s |}]> reg) w).
Hypothesis R_store : forall db, store db -> respects R (get_or_create_db E db).

Lemma respects_ret {A : Type} (a : A) : respects R (ret a).
Proof. intros w r w' H. inversion H; subst. apply R_refl. Qed.

Lemma respects_raise {A : Type} (e : exn) : respects R (@raise A e).
Proof. intros w r w' H. inversion H; subst. apply R_refl. Qed.

Lemma respects_lift {A : Type} (x : exn + A) : respects R (lift x).
Proof. intros w r w' H. inversion H; subst. apply R_refl. Qed.

Lemma respects_check (o : option exn) : respects R (check o).
Proof. destruct o; [apply respects_raise | apply respects_ret]. Qed.

Lemma respects_get_world : respects R get_world.
Proof. intros w r w' H. inversion H; subst. apply R_refl. Qed.

Lemma respects_bind {A B : Type} (m : M A) (k : A -> M B) :
  respects R m -> (forall a, respects R (k a)) -> respects R (bind m k).
Proof.
  intros Hm Hk w r w' H. unfold bind in H.
  destruct (m w) as [[e|a] w1] eqn:Hmw.
  - inversion H; subst. exact (Hm w _ _ Hmw).
  - exact (R_trans _ _ _ (Hm w _ _ Hmw) (Hk a w1 _ _ H)).
Qed.

Lemma respects_cursor_execute (conn : Conn) (sql : string) :
  allowed conn -> respects R (cursor_execute E conn sql).
Proof.
  intros Ha w r w' H. unfold cursor_execute in H.
  destruct (sqlite_execute E sql (catalog_of w conn)) as [x cat].
  inversion H; subst. now apply R_engine.
Qed.

Lemma respects_read_sql_query (sql : string) (conn : Conn) :
  allowed conn -> respects R (pd_read_sql_query E sql conn).
Proof.
  intros Ha w r w' H. unfold pd_read_sql_query in H.
  destruct (read_sql_query E sql (catalog_of w conn)) as [x cat].
  inversion H; subst. now apply R_engine.
Qed.

Lemma respects_to_sql (df : DataFrame) (name : string) (conn : Conn) :
  allowed conn -> respects R (df_to_sql E df name conn).
Proof.
  intros Ha w r w' H. unfold df_to_sql in H.
  destruct (to_sql_error E name df); inversion H; subst;
    exact (R_engine conn (ToSql name df) _ w Ha).
Qed.

Lemma respects_commit (conn : Conn) : allowed conn -> respects R (conn_commit conn).
Proof. intros Ha w r w' H. inversion H; subst. now apply R_logged. Qed.

Lemma respects_log_fs (call : FsCall) : respects R (modify (log_fs call)).
Proof. intros w r w' H. inversion H; subst. apply R_fs. Qed.

Lemma respects_getitem (t : list pyval) (i : nat) : respects R (getitem t i).
Proof.
  unfold getitem. destruct (nth_error t i); [apply respects_ret | apply respects_raise].
Qed.

Lemma respects_mapM {A B : Type} (f : A -> M B) (l : list A) :
  (forall a, respects R (f a)) -> respects R (mapM f l).
Proof.
  intros Hf. induction l as [|a l IH]; simpl; [apply respects_ret|].
  apply respects_bind; [apply Hf|]. intros b.
  apply respects_bind; [exact IH|]. intros bs. apply respects_ret.
Qed.

Lemma respects_forM_ {A : Type} (l : list A) (body : A -> M unit) :
  (forall a, respects R (body a)) -> respects R (forM_ l body).
Proof.
  intros Hb. induction l as [|a l IH]; simpl; [apply respects_ret|].
  apply respects_bind; [apply Hb | intros _; exact IH].
Qed.

Lemma respects_register_table (db_name table_name : string) :
  store db_name -> respects R (register_table db_name table_name).
Proof.
  intros Hs w r w' H. unfold register_table, bind, get_world in H.
  destruct (db_connections w !! db_name) as [entry|] eqn:Hl; inversion H; subst.
  - now apply R_entry.
  - apply R_refl.
Qed.

Lemma respects_clear_tables (db_name : string) :
  store db_name -> respects R (clear_tables db_name).
Proof.
  intros Hs w r w' H. unfold clear_tables, bind, get_world in H.
  destruct (db_connections w !! db_name) as [entry|] eqn:Hl; inversion H; subst.
  - now apply R_entry.
  - apply R_refl.
Qed.

Lemma respects_csv_fallback (file_path : string) (encs : list string) :
  respects R (csv_fallback E file_path encs).
Proof.
  induction encs as [|enc rest IH]; simpl; [apply respects_raise|].
  destruct (read_csv E file_path "," enc); [exact IH | apply respects_ret].
Qed.

Lemma respects_py_round (v : pyval) (n : Z) : respects R (py_round E v n).
Proof. destruct v; simpl; try apply respects_raise; apply respects_ret. Qed.

Lemma respects_fetchone_first (rows : list (list pyval)) : respects R (fetchone_first rows).
Proof. destruct rows; simpl; [apply respects_raise | apply respects_getitem]. Qed.

Lemma respects_fetchone_unpack3 (rows : list (list pyval)) :
  respects R (fetchone_unpack3 rows).
Proof.
  destruct rows as [|[|a [|b [|c [|d row]]]] rows]; simpl;
    try apply respects_raise; apply respects_ret.
Qed.

Ltac respects_steps :=
  repeat match goal with
         | |- respects R (let _ := _ in _) => cbv zeta
         | |- respects R (bind _ _) => apply respects_bind; [|intros]
         | |- respects R (mapM _ _) => apply respects_mapM; intros
         | |- respects R (forM_ _ _) => apply respects_forM_; intros
         | |- respects R (if ?b then _ else _) => destruct b
         | |- respects R (match ?x with Some _ => _ | None => _ end) => destruct x
         | |- respects R (match ?x with inl _ => _ | inr _ => _ end) => destruct x
         | |- respects R (match ?x with [] => _ | _ :: _ => _ end) => destruct x
         | |- respects R _ =>
             first [ apply respects_ret | apply respects_raise | apply respects_lift
                   | apply respects_check | apply respects_get_world
                   | apply respects_cursor_execute; assumption
                   | apply respects_read_sql_query; assumption
                   | apply respects_to_sql; assumption
                   | apply respects_commit; assumption
                   | apply respects_log_fs | apply respects_getitem
                   | apply respects_register_table; assumption
                   | apply respects_clear_tables; assumption
                   | apply respects_csv_fallback | apply respects_py_round
                   | apply respects_fetchone_first | apply respects_fetchone_unpack3 ]
         end.

Lemma respects_numeric_stats_loop (conn : Conn) (table_name : string) (cols : list string) :
  allowed conn -> forall acc, respects R (numeric_stats_loop E conn table_name cols acc).
Proof.
  intros Ha. induction cols as [|c cols IH]; intros acc; cbn [numeric_stats_loop];
    [apply respects_ret|].
  apply respects_bind; [now apply respects_cursor_execute|]. intros rows.
  apply respects_bind; [apply respects_fetchone_unpack3|]. intros [[min_val max_val] avg_val].
  apply respects_bind; [|intros; apply IH].
  unfold avg_field. destruct (truthy avg_val); [apply respects_py_round | apply respects_ret].
Qed.

Lemma respects_column_info (col : list pyval) : respects R (column_info col).
Proof. unfold column_info. respects_steps. Qed.

Lemma respects_run_tool (prefix : string) (body : M pyval) (w : World) :
  respects R body -> R w (snd (run_tool prefix body w)).
Proof.
  intros Hb. unfold run_tool. destruct (body w) as [[e|v] w'] eqn:Hbw; simpl;
    exact (Hb w _ _ Hbw).
Qed.

(** A tool that begins by looking the store up: it is enough to follow
    the rest of the body for the entry found. *)
Lemma respects_lookup (prefix : string) (db_name : string) (w : World)
    (known : DbEntry -> M pyval) (unknown : M pyval) :
  (forall entry, db_connections w !! db_name = Some entry -> respects R (known entry)) ->
  respects R unknown ->
  R w (snd (run_tool prefix
              (bind get_world
                 (fun w0 => match db_connections w0 !! db_name with
                            | Some entry => known entry
                            | None => unknown
                            end)) w)).
Proof.
  intros Hk Hu. unfold run_tool, bind, get_world.
  destruct (db_connections w !! db_name) as [entry|] eqn:Hl.
  - destruct (known entry w) as [[e|v] w'] eqn:Hb; simpl; exact (Hk entry eq_refl w _ _ Hb).
  - destruct (unknown w) as [[e|v] w'] eqn:Hb; simpl; exact (Hu w _ _ Hb).
Qed.

Lemma list_tables_respects (db_name : string) (w : World) :
  (forall entry, db_connections w !! db_name = Some entry -> allowed (connection entry)) ->
  R w (snd (list_tables E db_name w)).
Proof.
  intros Ha. unfold list_tables.
  apply (respects_lookup _ db_name w
           (fun entry => _) (ret (unknown_db db_name))); [|apply respects_ret].
  intros entry He. specialize (Ha entry He). respects_steps.
Qed.

Lemma describe_table_respects (table_name db_name : string) (w : World) :
  (forall entry, db_connections w !! db_name = Some entry -> allowed (connection entry)) ->
  R w (snd (describe_table E table_name db_name w)).
Proof.
  intros Ha. unfold describe_table.
  apply (respects_lookup _ db_name w
           (fun entry => _) (ret (unknown_db db_name))); [|apply respects_ret].
  intros entry He. specialize (Ha entry He). respects_steps.
  - now apply respects_numeric_stats_loop.
  - apply respects_column_info.
Qed.

Lemma execute_sql_respects (query : Text.ustr) (db_name : string) (limit : Z)
    (w : World) :
  (forall entry, db_connections w !! db_name = Some entry -> allowed (connection entry)) ->
  R w (snd (execute_sql E query db_name limit w)).
Proof.
  intros Ha. unfold execute_sql.
  apply (respects_lookup _ db_name w
           (fun entry => _) (ret (unknown_db db_name))); [|apply respects_ret].
  intros entry He. specialize (Ha entry He). respects_steps.
Qed.

Lemma generate_analysis_report_respects (table_name db_name analysis_type : string)
    (w : World) :
  (forall entry, db_connections w !! db_name = Some entry -> allowed (connection entry)) ->
  R w (snd (generate_analysis_report E table_name db_name analysis_type w)).
Proof.
  intros Ha. unfold generate_analysis_report.
  apply (respects_lookup _ db_name w
           (fun entry => _) (ret (unknown_db db_name))); [|apply respects_ret].
  intros entry He. specialize (Ha entry He). respects_steps.
Qed.

Lemma export_query_result_respects (query output_path db_name format : string) (w : World) :
  (forall entry, db_connections w !! db_name = Some entry -> allowed (connection entry)) ->
  R w (snd (export_query_result E query output_path db_name format w)).
Proof.
  intros Ha. unfold export_query_result.
  apply (respects_lookup _ db_name w
           (fun entry => _) (ret (unknown_db db_name))); [|apply respects_ret].
  intros entry He. specialize (Ha entry He).
  unfold path_parent_mkdir, write_file. respects_steps.
Qed.

Lemma clean_database_respects (db_name : string) (w : World) :
  store db_name ->
  (forall entry, db_connections w !! db_name = Some entry -> allowed (connection entry)) ->
  R w (snd (clean_database E db_name w)).
Proof.
  intros Hs Ha. unfold clean_database.
  apply (respects_lookup _ db_name w
           (fun entry => _) (ret (unknown_db db_name))); [|apply respects_ret].
  intros entry He. specialize (Ha entry He). respects_steps.
Qed.

(** [import_file] reaches the engine only through the connection that
    [get_or_create_db] hands out in the state the tool was called in. *)
Lemma import_file_respects (file_path : string) (table_name : option string)
    (db_name : string) (sheet_name encoding : option string) (w : World) :
  store db_name ->
  (forall conn wg, get_or_create_db E db_name w = (inr conn, wg) -> allowed conn) ->
  R w (snd (import_file E file_path table_name db_name sheet_name encoding w)).
Proof.
  intros Hs Ha.
  destruct (import_load_stateless E file_path (Text.lower (path_suffix E file_path))
              sheet_name encoding) as [l Hl].
  unfold import_file, run_tool.
  destruct (negb (path_exists E file_path)); [apply R_refl|].
  unfold bind at 1. rewrite Hl.
  destruct l as [e|[early|df]]; [apply R_refl | apply R_refl |].
  unfold bind at 1.
  destruct (get_or_create_db E db_name w) as [[e|conn] wg] eqn:Hg.
  - exact (R_store db_name Hs w _ _ Hg).
  - specialize (Ha conn wg eq_refl).
    pose proof (R_store db_name Hs w _ _ Hg) as H1.
    match goal with
    | |- R w (snd (let (_, _) := ?m wg in _)) =>
        assert (H2 : respects R m) by respects_steps;
        destruct (m wg) as [[e|v] w2] eqn:Hm
    end; cbn [snd]; exact (R_trans _ _ _ H1 (H2 wg _ _ Hm)).
Qed.

End Evolution.

(* ===================================================================== *)
(** ** What the tools leave alone                                         *)
(* ===================================================================== *)

Section Confinement.

Context (E : Env).

Lemma engine_only_refl (allowed : Conn -> Prop) (w : World) : engine_only allowed w w.
Proof. exists []. split; [now rewrite app_nil_r | constructor]. Qed.

Lemma engine_only_trans (allowed : Conn -> Prop) (w1 w2 w3 : World) :
  engine_only allowed w1 w2 -> engine_only allowed w2 w3 -> engine_only allowed w1 w3.
Proof.
  intros (c1 & H1 & F1) (c2 & H2 & F2). exists (c1 ++ c2)%list. split.
  - now rewrite H2, H1, <- List.app_assoc.
  - apply Forall_app. split; assumption.
Qed.

Lemma engine_only_call (allowed : Conn -> Prop) (conn : Conn) (call : EngineCall)
    (cat : Catalog) (w : World) :
  allowed conn -> engine_only allowed w (log_engine conn call (set_catalog conn cat w)).
Proof. intros Ha. exists [(conn, call)]. split; [reflexivity|]. now repeat constructor. Qed.

Lemma engine_only_same_log (allowed : Conn -> Prop) (w w' : World) :
  engine_log w' = engine_log w -> engine_only allowed w w'.
Proof. intros H. exists []. split; [now rewrite app_nil_r | constructor]. Qed.

Lemma quiet_outside_refl (c : Conn) (w : World) : quiet_outside c w w.
Proof. repeat split. apply engine_only_refl. Qed.

Lemma quiet_outside_trans (c : Conn) (w1 w2 w3 : World) :
  quiet_outside c w1 w2 -> quiet_outside c w2 w3 -> quiet_outside c w1 w3.
Proof.
  intros (A1 & B1 & C1 & D1) (A2 & B2 & C2 & D2).
  split; [congruence|]. split; [congruence|]. split; [congruence|].
  exact (engine_only_trans _ _ _ _ D1 D2).
Qed.

Lemma quiet_outside_engine (c : Conn) (conn : Conn) (call : EngineCall) (cat : Catalog)
    (w : World) :
  c = conn -> quiet_outside c w (log_engine conn call (set_catalog conn cat w)).
Proof. intros Hc. repeat split. now apply engine_only_call. Qed.

Lemma quiet_outside_fs (c : Conn) (call : FsCall) (w : World) :
  quiet_outside c w (log_fs call w).
Proof. repeat split. now apply engine_only_same_log. Qed.

Lemma confined_to_refl (c : Conn) (w : World) : confined_to c w w.
Proof. split; [apply quiet_outside_refl | reflexivity]. Qed.

Lemma confined_to_trans (c : Conn) (w1 w2 w3 : World) :
  confined_to c w1 w2 -> confined_to c w2 w3 -> confined_to c w1 w3.
Proof.
  intros [A1 B1] [A2 B2]. split; [eapply quiet_outside_trans; eauto | congruence].
Qed.

Lemma confined_to_engine (c : Conn) (conn : Conn) (call : EngineCall) (cat : Catalog)
    (w : World) :
  c = conn -> confined_to c w (log_engine conn call (set_catalog conn cat w)).
Proof. intros Hc. split; [now apply quiet_outside_engine | reflexivity]. Qed.

(** X8. On a registered store, [list_tables], [describe_table],
    [execute_sql] and [generate_analysis_report] leave the registry
    (bookkeeping sets included) exactly as it was, open no connection,
    draw no identifier, ask nothing of the file system, and call the
    engine on the store's own connection and on no other;
    [export_query_result] does the same except for the file system.
    What a statement does inside the engine, to the store's file or to
    another one, is the engine's matter and no part of this. *)
Theorem query_tools_are_confined (w : World) (db_name : string) (entry : DbEntry) :
  db_connections w !! db_name = Some entry ->
  confined_to (connection entry) w (snd (list_tables E db_name w)) /\
  (forall table_name : string,
      confined_to (connection entry) w
        (snd (describe_table E table_name db_name w))) /\
  (forall (query : Text.ustr) (limit : Z),
      confined_to (connection entry) w
        (snd (execute_sql E query db_name limit w))) /\
  (forall table_name analysis_type : string,
      confined_to (connection entry) w
        (snd (generate_analysis_report E table_name db_name analysis_type w))) /\
  (forall query output_path format : string,
      quiet_outside (connection entry) w
        (snd (export_query_result E query output_path db_name format w))).
Proof.
  intros He. set (c := connection entry).
  assert (Ha : forall e0, db_connections w !! db_name = Some e0 -> c = connection e0).
  { intros e0 H0. rewrite He in H0. now inversion H0; subst. }
  split; [|split; [|split; [|split]]]; intros.
  - exact (list_tables_respects E (confined_to c) (eq c) (confined_to_refl c)
             (confined_to_trans c) (confined_to_engine c) db_name w Ha).
  - exact (describe_table_respects E (confined_to c) (eq c) (confined_to_refl c)
             (confined_to_trans c) (confined_to_engine c) table_name db_name w Ha).
  - exact (execute_sql_respects E (confined_to c) (eq c) (confined_to_refl c)
             (confined_to_trans c) (confined_to_engine c) query db_name limit w Ha).
  - exact (generate_analysis_report_respects E (confined_to c) (eq c)
             (confined_to_refl c) (confined_to_trans c) (confined_to_engine c)
             table_name db_name analysis_type w Ha).
  - exact (export_query_result_respects E (quiet_outside c) (eq c)
             (quiet_outside_refl c) (quiet_outside_trans c) (quiet_outside_engine c)
             (quiet_outside_fs c) query output_path db_name format w Ha).
Qed.

End Confinement.

Lemma query_tools_are_confined_witness :
  db_connections Demo.with_sales !! "default" = Some Demo.sales_entry /\
  confined_to (connection Demo.sales_entry) Demo.with_sales
    (snd (execute_sql Demo.env plain_query "default" 5 Demo.with_sales)) /\
  quiet_outside (connection Demo.sales_entry) Demo.with_sales
    (snd (export_query_result Demo.env "SELECT * FROM sales" "out.csv" "default" "csv"
            Demo.with_sales)).
Proof.
  assert (H : db_connections Demo.with_sales !! "default" = Some Demo.sales_entry)
    by (vm_compute; reflexivity).
  split; [exact H|].
  destruct (query_tools_are_confined Demo.env Demo.with_sales "default" Demo.sales_entry H)
    as (_ & _ & H3 & _ & H5).
  split; [apply H3 | apply H5].
Defined.

(* ===================================================================== *)
(** ** Store paths                                                        *)
(* ===================================================================== *)

Section Paths.

Context (E : Env).

Lemma length_append (a b : string) :
  String.length (a +:+ b) = String.length a + String.length b.
Proof. induction a as [|c a IH]; simpl; [reflexivity | now rewrite IH]. Qed.

Lemma length_substring_0 (n : nat) (s : string) :
  n <= String.length s -> String.length (String.substring 0 n s) = n.
Proof.
  revert s. induction n as [|n IH]; intros s Hn.
  - now destruct s.
  - destruct s as [|c s]; simpl in *; [lia|]. rewrite IH; [reflexivity | lia].
Qed.

(** Two strings that end in suffixes of one length agree on what comes
    before the suffix. *)
Lemma append_inj_len (x y s t : string) :
  String.length s = String.length t -> x +:+ s = y +:+ t -> x = y.
Proof.
  intros Hlen. revert y. induction x as [|c x IH]; intros [|d y] H; simpl in H.
  - reflexivity.
  - exfalso. apply (f_equal String.length) in H. simpl in H.
    rewrite length_append in H. lia.
  - exfalso. apply (f_equal String.length) in H. simpl in H.
    rewrite length_append in H. lia.
  - inversion H; subst. f_equal. now apply IH.
Qed.

(** [os.path.join] puts the same prefix before every store file name. *)
Lemma store_path_shape :
  exists pre : string,
    forall (db_name : string) (k : nat),
      store_path E db_name k =
        pre +:+ ("data_analysis_" +:+ (db_name +:+
              ("_" +:+ String.substring 0 8 (uuid4_hex E k) +:+ ".db"))).
Proof.
  unfold store_path, Text.os_path_join.
  destruct (Text.ends_with_slash (gettempdir E)).
  - exists (gettempdir E). intros db_name k. reflexivity.
  - exists (gettempdir E +:+ "/"). intros db_name k. cbn [Text.startswith].
    symmetry. apply append_assoc.
Qed.

Lemma store_path_inj (a b : string) (k l : nat) :
  hex_ok E -> store_path E a k = store_path E b l -> a = b.
Proof.
  intros Hhex H. destruct store_path_shape as [pre Hpre].
  rewrite !Hpre in H.
  apply String.app_inj in H. apply String.app_inj in H.
  apply (append_inj_len _ _ _ _) in H; [exact H|].
  cbn [String.append String.length]. rewrite !length_append.
  rewrite !length_substring_0 by apply Hhex. reflexivity.
Qed.

Lemma registry_ok_distinct (w : World) (a b : string) (ea eb : DbEntry) :
  hex_ok E -> registry_ok E w ->
  db_connections w !! a = Some ea -> db_connections w !! b = Some eb ->
  a <> b ->
  path ea <> path eb /\ conn_path (connection ea) <> conn_path (connection eb).
Proof.
  intros Hhex Hok Ha Hb Hne.
  destruct (Hok a ea Ha) as (Hca & ka & Hpa).
  destruct (Hok b eb Hb) as (Hcb & kb & Hpb).
  assert (Hd : path ea <> path eb).
  { intros Heq. rewrite Hpa, Hpb in Heq. exact (Hne (store_path_inj a b ka kb Hhex Heq)). }
  split; [exact Hd | congruence].
Qed.

Lemma registry_ok_same_registry (w w' : World) :
  db_connections w' = db_connections w -> registry_ok E w -> registry_ok E w'.
Proof. intros Hreg Hok n e Hn. rewrite Hreg in Hn. exact (Hok n e Hn). Qed.

Lemma registry_ok_entry (w : World) (db : string) (entry : DbEntry) (s : gset string) :
  db_connections w !! db = Some entry -> registry_ok E w ->
  registry_ok E
    (set_db_connections
       (fun reg => <[db := {| connection := connection entry; path := path entry;
                              tables := s |}]> reg) w).
Proof.
  intros He Hok n e Hn. cbn [db_connections set_db_connections] in Hn.
  destruct (decide (n = db)) as [->|Hne].
  - rewrite lookup_insert_eq in Hn. inversion Hn; subst. exact (Hok db entry He).
  - rewrite lookup_insert_ne in Hn by congruence. exact (Hok n e Hn).
Qed.

Lemma registry_ok_get_or_create_db (db : string) :
  respects (keeps_registry_ok E) (get_or_create_db E db).
Proof.
  intros w r w' H Hok.
  destruct (db_connections w !! db) as [entry|] eqn:Hl.
  - rewrite (get_or_create_db_known E w db entry Hl) in H. now inversion H; subst.
  - destruct (connect_error E (db_path_for E db w)) as [e|] eqn:Hc.
    + destruct (get_or_create_db_refused E w db e Hl Hc) as (w1 & Hr & Hreg & _).
      rewrite Hr in H. inversion H; subst. exact (registry_ok_same_registry _ _ Hreg Hok).
    + rewrite (get_or_create_db_fresh E w db Hl Hc) in H. inversion H; subst.
      intros n e Hn. unfold with_new_store in Hn. cbv zeta in Hn.
      cbn [db_connections] in Hn.
      destruct (decide (n = db)) as [->|Hne].
      * rewrite lookup_insert_eq in Hn. inversion Hn; subst.
        split; [reflexivity|]. exists (uuids_drawn w). reflexivity.
      * rewrite lookup_insert_ne in Hn by congruence. exact (Hok n e Hn).
Qed.

Lemma tool_step_keeps_registry_ok (w w' : World) :
  tool_step E w w' -> registry_ok E w -> registry_ok E w'.
Proof.
  set (R := keeps_registry_ok E).
  assert (Rr : forall w, R w w) by (intros ? ?; assumption).
  assert (Rt : forall w1 w2 w3, R w1 w2 -> R w2 w3 -> R w1 w3)
    by (intros ? ? ? H1 H2 ?; auto).
  assert (Re : forall conn call cat w, True ->
                 R w (log_engine conn call (set_catalog conn cat w)))
    by (intros ? ? ? ? _ ?; assumption).
  assert (Rl : forall conn call w, True -> R w (log_engine conn call w))
    by (intros ? ? ? _ ?; assumption).
  assert (Rf : forall call w, R w (log_fs call w)) by (intros ? ? ?; assumption).
  assert (Rn : forall w db entry s, True -> db_connections w !! db = Some entry ->
                 R w (set_db_connections
                        (fun reg => <[db := {| connection := connection entry;
                                               path := path entry; tables := s |}]> reg) w))
    by (intros ? ? ? ? _ He Hok; now apply registry_ok_entry).
  assert (Rs : forall db, True -> respects R (get_or_create_db E db))
    by (intros db _; apply registry_ok_get_or_create_db).
  intros Hstep. destruct Hstep.
  - apply (import_file_respects E R (fun _ => True) (fun _ => True) Rr Rt Re Rn Rs); auto.
  - apply (list_tables_respects E R (fun _ => True) Rr Rt Re); auto.
  - apply (describe_table_respects E R (fun _ => True) Rr Rt Re); auto.
  - apply (execute_sql_respects E R (fun _ => True) Rr Rt Re); auto.
  - apply (generate_analysis_report_respects E R (fun _ => True) Rr Rt Re); auto.
  - apply (export_query_result_respects E R (fun _ => True) Rr Rt Re Rf); auto.
  - apply (clean_database_respects E R (fun _ => True) (fun _ => True) Rr Rt Re Rl Rn); auto.
  - destruct (get_or_create_db E db_name w) as [r w'] eqn:Hg.
    exact (registry_ok_get_or_create_db db_name w r w' Hg).
Qed.

Lemma reachable_registry_ok (w0 w : World) :
  registry_ok E w0 -> rtc (tool_step E) w0 w -> registry_ok E w.
Proof.
  intros Hok Hsteps. induction Hsteps as [|x y z Hstep _ IH]; [exact Hok|].
  apply IH. exact (tool_step_keeps_registry_ok x y Hstep Hok).
Qed.

(** X9. From a well-formed registry (the empty one of a process that has
    just started is one), whatever tools are called and in whatever
    order, the registry stays well formed: every connection is on the
    path recorded beside it, and that path is the one [get_or_create_db]
    builds for the store's name.  When identifiers have their eight hex
    digits, two stores of different names are therefore never on the
    same database file. *)
Theorem stores_never_share_a_file (w0 w : World) :
  hex_ok E -> registry_ok E w0 -> rtc (tool_step E) w0 w ->
  registry_ok E w /\
  forall (a b : string) (ea eb : DbEntry),
    db_connections w !! a = Some ea -> db_connections w !! b = Some eb ->
    a <> b ->
    path ea <> path eb /\ conn_path (connection ea) <> conn_path (connection eb).
Proof.
  intros Hhex Hok Hsteps.
  pose proof (reachable_registry_ok w0 w Hok Hsteps) as Hw.
  split; [exact Hw|]. intros a b ea eb Ha Hb Hne.
  exact (registry_ok_distinct w a b ea eb Hhex Hw Ha Hb Hne).
Qed.

End Paths.

Lemma demo_hex_ok : hex_ok Demo.env.
Proof.
  intros k. cbn [uuid4_hex Demo.env]. rewrite length_append. simpl. lia.
Qed.

Lemma registry_ok_start (E : Env) : registry_ok E Demo.start.
Proof. intros n e Hn. cbn [db_connections Demo.start] in Hn. now rewrite lookup_empty in Hn. Qed.

Lemma two_stores_reachable : rtc (tool_step Demo.env) Demo.start two_stores.
Proof.
  eapply rtc_l; [exact (step_import Demo.env "sales.csv" None "default" None None Demo.start)|].
  eapply rtc_l; [|apply rtc_refl].
  exact (step_import Demo.env "sales.csv" None "archive" None None Demo.with_sales).
Qed.

Lemma stores_never_share_a_file_witness :
  hex_ok Demo.env /\ registry_ok Demo.env Demo.start /\
  rtc (tool_step Demo.env) Demo.start two_stores /\
  db_connections two_stores !! "default" = Some Demo.sales_entry /\
  db_connections two_stores !! "archive" = Some archive_entry /\
  conn_path (connection Demo.sales_entry) <> conn_path (connection archive_entry).
Proof.
  assert (Ha : db_connections two_stores !! "default" = Some Demo.sales_entry)
    by (vm_compute; reflexivity).
  assert (Hb : db_connections two_stores !! "archive" = Some archive_entry)
    by (vm_compute; reflexivity).
  split; [exact demo_hex_ok|]. split; [apply registry_ok_start|].
  split; [exact two_stores_reachable|]. split; [exact Ha|]. split; [exact Hb|].
  destruct (stores_never_share_a_file Demo.env Demo.start two_stores demo_hex_ok
              (registry_ok_start Demo.env) two_stores_reachable) as [_ H].
  destruct (H "default" "archive" Demo.sales_entry archive_entry Ha Hb) as [_ H2];
    [discriminate | exact H2].
Defined.

(* ===================================================================== *)
(** ** Stores do not interfere                                            *)
(* ===================================================================== *)

Section Isolation.

Context (E : Env).
Variables (a b : string) (eb : DbEntry).
Hypothesis hex : hex_ok E.
Hypothesis a_not_b : a <> b.

Lemma leaves_store_refl (w : World) : leaves_store E b eb w w.
Proof. intros Hok Hb. split; [exact Hok|]. split; [exact Hb | apply engine_only_refl]. Qed.

Lemma leaves_store_trans (w1 w2 w3 : World) :
  leaves_store E b eb w1 w2 -> leaves_store E b eb w2 w3 -> leaves_store E b eb w1 w3.
Proof.
  intros H1 H2 Hok Hb. destruct (H1 Hok Hb) as (Hok2 & Hb2 & Hd2).
  destruct (H2 Hok2 Hb2) as (Hok3 & Hb3 & Hd3).
  split; [exact Hok3|]. split; [exact Hb3 | exact (engine_only_trans _ _ _ _ Hd2 Hd3)].
Qed.

Lemma leaves_store_engine (conn : Conn) (call : EngineCall) (cat : Catalog) (w : World) :
  conn_path conn <> conn_path (connection eb) ->
  leaves_store E b eb w (log_engine conn call (set_catalog conn cat w)).
Proof.
  intros Hne Hok Hb. split; [exact Hok|]. split; [exact Hb|].
  now apply engine_only_call.
Qed.

Lemma leaves_store_entry (w : World) (db : string) (entry : DbEntry) (s : gset string) :
  db = a -> db_connections w !! db = Some entry ->
  leaves_store E b eb w
    (set_db_connections
       (fun reg => <[db := {| connection := connection entry; path := path entry;
                              tables := s |}]> reg) w).
Proof.
  intros -> He Hok Hb. split; [now apply registry_ok_entry|].
  split; [|now apply engine_only_same_log].
  cbn [db_connections set_db_connections]. now rewrite lookup_insert_ne.
Qed.

(** The connection [get_or_create_db] hands out for [a] is not on the
    file of [b]. *)
Lemma get_or_create_db_elsewhere (w wg : World) (conn : Conn) :
  registry_ok E w -> db_connections w !! b = Some eb ->
  get_or_create_db E a w = (inr conn, wg) ->
  conn_path conn <> conn_path (connection eb).
Proof.
  intros Hok Hb Hg.
  destruct (Hok b eb Hb) as (Hcb & kb & Hpb).
  destruct (db_connections w !! a) as [ea|] eqn:Hl.
  - rewrite (get_or_create_db_known E w a ea Hl) in Hg. inversion Hg; subst.
    exact (proj2 (registry_ok_distinct E _ a b ea eb hex Hok Hl Hb a_not_b)).
  - destruct (connect_error E (db_path_for E a w)) as [e|] eqn:Hc.
    + destruct (get_or_create_db_refused E w a e Hl Hc) as (w1 & Hr & _).
      rewrite Hr in Hg. discriminate.
    + rewrite (get_or_create_db_fresh E w a Hl Hc) in Hg. inversion Hg; subst.
      cbn [conn_path]. rewrite Hcb, Hpb. intros Heq.
      exact (a_not_b (store_path_inj E a b (uuids_drawn w) kb hex Heq)).
Qed.

Lemma get_or_create_db_log (w w' : World) (r : exn + Conn) :
  get_or_create_db E a w = (r, w') -> engine_log w' = engine_log w.
Proof.
  intros H. destruct (db_connections w !! a) as [ea|] eqn:Hl.
  - rewrite (get_or_create_db_known E w a ea Hl) in H. now inversion H; subst.
  - destruct (connect_error E (db_path_for E a w)) as [e|] eqn:Hc.
    + revert H. unfold get_or_create_db, bind, get_world, uuid4, sqlite3_connect, bind.
      rewrite Hl. cbn [uuids_drawn]. fold (db_path_for E a w).
      rewrite Hc. unfold check, raise. cbn. intros H. now inversion H; subst.
    + rewrite (get_or_create_db_fresh E w a Hl Hc) in H. now inversion H; subst.
Qed.

Lemma leaves_store_get_or_create_db :
  respects (leaves_store E b eb) (get_or_create_db E a).
Proof.
  intros w r w' H Hok Hb.
  split; [exact (registry_ok_get_or_create_db E a w r w' H Hok)|].
  destruct (db_connections w !! a) as [ea|] eqn:Hl.
  - rewrite (get_or_create_db_known E w a ea Hl) in H. inversion H; subst.
    split; [exact Hb | apply engine_only_refl].
  - destruct (connect_error E (db_path_for E a w)) as [e|] eqn:Hc.
    + pose proof (get_or_create_db_log w w' r H) as Hlog.
      destruct (get_or_create_db_refused E w a e Hl Hc) as (w1 & Hr & Hreg & Hdb).
      rewrite Hr in H. inversion H; subst.
      split; [congruence | now apply engine_only_same_log].
    + pose proof (get_or_create_db_log w w' r H) as Hlog.
      rewrite (get_or_create_db_fresh E w a Hl Hc) in H. inversion H; subst.
      split; [|now apply engine_only_same_log].
      unfold with_new_store. cbv zeta. cbn [db_connections].
      now rewrite lookup_insert_ne.
Qed.

Lemma tool_call_leaves_store (w w' : World) :
  tool_call E a w w' -> registry_ok E w -> db_connections w !! b = Some eb ->
  leaves_store E b eb w w'.
Proof.
  intros Hcall Hok Hb.
  set (R := leaves_store E b eb).
  set (allowed := fun conn : Conn => conn_path conn <> conn_path (connection eb)).
  set (store := fun db : string => db = a).
  assert (Rl : forall conn call w, allowed conn -> R w (log_engine conn call w)).
  { intros conn call w0 Hc Hok0 Hb0. split; [exact Hok0|]. split; [exact Hb0|].
    exists [(conn, call)]. split; [reflexivity|]. now repeat constructor. }
  assert (Rf : forall call w, R w (log_fs call w)).
  { intros call w0 Hok0 Hb0. split; [exact Hok0|]. split; [exact Hb0|].
    now apply engine_only_same_log. }
  assert (Rs : forall db, store db -> respects R (get_or_create_db E db))
    by (intros db ->; apply leaves_store_get_or_create_db).
  assert (Ha : forall entry, db_connections w !! a = Some entry -> allowed (connection entry)).
  { intros ea Hl. exact (proj2 (registry_ok_distinct E w a b ea eb hex Hok Hl Hb a_not_b)). }
  destruct Hcall.
  - apply (import_file_respects E R allowed store leaves_store_refl leaves_store_trans
             leaves_store_engine leaves_store_entry Rs); [reflexivity|].
    intros conn wg Hg. exact (get_or_create_db_elsewhere w wg conn Hok Hb Hg).
  - exact (list_tables_respects E R allowed leaves_store_refl leaves_store_trans
             leaves_store_engine a w Ha).
  - exact (describe_table_respects E R allowed leaves_store_refl leaves_store_trans
             leaves_store_engine table_name a w Ha).
  - exact (execute_sql_respects E R allowed leaves_store_refl leaves_store_trans
             leaves_store_engine query a limit w Ha).
  - exact (generate_analysis_report_respects E R allowed leaves_store_refl
             leaves_store_trans leaves_store_engine table_name a analysis_type w Ha).
  - exact (export_query_result_respects E R allowed leaves_store_refl leaves_store_trans
             leaves_store_engine Rf query output_path a format w Ha).
  - exact (clean_database_respects E R allowed store leaves_store_refl leaves_store_trans
             leaves_store_engine Rl leaves_store_entry a w eq_refl Ha).
Qed.

End Isolation.

(** X10. Stores do not interfere through the program.  From a
    well-formed registry, with identifiers of eight hex digits, calling
    any of the seven tools on the store [a] (registered or not, whatever
    the arguments and whatever the outcome) leaves the registry well
    formed and the entry of every other registered store [b] as it was,
    bookkeeping set included, and makes no engine call on a connection
    to the database file of [b].  What a statement does inside the
    engine is no part of this. *)
Theorem tool_calls_are_isolated (E : Env) (w w' : World) (a b : string) (eb : DbEntry) :
  hex_ok E -> registry_ok E w ->
  db_connections w !! b = Some eb -> a <> b ->
  tool_call E a w w' ->
  registry_ok E w' /\
  db_connections w' !! b = Some eb /\
  engine_only (fun conn => conn_path conn <> conn_path (connection eb)) w w'.
Proof.
  intros Hhex Hok Hb Hne Hcall.
  exact (tool_call_leaves_store E a b eb Hhex Hne w w' Hcall Hok Hb Hok Hb).
Qed.

Lemma registry_ok_two_stores : registry_ok Demo.env two_stores.
Proof.
  exact (reachable_registry_ok Demo.env Demo.start two_stores
           (registry_ok_start Demo.env) two_stores_reachable).
Qed.

Lemma tool_calls_are_isolated_witness :
  hex_ok Demo.env /\ registry_ok Demo.env two_stores /\
  db_connections two_stores !! "default" = Some Demo.sales_entry /\
  "archive" <> "default" /\
  tool_call Demo.env "archive" two_stores (snd (clean_database Demo.env "archive" two_stores)) /\
  registry_ok Demo.env (snd (clean_database Demo.env "archive" two_stores)) /\
  db_connections (snd (clean_database Demo.env "archive" two_stores)) !! "default"
    = Some Demo.sales_entry /\
  engine_only (fun conn => conn_path conn <> conn_path (connection Demo.sales_entry))
    two_stores (snd (clean_database Demo.env "archive" two_stores)).
Proof.
  assert (Hb : db_connections two_stores !! "default" = Some Demo.sales_entry)
    by (vm_compute; reflexivity).
  assert (Hne : "archive" <> "default") by discriminate.
  split; [exact demo_hex_ok|]. split; [exact registry_ok_two_stores|].
  split; [exact Hb|]. split; [exact Hne|]. split; [apply call_clean|].
  exact (tool_calls_are_isolated Demo.env two_stores _ "archive" "default"
           Demo.sales_entry demo_hex_ok registry_ok_two_stores Hb Hne
           (call_clean Demo.env "archive" two_stores)).
Defined.

(* ===================================================================== *)
(** ** Listing and cleaning a store                                       *)
(* ===================================================================== *)

Section Listing.

Import Spec.
Context (E : Env).

Lemma list_tables_known (w : World) (db_name : string) (entry : DbEntry) :
  db_connections w !! db_name = Some entry ->
  lists_tables E ->
  list_tables E db_name w =
    (tables_result db_name (table_names (catalog_of w (connection entry))),
     log_engine (connection entry) (Execute master_query)
       (set_catalog (connection entry) (catalog_of w (connection entry)) w)).
Proof.
  intros Hl Hm. unfold list_tables, run_tool. unfold bind at 1. unfold get_world at 1.
  rewrite Hl. unfold bind at 1. unfold cursor_execute at 1.
  rewrite (Hm (catalog_of w (connection entry))).
  unfold bind at 1. rewrite mapM_first_cells. reflexivity.
Qed.

(** X11. Where the engine answers the catalog query, [list_tables] on a
    registered store answers with the tables of the store's database
    file, in the order of the catalog; the bookkeeping set that
    [import_file] fills and [clean_database] empties plays no part in the
    answer.  The call leaves the tables and the registry as they were. *)
Theorem list_tables_reports_the_catalog (w : World) (db_name : string) (entry : DbEntry) :
  db_connections w !! db_name = Some entry ->
  lists_tables E ->
  fst (list_tables E db_name w)
    = tables_result db_name (table_names (catalog_of w (connection entry))) /\
  catalog_of (snd (list_tables E db_name w)) (connection entry)
    = catalog_of w (connection entry) /\
  db_connections (snd (list_tables E db_name w)) = db_connections w.
Proof.
  intros Hl Hm. rewrite (list_tables_known w db_name entry Hl Hm). cbn [fst snd].
  split; [reflexivity|]. split; [apply catalog_of_executed | reflexivity].
Qed.

Lemma in_table_names_to_sql_replace (name n : string) (df : DataFrame) (c : Catalog) :
  In n (table_names c) -> In n (table_names (to_sql_replace name df c)).
Proof.
  unfold table_names, to_sql_replace. rewrite List.map_app, !List.in_map_iff, List.in_app_iff.
  intros ([n' d] & Hn & Hin). simpl in Hn. subst n'.
  destruct (String.eqb_spec n name) as [->|Hne].
  - right. simpl. auto.
  - left. apply List.in_map_iff. exists (n, d). split; [reflexivity|].
    apply drop_table_names. auto.
Qed.

(** X12. Import, then list.  Where the engine answers the catalog query,
    [list_tables] after a successful import names the imported table
    exactly once, together with every table the store held before. *)
Theorem imported_table_is_listed (w w' : World) (file_path : string)
    (table_name : option string) (db_name : string) (sheet_name encoding : option string)
    (r : pyval) :
  lists_tables E ->
  import_file E file_path table_name db_name sheet_name encoding w = (r, w') ->
  is_success r ->
  exists names : list string,
    fst (list_tables E db_name w') = tables_result db_name names /\
    count_occ string_dec names (resolve_table_name E file_path table_name) = 1 /\
    forall old : DbEntry,
      db_connections w !! db_name = Some old ->
      forall n : string, In n (table_names (catalog_of w (connection old))) -> In n names.
Proof.
  intros Hm H Hs.
  destruct (import_file_success_inv E w w' _ _ _ _ _ r H Hs)
    as (df & wg & entry & Hp & Hl & Hg & He & Ht & -> & ->).
  set (name := resolve_table_name E file_path table_name) in *.
  set (conn := connection entry) in *.
  set (entry' := {| connection := conn; path := path entry;
                    tables := {[name]} ∪ tables entry |}).
  assert (Hreg : db_connections (registered db_name name entry (stored conn name df wg))
                   !! db_name = Some entry')
    by (unfold registered, set_db_connections; cbn [db_connections]; apply lookup_insert_eq).
  assert (Hc : catalog_of (registered db_name name entry (stored conn name df wg)) conn
               = to_sql_replace name df (catalog_of w conn)).
  { rewrite <- (get_or_create_db_catalog E w wg db_name conn Hg).
    exact (catalog_of_stored conn name df wg). }
  exists (table_names (to_sql_replace name df (catalog_of w conn))).
  rewrite (list_tables_known _ db_name entry' Hreg Hm). cbn [fst connection entry'].
  rewrite Hc. split; [reflexivity|]. split; [apply to_sql_replace_once|].
  intros old Hold n Hn.
  rewrite (get_or_create_db_known E w db_name old Hold) in Hg.
  assert (Hco : connection old = conn) by (inversion Hg; reflexivity).
  rewrite Hco in Hn. now apply in_table_names_to_sql_replace.
Qed.

(** X13. Clean, then list, then clean again.  Where the engine answers
    the catalog query and takes each table name unquoted,
    [clean_database] reports the tables of the database file as deleted;
    afterwards the store is still registered on the same connection with
    an empty bookkeeping set, [list_tables] answers with no table, and a
    second [clean_database] succeeds with nothing to delete. *)
Theorem cleaned_store_is_empty (w : World) (db_name : string) (entry : DbEntry) :
  db_connections w !! db_name = Some entry ->
  lists_tables E ->
  Forall (drops_unquoted E) (table_names (catalog_of w (connection entry))) ->
  fst (clean_database E db_name w)
    = cleaned_result db_name (table_names (catalog_of w (connection entry))) /\
  db_connections (snd (clean_database E db_name w)) !! db_name
    = Some {| connection := connection entry; path := path entry; tables := ∅ |} /\
  fst (list_tables E db_name (snd (clean_database E db_name w)))
    = tables_result db_name [] /\
  fst (clean_database E db_name (snd (clean_database E db_name w)))
    = cleaned_result db_name [].
Proof.
  intros Hl Hm Hd.
  destruct (clean_database_drops_all E w db_name entry Hl Hm Hd)
    as (w' & Hc & Hcat & Hreg & _).
  rewrite Hc. cbn [fst snd]. split; [reflexivity|]. split; [exact Hreg|].
  set (entry' := {| connection := connection entry; path := path entry; tables := ∅ |}) in *.
  assert (Hcat' : catalog_of w' (connection entry') = []) by exact Hcat.
  split.
  - rewrite (list_tables_known w' db_name entry' Hreg Hm). cbn [fst].
    now rewrite Hcat'.
  - assert (Hd' : Forall (drops_unquoted E) (table_names (catalog_of w' (connection entry'))))
      by (rewrite Hcat'; constructor).
    destruct (clean_database_drops_all E w' db_name entry' Hreg Hm Hd')
      as (w2 & Hc2 & _).
    rewrite Hc2. cbn [fst]. now rewrite Hcat'.
Qed.

Lemma drop_loop_rejected (conn : Conn) (pre post : list string) (bad : string) (e : exn)
    (w : World) :
  Forall (drops_unquoted E) pre ->
  drop_rejected E bad e ->
  forM_ (map PStr (pre ++ bad :: post)%list)
        (fun table => let* _ := cursor_execute E conn (drop_statement E table) in ret tt) w
  = (inl e,
     log_engine conn (Execute (drop_statement E (PStr bad)))
       (set_catalog conn (catalog_of (dropping E conn pre w) conn) (dropping E conn pre w))).
Proof.
  intros H Hbad. revert w. induction H as [|n names Hn _ IH]; intros w.
  - simpl. unfold bind at 1. unfold bind at 1. unfold cursor_execute at 1.
    now rewrite (Hbad (catalog_of w conn)).
  - simpl. unfold bind at 1. unfold bind at 1. unfold cursor_execute at 1.
    rewrite (Hn (catalog_of w conn)). unfold ret at 1. rewrite IH. reflexivity.
Qed.

(** X14. [clean_database] is not atomic.  When the engine takes the
    names of the first tables but rejects the drop statement of a later
    one, the tool answers with the engine's error after the earlier
    tables are already gone: through the connection only the rejected
    table and the ones after it are left, nothing was committed by the
    tool, and the bookkeeping set still holds every name it held. *)
Theorem clean_database_is_not_atomic (w : World) (db_name : string) (entry : DbEntry)
    (pre post : list string) (bad : string) (e : exn) :
  db_connections w !! db_name = Some entry ->
  lists_tables E ->
  table_names (catalog_of w (connection entry)) = (pre ++ bad :: post)%list ->
  Forall (drops_unquoted E) pre ->
  drop_rejected E bad e ->
  fst (clean_database E db_name w) = error_result ("清理数据库时出错: " +:+ exn_str e) /\
  catalog_of (snd (clean_database E db_name w)) (connection entry)
    = drop_all pre (catalog_of w (connection entry)) /\
  db_connections (snd (clean_database E db_name w)) !! db_name = Some entry /\
  engine_log (snd (clean_database E db_name w)) =
    (engine_log w
     ++ (connection entry, Execute master_query)
     :: map (fun n => (connection entry, Execute (drop_statement E (PStr n)))) pre
     ++ [(connection entry, Execute (drop_statement E (PStr bad)))])%list.
Proof.
  intros Hl Hm Hnames Hd Hbad.
  set (conn := connection entry) in *.
  set (w1 := log_engine conn (Execute master_query) (set_catalog conn (catalog_of w conn) w)).
  assert (Hcat1 : catalog_of w1 conn = catalog_of w conn) by apply catalog_of_executed.
  assert (Hrun : clean_database E db_name w =
                 (error_result ("清理数据库时出错: " +:+ exn_str e),
                  log_engine conn (Execute (drop_statement E (PStr bad)))
                    (set_catalog conn (catalog_of (dropping E conn pre w1) conn)
                       (dropping E conn pre w1)))).
  { unfold clean_database, run_tool. unfold bind at 1. unfold get_world at 1.
    rewrite Hl. unfold bind at 1. unfold cursor_execute at 1.
    rewrite (Hm (catalog_of w (connection entry))). fold conn. fold w1.
    unfold bind at 1. rewrite mapM_first_cells. rewrite Hnames.
    unfold bind at 1. rewrite (drop_loop_rejected conn pre post bad e w1 Hd Hbad).
    reflexivity. }
  rewrite Hrun. cbn [fst snd]. split; [reflexivity|].
  split; [|split].
  - rewrite catalog_of_executed, dropping_catalog, Hcat1. reflexivity.
  - cbn [db_connections log_engine set_catalog set_databases].
    rewrite dropping_registry. exact Hl.
  - cbn [engine_log log_engine set_catalog set_databases].
    rewrite dropping_log. cbn [engine_log log_engine w1 set_catalog set_databases].
    rewrite <- !List.app_assoc. reflexivity.
Qed.

End Listing.

Lemma demo_lists_tables : lists_tables Demo.env.
Proof. intros cat. reflexivity. Qed.

Lemma list_tables_reports_the_catalog_witness :
  db_connections both_sales !! "default" = Some both_sales_entry /\
  lists_tables Demo.env /\
  fst (list_tables Demo.env "default" both_sales)
    = tables_result "default" ["sales"; "2024_sales"].
Proof.
  assert (H : db_connections both_sales !! "default" = Some both_sales_entry)
    by (vm_compute; reflexivity).
  split; [exact H|]. split; [exact demo_lists_tables|].
  exact (proj1 (list_tables_reports_the_catalog Demo.env both_sales "default"
                  both_sales_entry H demo_lists_tables)).
Defined.

Lemma imported_table_is_listed_witness :
  lists_tables Demo.env /\
  Spec.is_success (fst (import_file Demo.env "sales.csv" None "default" None None Demo.start)) /\
  exists names : list string,
    fst (list_tables Demo.env "default" Demo.with_sales) = tables_result "default" names /\
    count_occ string_dec names "sales" = 1.
Proof.
  assert (Hs : Spec.is_success
                 (fst (import_file Demo.env "sales.csv" None "default" None None Demo.start)))
    by (vm_compute; reflexivity).
  split; [exact demo_lists_tables|]. split; [exact Hs|].
  destruct (imported_table_is_listed Demo.env Demo.start Demo.with_sales "sales.csv" None
              "default" None None _ demo_lists_tables
              (surjective_pairing _) Hs) as (names & H1 & H2 & _).
  exists names. split; [exact H1 | exact H2].
Defined.

Lemma cleaned_store_is_empty_witness :
  db_connections Demo.with_sales !! "default" = Some Demo.sales_entry /\
  lists_tables Demo.env /\
  Forall (drops_unquoted Demo.env) ["sales"] /\
  fst (list_tables Demo.env "default" (snd (clean_database Demo.env "default" Demo.with_sales)))
    = tables_result "default" [].
Proof.
  assert (H1 : db_connections Demo.with_sales !! "default" = Some Demo.sales_entry)
    by (vm_compute; reflexivity).
  assert (H3 : Forall (drops_unquoted Demo.env) ["sales"]).
  { constructor; [|constructor]. intros cat. reflexivity. }
  split; [exact H1|]. split; [exact demo_lists_tables|]. split; [exact H3|].
  destruct (cleaned_store_is_empty Demo.env Demo.with_sales "default" Demo.sales_entry
              H1 demo_lists_tables H3) as (_ & _ & H & _).
  exact H.
Defined.

Lemma clean_database_is_not_atomic_witness :
  db_connections both_sales !! "default" = Some both_sales_entry /\
  lists_tables Demo.env /\
  table_names (catalog_of both_sales (connection both_sales_entry))
    = (["sales"] ++ "2024_sales" :: [])%list /\
  Forall (drops_unquoted Demo.env) ["sales"] /\
  drop_rejected Demo.env "2024_sales" (Demo.syntax_error "2024_sales") /\
  table_names (catalog_of (snd (clean_database Demo.env "default" both_sales))
                 (connection both_sales_entry)) = ["2024_sales"] /\
  db_connections (snd (clean_database Demo.env "default" both_sales)) !! "default"
    = Some both_sales_entry.
Proof.
  assert (H1 : db_connections both_sales !! "default" = Some both_sales_entry)
    by (vm_compute; reflexivity).
  assert (H2 : table_names (catalog_of both_sales (connection both_sales_entry))
               = (["sales"] ++ "2024_sales" :: [])%list) by (vm_compute; reflexivity).
  assert (H3 : Forall (drops_unquoted Demo.env) ["sales"]).
  { constructor; [|constructor]. intros cat. reflexivity. }
  assert (H4 : drop_rejected Demo.env "2024_sales" (Demo.syntax_error "2024_sales")).
  { intros cat. reflexivity. }
  destruct (clean_database_is_not_atomic Demo.env both_sales "default" both_sales_entry
              ["sales"] [] "2024_sales" _ H1 demo_lists_tables H2 H3 H4)
    as (_ & Hc & Hr & _).
  split; [exact H1|]. split; [exact demo_lists_tables|]. split; [exact H2|].
  split; [exact H3|]. split; [exact H4|]. split; [|exact Hr].
  rewrite Hc. vm_compute. reflexivity.
Defined.

(* ===================================================================== *)
(** ** The query text [execute_sql] reports                               *)
(* ===================================================================== *)

Section Resubmission.

Import Text Spec.
Local Open Scope list_scope.
Context (E : Env).

Lemma pretty_N_go_suffix (x : N) (s : string) :
  exists p : string, pretty_N_go x s = p +:+ s.
Proof.
  revert s. induction (N.lt_wf_0 x) as [x _ IH]; intros s.
  assert (x = 0 \/ 0 < x)%N as [->|Hx] by lia.
  - exists "". now rewrite pretty_N_go_0.
  - rewrite pretty_N_go_step by exact Hx.
    destruct (IH (x `div` 10)%N (N.div_lt x 10 Hx eq_refl)
                 (String (pretty_N_char (x `mod` 10)) s)) as [p Hp].
    exists (p +:+ String (pretty_N_char (x `mod` 10)) ""). rewrite Hp.
    now rewrite append_assoc.
Qed.

Lemma pretty_N_char_not_space (x : N) : isspace (N_of_ascii (pretty_N_char x)) = false.
Proof. unfold pretty_N_char. repeat case_match; reflexivity. Qed.

(** [str(n)] ends with a character that is not white space. *)
Lemma str_of_int_shape (z : Z) :
  exists (p : string) (d : ascii),
    str_of_int z = p +:+ String d "" /\ isspace (N_of_ascii d) = false.
Proof.
  assert (HN : forall q : positive,
             exists (p : string) (d : ascii),
               pretty (N.pos q) = p +:+ String d "" /\ isspace (N_of_ascii d) = false).
  { intros q. unfold pretty, pretty_N. case_decide as Hq; [discriminate|].
    rewrite pretty_N_go_step by lia.
    destruct (pretty_N_go_suffix (N.pos q `div` 10)%N
                (String (pretty_N_char (N.pos q `mod` 10)) "")) as [p Hp].
    exists p, (pretty_N_char (N.pos q `mod` 10)%N).
    split; [exact Hp | apply pretty_N_char_not_space]. }
  unfold str_of_int. destruct z as [|q|q].
  - exists "", "0"%char. split; reflexivity.
  - exact (HN q).
  - destruct (HN q) as (p & d & Hp & Hd). exists ("-" +:+ p), d.
    split; [|exact Hd]. change (pretty (Z.neg q)) with ("-" +:+ pretty (N.pos q)).
    rewrite Hp. reflexivity.
Qed.

Lemma of_ascii_append (a b : string) : of_ascii (a +:+ b) = of_ascii a ++ of_ascii b.
Proof.
  unfold of_ascii. induction a as [|c a IH]; [reflexivity|].
  change (String c a +:+ b) with (String c (a +:+ b)).
  cbn [list_ascii_of_string map app]. now rewrite IH.
Qed.

Lemma upper_append (a b : ustr) :
  upper (unicode_upper E) (a ++ b)
  = upper (unicode_upper E) a ++ upper (unicode_upper E) b.
Proof. unfold upper. apply flat_map_app. Qed.

Lemma contains_append_r (a b sub : ustr) :
  contains b sub = true -> contains (a ++ b) sub = true.
Proof.
  rewrite !contains_spec. intros (x & y & ->). exists (a ++ x), y.
  now rewrite <- List.app_assoc.
Qed.

Lemma startswith_append_l (a b p : ustr) :
  startswith a p = true -> startswith (a ++ b) p = true.
Proof.
  rewrite !startswith_spec. intros (rest & ->). exists (rest ++ b).
  now rewrite <- List.app_assoc.
Qed.

Lemma startswith_any_append_l (a b : ustr) (ps : list ustr) :
  startswith_any a ps = true -> startswith_any (a ++ b) ps = true.
Proof.
  unfold startswith_any. rewrite !existsb_exists.
  intros (p & Hin & Hp). exists p. split; [exact Hin | now apply startswith_append_l].
Qed.

Lemma gate_nonempty (t : ustr) :
  startswith_any (upper (unicode_upper E) t) [of_ascii "SELECT"; of_ascii "WITH"] = true ->
  t <> [].
Proof. intros H ->. discriminate. Qed.

(** The clause [execute_sql] appends holds LIMIT in upper case and ends
    with a digit. *)
Lemma limit_clause_shape (limit : Z) :
  exists (x : ustr) (d : N),
    of_ascii (" LIMIT " +:+ str_of_int limit) = x ++ [d] /\ isspace d = false /\
    contains (upper (unicode_upper E) (of_ascii (" LIMIT " +:+ str_of_int limit)))
      (of_ascii "LIMIT") = true.
Proof.
  destruct (str_of_int_shape limit) as (p & d & Hp & Hd).
  exists (of_ascii (" LIMIT " +:+ p)), (N_of_ascii d). split; [|split; [exact Hd|]].
  - rewrite Hp. rewrite <- append_assoc. now rewrite of_ascii_append.
  - rewrite of_ascii_append, upper_append. apply contains_spec.
    exists [32%N], ([32%N] ++ upper (unicode_upper E) (of_ascii (str_of_int limit))).
    reflexivity.
Qed.

(** The text made of a query that passes the gate needs no trimming,
    passes the gate and holds a LIMIT. *)
Lemma effective_query_settled (q : ustr) (limit : Z) :
  startswith_any (upper (unicode_upper E) (strip q))
    [of_ascii "SELECT"; of_ascii "WITH"] = true ->
  strip (effective_query E q limit) = effective_query E q limit /\
  startswith_any (upper (unicode_upper E) (effective_query E q limit))
    [of_ascii "SELECT"; of_ascii "WITH"] = true /\
  contains (upper (unicode_upper E) (effective_query E q limit)) (of_ascii "LIMIT") = true.
Proof.
  intros Hg. destruct (trimmed_strip q) as (l & r & _ & _ & _ & Hh & Hl).
  pose proof (gate_nonempty _ Hg) as Hne.
  unfold effective_query.
  destruct (contains (upper (unicode_upper E) (strip q)) (of_ascii "LIMIT")) eqn:Hc;
    cbn [negb].
  - split; [|split; [exact Hg | exact Hc]].
    apply strip_trimmed. exists [], []. rewrite app_nil_r.
    split; [reflexivity|]. split; [constructor|]. split; [constructor|].
    split; [exact Hh | exact Hl].
  - destruct (limit_clause_shape limit) as (x & d & Hx & Hd & Hlim).
    split; [|split].
    + apply strip_trimmed. exists [], []. rewrite app_nil_r.
      split; [reflexivity|]. split; [constructor|]. split; [constructor|]. split.
      * intros c Hc'. apply Hh. destruct (strip q); [contradiction | exact Hc'].
      * intros c Hc'. rewrite Hx, List.app_assoc, last_snoc in Hc'.
        injection Hc' as <-. now apply isspace_false.
    + rewrite upper_append. now apply startswith_any_append_l.
    + rewrite upper_append. now apply contains_append_r.
Qed.

Lemma effective_query_idem (q : ustr) (limit limit' : Z) :
  startswith_any (upper (unicode_upper E) (strip q))
    [of_ascii "SELECT"; of_ascii "WITH"] = true ->
  effective_query E (effective_query E q limit) limit' = effective_query E q limit.
Proof.
  intros Hg. destruct (effective_query_settled q limit Hg) as (Hs & _ & Hc).
  unfold effective_query at 1. rewrite Hs, Hc. reflexivity.
Qed.

(** X15. The query text of a successful [execute_sql] result can be
    handed back to [execute_sql] as it is: whatever the state and
    whatever the new limit, the call does exactly what the original call
    with the original limit does there -- the text is already trimmed,
    passes the gate and holds its LIMIT, so the new limit never
    applies.  The result holds the text as bytes; handed back, it is the
    text these are the bytes of. *)
Theorem reported_query_can_be_resubmitted (w0 : World) (q : ustr) (db : string)
    (limit : Z) :
  is_success (fst (execute_sql E q db limit w0)) ->
  field (fst (execute_sql E q db limit w0)) "query"
    = Some (PStr (encode (effective_query E q limit))) /\
  forall (w : World) (limit' : Z),
    execute_sql E (effective_query E q limit) db limit' w = execute_sql E q db limit w.
Proof.
  intros Hs.
  destruct (db_connections w0 !! db) as [entry0|] eqn:Hl0.
  2: { rewrite (execute_sql_unknown E w0 q db limit Hl0) in Hs.
       now apply not_success_error in Hs. }
  destruct (startswith_any (upper (unicode_upper E) (strip q))
              [of_ascii "SELECT"; of_ascii "WITH"]) eqn:Hg.
  2: { rewrite (execute_sql_rejected E w0 q db limit entry0 Hl0 Hg) in Hs.
       now apply not_success_error in Hs. }
  destruct (effective_query_settled q limit Hg) as (Hstrip & Hgate & _).
  split.
  - rewrite (execute_sql_accepted E w0 q db limit entry0 Hl0 Hg) in Hs |- *. cbv zeta in *.
    destruct (read_sql_query E (encode (effective_query E q limit))
                (catalog_of w0 (connection entry0)))
      as [[e|df] cat]; [now apply not_success_error in Hs | reflexivity].
  - intros w limit'. destruct (db_connections w !! db) as [entry|] eqn:Hl.
    + rewrite (execute_sql_accepted E w q db limit entry Hl Hg).
      rewrite (execute_sql_accepted E w (effective_query E q limit) db limit' entry Hl)
        by (rewrite Hstrip; exact Hgate).
      now rewrite (effective_query_idem q limit limit' Hg).
    + now rewrite !(execute_sql_unknown E w _ db _ Hl).
Qed.

End Resubmission.

Lemma reported_query_can_be_resubmitted_witness :
  Spec.is_success (fst (execute_sql Demo.env padded_query "default" 2 Demo.with_sales)) /\
  field (fst (execute_sql Demo.env padded_query "default" 2 Demo.with_sales)) "query"
    = Some (PStr "SELECT * FROM sales LIMIT 2") /\
  execute_sql Demo.env (Text.of_ascii "SELECT * FROM sales LIMIT 2") "default" 100
    Demo.with_sales
  = execute_sql Demo.env padded_query "default" 2 Demo.with_sales.
Proof.
  assert (Hs : Spec.is_success
                 (fst (execute_sql Demo.env padded_query "default" 2 Demo.with_sales)))
    by (vm_compute; reflexivity).
  split; [exact Hs|].
  destruct (reported_query_can_be_resubmitted Demo.env Demo.with_sales
              padded_query "default" 2 Hs) as [H1 H2].
  split; [exact H1 | exact (H2 Demo.with_sales 100%Z)].
Defined.

(* ===================================================================== *)
(** ** What [describe_table] asks and answers                             *)
(* ===================================================================== *)

Section DescribeMore.

Import Spec.
Context (E : Env).






(** X17. When the engine lists no column for the table,
    [describe_table] on a registered store answers that the table does
    not exist after that one statement: no count, no sample and no
    aggregate is asked for. *)
Theorem describe_table_without_columns (w : World) (table_name db_name : string)
    (entry : DbEntry) (cat : Catalog) :
  db_connections w !! db_name = Some entry ->
  sqlite_execute E ("PRAGMA table_info(" +:+ table_name +:+ ");")
    (catalog_of w (connection entry)) = (inr [], cat) ->
  fst (describe_table E table_name db_name w)
    = error_result ("表 " +:+ table_name +:+ " 不存在") /\
  engine_log (snd (describe_table E table_name db_name w)) =
    (engine_log w
     ++ [(connection entry, Execute ("PRAGMA table_info(" +:+ table_name +:+ ");"))])%list /\
  catalog_of (snd (describe_table E table_name db_name w)) (connection entry) = cat.
Proof.
  intros Hl Hx.
  assert (Hrun : describe_table E table_name db_name w =
                 (error_result ("表 " +:+ table_name +:+ " 不存在"),
                  log_engine (connection entry)
                    (Execute ("PRAGMA table_info(" +:+ table_name +:+ ");"))
                    (set_catalog (connection entry) cat w))).
  { unfold describe_table, run_tool. unfold bind at 1. unfold get_world at 1.
    rewrite Hl. unfold bind at 1. unfold cursor_execute at 1. rewrite Hx. reflexivity. }
  rewrite Hrun. cbn [fst snd]. split; [reflexivity|]. split; [reflexivity|].
  apply catalog_of_executed.
Qed.

End DescribeMore.


Lemma describe_table_without_columns_witness :
  db_connections Demo.with_sales !! "default" = Some Demo.sales_entry /\
  sqlite_execute pragma_env "PRAGMA table_info(orders);"
    (catalog_of Demo.with_sales (connection Demo.sales_entry))
    = (inr [], catalog_of Demo.with_sales (connection Demo.sales_entry)) /\
  fst (describe_table pragma_env "orders" "default" Demo.with_sales)
    = error_result "表 orders 不存在".
Proof.
  assert (H1 : db_connections Demo.with_sales !! "default" = Some Demo.sales_entry)
    by (vm_compute; reflexivity).
  assert (H2 : sqlite_execute pragma_env "PRAGMA table_info(orders);"
                 (catalog_of Demo.with_sales (connection Demo.sales_entry))
               = (inr [], catalog_of Demo.with_sales (connection Demo.sales_entry)))
    by (vm_compute; reflexivity).
  split; [exact H1|]. split; [exact H2|].
  exact (proj1 (describe_table_without_columns pragma_env Demo.with_sales "orders" "default"
                  Demo.sales_entry _ H1 H2)).
Defined.

(* ===================================================================== *)
(** ** The tiers of [generate_analysis_report]                            *)
(* ===================================================================== *)

Section ReportsMore.

Import Spec.
Context (E : Env).

Lemma dict_get_set {V : Type} (d : list (string * V)) (k k' : string) (v : V) :
  dict_get (dict_set d k' v) k = if String.eqb k' k then Some v else dict_get d k.
Proof.
  destruct (String.eqb_spec k' k) as [->|Hne];
    [apply dict_get_set_eq | now apply dict_get_set_ne].
Qed.

Lemma not_tier_in_list (analysis_type : string) :
  ~ is_tier analysis_type ->
  in_list analysis_type ["basic"; "statistical"; "correlation"] = false /\
  in_list analysis_type ["statistical"; "correlation"] = false /\
  String.eqb analysis_type "correlation" = false.
Proof.
  intros Hn. unfold in_list, is_tier in *. cbn [existsb].
  destruct (String.eqb_spec analysis_type "basic"); [tauto|].
  destruct (String.eqb_spec analysis_type "statistical"); [tauto|].
  destruct (String.eqb_spec analysis_type "correlation"); [tauto|].
  auto.
Qed.

(** What the tool asks of the engine, and what becomes of the answer. *)
Lemma generate_analysis_report_run (w : World) (table_name db_name analysis_type : string)
    (entry : DbEntry) :
  db_connections w !! db_name = Some entry ->
  generate_analysis_report E table_name db_name analysis_type w =
    let conn := connection entry in
    let sql := "SELECT * FROM " +:+ table_name in
    let w' := fun cat => log_engine conn (ReadSqlQuery sql) (set_catalog conn cat w) in
    match read_sql_query E sql (catalog_of w conn) with
    | (inr df, cat) =>
        (match build_report E table_name analysis_type df with
         | inr report =>
             PDict [("status", PStr "success"); ("database", PStr db_name);
                    ("report", PDict report)]
         | inl e => error_result ("生成分析报告时出错: " +:+ exn_str e)
         end, w' cat)
    | (inl e, cat) => (error_result ("生成分析报告时出错: " +:+ exn_str e), w' cat)
    end.
Proof.
  intros Hl. unfold generate_analysis_report, run_tool, bind, get_world. rewrite Hl.
  unfold pd_read_sql_query, lift. cbv zeta.
  destruct (read_sql_query E ("SELECT * FROM " +:+ table_name)
              (catalog_of w (connection entry))) as [[e|df] cat]; [reflexivity|].
  destruct (build_report E table_name analysis_type df); reflexivity.
Qed.

Lemma generate_analysis_report_unknown (w : World) (table_name db_name analysis_type : string) :
  db_connections w !! db_name = None ->
  generate_analysis_report E table_name db_name analysis_type w = (unknown_db db_name, w).
Proof.
  intros Hl. unfold generate_analysis_report, run_tool, bind, get_world. now rewrite Hl.
Qed.

(** A report of a type that is neither "statistical" nor "correlation"
    is always built. *)
Lemma build_report_plain (table_name analysis_type : string) (df : DataFrame) :
  in_list analysis_type ["statistical"; "correlation"] = false ->
  build_report E table_name analysis_type df =
    inr (if in_list analysis_type ["basic"; "statistical"; "correlation"]
         then basic_tier E df (report_header E table_name analysis_type df)
         else report_header E table_name analysis_type df).
Proof.
  intros Hn. unfold build_report. cbv zeta. rewrite Hn.
  assert (Hc : String.eqb analysis_type "correlation" = false).
  { unfold in_list in Hn. cbn [existsb] in Hn.
    destruct (String.eqb analysis_type "correlation"); [|reflexivity].
    now rewrite orb_true_r in Hn. }
  rewrite Hc. reflexivity.
Qed.

(** X18. [generate_analysis_report] never checks its analysis type.
    The type changes nothing of what the tool does to the state; a type
    that is neither "statistical" nor "correlation" succeeds whenever
    any type does; and with a type that is none of "basic",
    "statistical" and "correlation" a successful report holds its three
    header entries (table, analysis type, basic information) and nothing
    else. *)
Theorem analysis_type_is_not_validated (w : World) (table_name db_name analysis_type : string) :
  (forall other : string,
      snd (generate_analysis_report E table_name db_name analysis_type w)
      = snd (generate_analysis_report E table_name db_name other w)) /\
  (forall other : string,
      other <> "statistical" -> other <> "correlation" ->
      is_success (fst (generate_analysis_report E table_name db_name analysis_type w)) ->
      is_success (fst (generate_analysis_report E table_name db_name other w))) /\
  (~ is_tier analysis_type ->
   is_success (fst (generate_analysis_report E table_name db_name analysis_type w)) ->
   exists df : DataFrame,
     report_frame E w table_name db_name df /\
     field (fst (generate_analysis_report E table_name db_name analysis_type w)) "report"
       = Some (PDict (report_header E table_name analysis_type df))).
Proof.
  split; [|split].
  - intros other. destruct (db_connections w !! db_name) as [entry|] eqn:Hl.
    + rewrite !(generate_analysis_report_run w table_name db_name _ entry Hl). cbv zeta.
      destruct (read_sql_query E ("SELECT * FROM " +:+ table_name)
                  (catalog_of w (connection entry))) as [[e|df] cat]; reflexivity.
    + now rewrite !(generate_analysis_report_unknown w table_name db_name _ Hl).
  - intros other N1 N2. destruct (db_connections w !! db_name) as [entry|] eqn:Hl.
    + rewrite !(generate_analysis_report_run w table_name db_name _ entry Hl). cbv zeta.
      destruct (read_sql_query E ("SELECT * FROM " +:+ table_name)
                  (catalog_of w (connection entry))) as [[e|df] cat]; [auto|].
      intros _. rewrite (build_report_plain table_name other df); [reflexivity|].
      unfold in_list. cbn [existsb].
      destruct (String.eqb_spec other "statistical"); [contradiction|].
      destruct (String.eqb_spec other "correlation"); [contradiction | reflexivity].
    + now rewrite !(generate_analysis_report_unknown w table_name db_name _ Hl).
  - intros Hn Hs.
    destruct (generate_analysis_report_success_inv E w _ table_name db_name analysis_type _
                (surjective_pairing _) Hs) as (df & report & Hf & Hb & Hr).
    exists df. split; [exact Hf|]. rewrite Hr. cbn [field dict_get String.eqb Ascii.eqb
      Bool.eqb].
    destruct (not_tier_in_list analysis_type Hn) as (H1 & H2 & H3).
    rewrite (build_report_plain table_name analysis_type df H2), H1 in Hb.
    now injection Hb as <-.
Qed.

Lemma basic_tier_lookup (df : DataFrame) (R1 R2 : list (string * pyval)) (k : string) :
  dict_get R1 k = dict_get R2 k ->
  dict_get (basic_tier E df R1) k = dict_get (basic_tier E df R2) k.
Proof.
  intros H. unfold basic_tier. cbv zeta. rewrite !dict_get_set.
  destruct (String.eqb "data_types" k); [reflexivity|].
  destruct (0 <? list_sum (map snd (isnull_sum df)))%nat;
    rewrite ?dict_get_set;
    try destruct (String.eqb "missing_values" k); try reflexivity;
    destruct (0 <? List.length (df_columns (select_number df)))%nat;
    rewrite ?dict_get_set;
    try destruct (String.eqb "numeric_summary" k); try reflexivity; exact H.
Qed.

Lemma correlation_tier_keeps (df : DataFrame) (R : list (string * pyval)) (k : string)
    (v : pyval) :
  dict_get R "high_correlations" = None ->
  dict_get R k = Some v -> dict_get (correlation_tier E df R) k = Some v.
Proof. intros H1 Hk. rewrite correlation_tier_get; [exact Hk|]. congruence. Qed.

Lemma header_lookup (table_name a b : string) (df : DataFrame) (k : string) :
  k <> "analysis_type" ->
  dict_get (report_header E table_name a df) k
  = dict_get (report_header E table_name b df) k.
Proof.
  intros Hk. unfold report_header. cbn [dict_get].
  destruct (String.eqb "table" k); [reflexivity|].
  destruct (String.eqb_spec "analysis_type" k); [congruence | reflexivity].
Qed.

Lemma basic_tier_fresh (table_name a : string) (df : DataFrame) (key : string) :
  key <> "numeric_summary" -> key <> "missing_values" -> key <> "data_types" ->
  key <> "table" -> key <> "analysis_type" -> key <> "basic_info" ->
  dict_get (basic_tier E df (report_header E table_name a df)) key = None.
Proof.
  intros N1 N2 N3 N4 N5 N6. rewrite basic_tier_get by assumption.
  unfold report_header. cbn [dict_get].
  destruct (String.eqb_spec "table" key); [congruence|].
  destruct (String.eqb_spec "analysis_type" key); [congruence|].
  destruct (String.eqb_spec "basic_info" key); [congruence | reflexivity].
Qed.

(** The statistical tier, when it goes through: the loop filled
    [counts], and the two keys are set from the duplicates and from
    [counts]. *)
Lemma statistical_tier_inv (df : DataFrame) (R R' : list (string * pyval)) :
  statistical_tier E df R = inr R' ->
  exists counts : list (string * pyval),
    unique_counts_loop E df (column_names df) [] = inr counts /\
    dict_get R' "duplicate_rows"
      = (if (0 <? duplicated_sum E df)%Z then Some (PInt (duplicated_sum E df))
         else dict_get R "duplicate_rows") /\
    dict_get R' "unique_value_counts"
      = match counts with
        | [] => dict_get R "unique_value_counts"
        | _ :: _ => Some (PDict counts)
        end.
Proof.
  unfold statistical_tier. cbv zeta. intros H.
  destruct (unique_counts_loop E df (column_names df) []) as [e|[|u l]];
    [discriminate| |]; injection H as <-; eexists; (split; [reflexivity|]).
  - split.
    + destruct (0 <? duplicated_sum E df)%Z; [apply dict_get_set_eq | reflexivity].
    + now rewrite dict_get_if_set_ne by discriminate.
  - split.
    + rewrite dict_get_set_ne by discriminate.
      destruct (0 <? duplicated_sum E df)%Z; [apply dict_get_set_eq | reflexivity].
    + apply dict_get_set_eq.
Qed.

(** The statistical tier goes through or not whatever report it is
    given. *)
Lemma statistical_tier_builds (df : DataFrame) (R1 R2 R1' : list (string * pyval)) :
  statistical_tier E df R1 = inr R1' -> exists R2', statistical_tier E df R2 = inr R2'.
Proof.
  unfold statistical_tier. cbv zeta.
  destruct (unique_counts_loop E df (column_names df) []) as [e|[|u l]];
    [discriminate| |]; intros _; eexists; reflexivity.
Qed.

Lemma build_report_basic (table_name : string) (df : DataFrame) :
  build_report E table_name "basic" df
  = inr (basic_tier E df (report_header E table_name "basic" df)).
Proof. reflexivity. Qed.

Lemma build_report_statistical (table_name : string) (df : DataFrame) :
  build_report E table_name "statistical" df
  = statistical_tier E df (basic_tier E df (report_header E table_name "statistical" df)).
Proof.
  unfold build_report. cbv zeta.
  change (in_list "statistical" ["basic"; "statistical"; "correlation"]) with true.
  change (in_list "statistical" ["statistical"; "correlation"]) with true.
  change (String.eqb "statistical" "correlation") with false. cbv iota.
  fold (report_header E table_name "statistical" df).
  now destruct (statistical_tier E df _).
Qed.

Lemma build_report_correlation (table_name : string) (df : DataFrame) :
  build_report E table_name "correlation" df
  = match statistical_tier E df
            (basic_tier E df (report_header E table_name "correlation" df)) with
    | inl e => inl e
    | inr R => inr (correlation_tier E df R)
    end.
Proof. reflexivity. Qed.

(** X19. The tiers are cumulative.  On one frame the "basic" report is
    always built, and the "correlation" report is built exactly when the
    "statistical" one is; every entry of the "basic" report other than
    the analysis type itself is an entry, with the same value, of the
    "statistical" report, and every such entry of the "statistical"
    report is one of the "correlation" report. *)
Theorem report_tiers_are_cumulative (table_name : string) (df : DataFrame)
    (k : string) (v : pyval) :
  k <> "analysis_type" ->
  exists basic : list (string * pyval),
    build_report E table_name "basic" df = inr basic /\
    ((exists r, build_report E table_name "statistical" df = inr r) <->
     (exists r, build_report E table_name "correlation" df = inr r)) /\
    (forall statistical : list (string * pyval),
        build_report E table_name "statistical" df = inr statistical ->
        dict_get basic k = Some v -> dict_get statistical k = Some v) /\
    (forall statistical correlation : list (string * pyval),
        build_report E table_name "statistical" df = inr statistical ->
        build_report E table_name "correlation" df = inr correlation ->
        dict_get statistical k = Some v -> dict_get correlation k = Some v).
Proof.
  intros Hk. eexists. split; [apply build_report_basic|].
  rewrite build_report_statistical, build_report_correlation.
  split; [|split].
  - split.
    + intros (r & Hr).
      destruct (statistical_tier_builds df _
                  (basic_tier E df (report_header E table_name "correlation" df)) _ Hr)
        as (r' & Hr'). rewrite Hr'. now eexists.
    + intros (r & Hr).
      destruct (statistical_tier E df
                  (basic_tier E df (report_header E table_name "correlation" df)))
        as [e|r'] eqn:Hr'; [discriminate|].
      exact (statistical_tier_builds df _ _ _ Hr').
  - intros Rs HRs H.
    rewrite (statistical_tier_get E df _ Rs k HRs).
    + rewrite <- H. apply basic_tier_lookup, header_lookup, Hk.
    + intros ->. rewrite basic_tier_fresh in H by discriminate. discriminate.
    + intros ->. rewrite basic_tier_fresh in H by discriminate. discriminate.
  - intros Rs Rc HRs HRc H.
    destruct (statistical_tier E df
                (basic_tier E df (report_header E table_name "correlation" df)))
      as [e|R2] eqn:HR2; [discriminate|]. injection HRc as <-.
    apply correlation_tier_keeps.
    + rewrite (statistical_tier_get E df _ R2 _ HR2) by discriminate.
      apply basic_tier_fresh; discriminate.
    + destruct (statistical_tier_inv df _ _ HRs) as (cs & Hcs & Hd & Hu).
      destruct (statistical_tier_inv df _ _ HR2) as (cs' & Hcs' & Hd' & Hu').
      rewrite Hcs in Hcs'. injection Hcs' as <-.
      destruct (String.eqb_spec k "duplicate_rows") as [->|N1];
        [|destruct (String.eqb_spec k "unique_value_counts") as [->|N2]].
      * rewrite Hd in H. rewrite Hd'.
        now rewrite !basic_tier_fresh in H |- * by discriminate.
      * rewrite Hu in H. rewrite Hu'.
        now rewrite !basic_tier_fresh in H |- * by discriminate.
      * rewrite (statistical_tier_get E df _ Rs k HRs) in H by assumption.
        rewrite (statistical_tier_get E df _ R2 k HR2) by assumption.
        rewrite <- H. apply basic_tier_lookup, header_lookup, Hk.
Qed.

Lemma in_list_In (s : string) (l : list string) : in_list s l = true <-> In s l.
Proof.
  unfold in_list. rewrite existsb_exists. split.
  - intros (x & Hin & Hx). apply String.eqb_eq in Hx. now subst.
  - intros Hin. exists s. split; [exact Hin | apply String.eqb_refl].
Qed.

(** The loop, when it goes through: each label it visited selects one
    column, and the counts are those of the labels with fewer distinct
    values than the frame has rows. *)
Lemma unique_counts_loop_spec (df : DataFrame) (cols : list string) :
  forall acc counts : list (string * pyval),
    unique_counts_loop E df cols acc = inr counts ->
    (forall col : string, In col cols -> selects_one_column df col = true) /\
    forall col : string,
      dict_get counts col
      = if in_list col cols && (nunique E df col <? Z.of_nat (df_len df))%Z
        then Some (PInt (nunique E df col))
        else dict_get acc col.
Proof.
  induction cols as [|c cols IH]; intros acc counts H.
  - cbn [unique_counts_loop] in H. injection H as <-. split; [intros col []|reflexivity].
  - cbn [unique_counts_loop] in H.
    destruct (selects_one_column df c) eqn:Hone; [|discriminate].
    destruct (IH _ _ H) as [Hall Hget]. split.
    + intros col [<-|Hin]; [exact Hone | now apply Hall].
    + intros col. rewrite Hget. unfold in_list. cbn [existsb]. fold (in_list col cols).
      destruct (String.eqb_spec col c) as [->|Hne]; cbn [orb].
      * destruct (nunique E df c <? Z.of_nat (df_len df))%Z eqn:Hlt.
        -- rewrite andb_true_r. destruct (in_list c cols); [reflexivity|].
           apply dict_get_set_eq.
        -- now rewrite !andb_false_r.
      * destruct (in_list col cols && (nunique E df col <? Z.of_nat (df_len df))%Z);
          [reflexivity|].
        destruct (nunique E df c <? Z.of_nat (df_len df))%Z; [|reflexivity].
        apply dict_get_set_ne. congruence.
Qed.

(** X20. The statistical part of a report.  In a successful
    "statistical" or "correlation" report, "duplicate_rows" is there
    exactly when the frame has duplicated rows, and holds their number;
    "unique_value_counts" has an entry for a name exactly when it is a
    column of the frame with fewer distinct values than the frame has
    rows, and the entry is that number of distinct values -- so the key
    is absent when every column is all distinct.  Such a report is only
    built for a frame in which no two columns bear the same label. *)
Theorem report_statistical_part (w w' : World) (table_name db_name analysis_type : string)
    (r : pyval) :
  generate_analysis_report E table_name db_name analysis_type w = (r, w') ->
  is_success r ->
  analysis_type = "statistical" \/ analysis_type = "correlation" ->
  exists (df : DataFrame) (report counts : list (string * pyval)),
    report_frame E w table_name db_name df /\
    field r "report" = Some (PDict report) /\
    (forall col : string, In col (column_names df) -> selects_one_column df col = true) /\
    dict_get report "duplicate_rows"
      = (if (0 <? duplicated_sum E df)%Z then Some (PInt (duplicated_sum E df)) else None) /\
    dict_get report "unique_value_counts"
      = match counts with
        | [] => None
        | _ :: _ => Some (PDict counts)
        end /\
    forall (col : string) (v : pyval),
      dict_get counts col = Some v <->
      In col (column_names df) /\
      (nunique E df col < Z.of_nat (df_len df))%Z /\
      v = PInt (nunique E df col).
Proof.
  intros H Hs Ht.
  destruct (generate_analysis_report_success_inv E w w' _ _ _ r H Hs)
    as (df & report & Hf & Hb & ->).
  assert (Hstat : exists R2 : list (string * pyval),
             statistical_tier E df
               (basic_tier E df (report_header E table_name analysis_type df)) = inr R2 /\
             forall key : string,
               key <> "high_correlations" -> dict_get report key = dict_get R2 key).
  { destruct Ht as [-> | ->].
    - rewrite build_report_statistical in Hb. exists report. auto.
    - rewrite build_report_correlation in Hb.
      destruct (statistical_tier E df _) as [e|R2]; [discriminate|].
      injection Hb as <-. exists R2. split; [reflexivity|].
      intros key Hkey. now apply correlation_tier_get. }
  destruct Hstat as (R2 & HR2 & Hkeys).
  destruct (statistical_tier_inv df _ _ HR2) as (counts & Hloop & Hd & Hu).
  destruct (unique_counts_loop_spec df _ _ _ Hloop) as [Hone Hget].
  exists df, report, counts.
  split; [exact Hf|]. split; [reflexivity|]. split; [exact Hone|].
  split; [|split].
  - rewrite Hkeys by discriminate. rewrite Hd.
    now rewrite basic_tier_fresh by discriminate.
  - rewrite Hkeys by discriminate. rewrite Hu.
    now rewrite basic_tier_fresh by discriminate.
  - intros col v. rewrite Hget.
    cbn [dict_get]. rewrite <- in_list_In.
    destruct (in_list col (column_names df)) eqn:Hin; cbn [andb].
    + destruct (Z.ltb_spec (nunique E df col) (Z.of_nat (df_len df))).
      * split; [intros [= <-]; auto | intros (_ & _ & ->); reflexivity].
      * split; [discriminate | intros (_ & Hlt & _); lia].
    + split; [discriminate | intros (Habs & _); discriminate].
Qed.

End ReportsMore.

Lemma analysis_type_is_not_validated_witness :
  ~ Spec.is_tier "full" /\
  Spec.is_success (fst (generate_analysis_report Demo.env "sales" "default" "full"
                          Demo.with_sales)) /\
  exists df : DataFrame,
    report_frame Demo.env Demo.with_sales "sales" "default" df /\
    field (fst (generate_analysis_report Demo.env "sales" "default" "full" Demo.with_sales))
      "report" = Some (PDict (report_header Demo.env "sales" "full" df)).
Proof.
  assert (H1 : ~ Spec.is_tier "full") by (intros [H|[H|H]]; discriminate).
  assert (H2 : Spec.is_success
                 (fst (generate_analysis_report Demo.env "sales" "default" "full"
                         Demo.with_sales))) by (vm_compute; reflexivity).
  split; [exact H1|]. split; [exact H2|].
  exact (proj2 (proj2 (analysis_type_is_not_validated Demo.env Demo.with_sales "sales"
                         "default" "full")) H1 H2).
Defined.

(** The type decides whether a report is built: for the frame of a
    join, in which two columns bear one label, the "basic" report is
    built and the "statistical" one raises. *)
Example duplicate_labels_stop_the_statistical_tier :
  (exists report : list (string * pyval),
      build_report Demo.env "sales JOIN sales AS u" "basic" joined = inr report) /\
  build_report Demo.env "sales JOIN sales AS u" "statistical" joined
    = inl ambiguous_truth_value /\
  build_report Demo.env "sales JOIN sales AS u" "correlation" joined
    = inl ambiguous_truth_value.
Proof. split; [eexists; reflexivity|]. split; vm_compute; reflexivity. Qed.

Lemma report_tiers_are_cumulative_witness :
  "data_types" <> "analysis_type" /\
  exists basic : list (string * pyval),
    build_report Demo.env "sales" "basic" Demo.sales = inr basic /\
    ((exists r, build_report Demo.env "sales" "statistical" Demo.sales = inr r) <->
     (exists r, build_report Demo.env "sales" "correlation" Demo.sales = inr r)) /\
    (forall statistical : list (string * pyval),
        build_report Demo.env "sales" "statistical" Demo.sales = inr statistical ->
        dict_get basic "data_types" = Some (PDict []) ->
        dict_get statistical "data_types" = Some (PDict [])) /\
    (forall statistical correlation : list (string * pyval),
        build_report Demo.env "sales" "statistical" Demo.sales = inr statistical ->
        build_report Demo.env "sales" "correlation" Demo.sales = inr correlation ->
        dict_get statistical "data_types" = Some (PDict []) ->
        dict_get correlation "data_types" = Some (PDict [])).
Proof.
  assert (H : "data_types" <> "analysis_type") by discriminate.
  split; [exact H|].
  exact (report_tiers_are_cumulative Demo.env "sales" Demo.sales "data_types" (PDict []) H).
Defined.

Lemma report_statistical_part_witness :
  Spec.is_success (fst (generate_analysis_report Demo.env "sales" "default" "statistical"
                          Demo.with_sales)) /\
  ("statistical" = "statistical" \/ "statistical" = "correlation") /\
  exists (df : DataFrame) (report counts : list (string * pyval)),
    report_frame Demo.env Demo.with_sales "sales" "default" df /\
    field (fst (generate_analysis_report Demo.env "sales" "default" "statistical"
                  Demo.with_sales)) "report" = Some (PDict report) /\
    (forall col : string, In col (column_names df) -> selects_one_column df col = true) /\
    dict_get report "duplicate_rows"
      = (if (0 <? duplicated_sum Demo.env df)%Z
         then Some (PInt (duplicated_sum Demo.env df)) else None) /\
    dict_get report "unique_value_counts"
      = match counts with
        | [] => None
        | _ :: _ => Some (PDict counts)
        end /\
    forall (col : string) (v : pyval),
      dict_get counts col = Some v <->
      In col (column_names df) /\
      (nunique Demo.env df col < Z.of_nat (df_len df))%Z /\
      v = PInt (nunique Demo.env df col).
Proof.
  assert (H2 : Spec.is_success
                 (fst (generate_analysis_report Demo.env "sales" "default" "statistical"
                         Demo.with_sales))) by (vm_compute; reflexivity).
  split; [exact H2|]. split; [now left|].
  exact (report_statistical_part Demo.env Demo.with_sales _ "sales" "default" "statistical"
           _ (surjective_pairing _) H2 (or_introl eq_refl)).
Defined.

(* ===================================================================== *)
(** ** Export: [export_query_result]                                      *)
(* ===================================================================== *)

Section Exporting.

Import Text Spec.
Context (E : Env).

Lemma export_query_result_unknown (w : World) (query output_path db_name format : string) :
  db_connections w !! db_name = None ->
  export_query_result E query output_path db_name format w = (unknown_db db_name, w).
Proof.
  intros Hl. unfold export_query_result, run_tool, bind, get_world. now rewrite Hl.
Qed.

(** The course of [export_query_result] on a registered store. *)
Lemma export_query_result_run (w : World) (query output_path db_name format : string)
    (entry : DbEntry) :
  db_connections w !! db_name = Some entry ->
  export_query_result E query output_path db_name format w =
    let conn := connection entry in
    let failed := fun e : exn => error_result ("导出数据时出错: " +:+ exn_str e) in
    match read_sql_query E query (catalog_of w conn) with
    | (inl e, cat) =>
        (failed e, log_engine conn (ReadSqlQuery query) (set_catalog conn cat w))
    | (inr df, cat) =>
        let w2 := log_fs (Mkdir output_path)
                    (log_engine conn (ReadSqlQuery query) (set_catalog conn cat w)) in
        match mkdir_error E output_path with
        | Some e => (failed e, w2)
        | None =>
            match export_writer E format output_path df with
            | None => (error_result ("不支持的输出格式: " +:+ format), w2)
            | Some (call, Some e) => (failed e, log_fs call w2)
            | Some (call, None) => (export_success E output_path format df, log_fs call w2)
            end
        end
    end.
Proof.
  intros Hl. unfold export_query_result, run_tool. unfold bind at 1. unfold get_world at 1.
  rewrite Hl. unfold bind at 1. unfold pd_read_sql_query. cbv zeta.
  destruct (read_sql_query E query (catalog_of w (connection entry))) as [[e|df] cat];
    [reflexivity|].
  unfold bind at 1. unfold path_parent_mkdir. unfold bind at 1. unfold modify at 1.
  destruct (mkdir_error E output_path) as [e|]; [reflexivity|]. cbn [check].
  unfold ret at 1. unfold export_writer, write_file, bind, modify, ret.
  destruct (String.eqb (lower format) "csv").
  { destruct (to_csv_error E output_path df); reflexivity. }
  destruct (String.eqb (lower format) "excel").
  { destruct (to_excel_error E output_path df); reflexivity. }
  destruct (String.eqb (lower format) "json").
  { destruct (to_json_error E output_path df); reflexivity. }
  reflexivity.
Qed.

(** The gate of [execute_sql] turns a text away without calling the
    engine. *)
Lemma execute_sql_turned_away (w : World) (q t : ustr) (db_name : string) (limit : Z)
    (entry : DbEntry) :
  db_connections w !! db_name = Some entry ->
  trimmed_of q t -> ~ begins_select_or_with E t ->
  engine_log (snd (execute_sql E q db_name limit w)) = engine_log w.
Proof.
  intros Hl Ht Hno. rewrite (execute_sql_rejected E w q db_name limit entry Hl);
    [reflexivity|].
  rewrite (strip_trimmed q t Ht).
  destruct (startswith_any (upper (unicode_upper E) t)
              [of_ascii "SELECT"; of_ascii "WITH"]) eqn:Hg; [|reflexivity].
  exfalso. apply Hno. now apply gate_spec.
Qed.

(** X21. [export_query_result] has no gate.  On a registered store the
    query text reaches the engine exactly as it was given -- not
    trimmed, not checked for SELECT or WITH, no LIMIT added -- and it
    reaches it once, before anything is asked of the file system; what
    the engine makes of the database is kept.  A text that [execute_sql]
    turns away without touching the engine is run by the export. *)
Theorem export_runs_the_query_as_given (w : World) (query output_path db_name format : string)
    (entry : DbEntry) :
  db_connections w !! db_name = Some entry ->
  engine_log (snd (export_query_result E query output_path db_name format w)) =
    (engine_log w ++ [(connection entry, ReadSqlQuery query)])%list /\
  catalog_of (snd (export_query_result E query output_path db_name format w))
    (connection entry)
    = snd (read_sql_query E query (catalog_of w (connection entry))) /\
  (forall (q t : ustr) (limit : Z),
      query = encode q -> trimmed_of q t -> ~ begins_select_or_with E t ->
      engine_log (snd (execute_sql E q db_name limit w)) = engine_log w) /\
  (forall e : exn,
      fst (read_sql_query E query (catalog_of w (connection entry))) = inl e ->
      fst (export_query_result E query output_path db_name format w)
        = error_result ("导出数据时出错: " +:+ exn_str e) /\
      fs_log (snd (export_query_result E query output_path db_name format w)) = fs_log w).
Proof.
  intros Hl. rewrite (export_query_result_run w query output_path db_name format entry Hl).
  cbv zeta.
  assert (Hrest : forall (q t : ustr) (limit : Z),
             query = encode q -> trimmed_of q t -> ~ begins_select_or_with E t ->
             engine_log (snd (execute_sql E q db_name limit w)) = engine_log w).
  { intros q t limit _ Ht Hno. exact (execute_sql_turned_away w q t db_name limit entry Hl Ht Hno). }
  destruct (read_sql_query E query (catalog_of w (connection entry))) as [[e|df] cat] eqn:Hq.
  - cbn [fst snd]. split; [reflexivity|]. split; [apply catalog_of_executed|].
    split; [exact Hrest|].
    intros e0 [= <-]. split; reflexivity.
  - cbn [snd fst].
    destruct (mkdir_error E output_path) as [e|];
      [|destruct (export_writer E format output_path df) as [[call [e|]]|]];
      (split; [reflexivity|]; split; [apply catalog_of_executed|];
       split; [exact Hrest | intros e0 H0; discriminate]).
Qed.

(** X22. The format is looked at last.  With a format that is, in lower
    case, none of "csv", "excel" and "json", [export_query_result] on a
    registered store still runs the query and makes the directory of the
    output path; only then does it answer that the format is not
    supported, having written no file. *)
Theorem export_checks_the_format_last (w : World) (query output_path db_name format : string)
    (entry : DbEntry) (df : DataFrame) (cat : Catalog) :
  db_connections w !! db_name = Some entry ->
  read_sql_query E query (catalog_of w (connection entry)) = (inr df, cat) ->
  mkdir_error E output_path = None ->
  lower format <> "csv" -> lower format <> "excel" -> lower format <> "json" ->
  fst (export_query_result E query output_path db_name format w)
    = error_result ("不支持的输出格式: " +:+ format) /\
  engine_log (snd (export_query_result E query output_path db_name format w)) =
    (engine_log w ++ [(connection entry, ReadSqlQuery query)])%list /\
  fs_log (snd (export_query_result E query output_path db_name format w)) =
    (fs_log w ++ [Mkdir output_path])%list.
Proof.
  intros Hl Hq Hm H1 H2 H3.
  rewrite (export_query_result_run w query output_path db_name format entry Hl).
  cbv zeta. rewrite Hq, Hm. unfold export_writer.
  apply String.eqb_neq in H1, H2, H3. rewrite H1, H2, H3.
  split; [reflexivity|]. split; reflexivity.
Qed.

(** X23. A successful export wrote the whole answer.  When
    [export_query_result] reports success, the store was registered, the
    engine answered the query as given with a frame, and the tool asked
    the file system for exactly two things: the directory of the output
    path, then one file at the output path holding that frame, written by
    the writer of the format in lower case.  The result echoes the format
    as it was given and counts the rows of that frame. *)
Theorem successful_export_wrote_the_frame (w w' : World)
    (query output_path db_name format : string) (r : pyval) :
  export_query_result E query output_path db_name format w = (r, w') ->
  is_success r ->
  exists (entry : DbEntry) (df : DataFrame) (cat : Catalog) (call : FsCall),
    db_connections w !! db_name = Some entry /\
    read_sql_query E query (catalog_of w (connection entry)) = (inr df, cat) /\
    export_writer E format output_path df = Some (call, None) /\
    writes_frame call output_path df /\
    fs_log w' = (fs_log w ++ [Mkdir output_path; call])%list /\
    r = export_success E output_path format df.
Proof.
  intros H Hs. destruct (db_connections w !! db_name) as [entry|] eqn:Hl.
  2: { rewrite (export_query_result_unknown w _ _ _ _ Hl) in H. inversion H; subst.
       now apply not_success_error in Hs. }
  rewrite (export_query_result_run w query output_path db_name format entry Hl) in H.
  cbv zeta in H.
  destruct (read_sql_query E query (catalog_of w (connection entry))) as [[e|df] cat] eqn:Hq.
  { inversion H; subst. now apply not_success_error in Hs. }
  destruct (mkdir_error E output_path) as [e|].
  { inversion H; subst. now apply not_success_error in Hs. }
  destruct (export_writer E format output_path df) as [[call [e|]]|] eqn:Hw.
  - inversion H; subst. now apply not_success_error in Hs.
  - inversion H; subst. exists entry, df, cat, call.
    split; [reflexivity|]. split; [exact Hq|]. split; [exact Hw|]. split.
    + unfold export_writer in Hw. unfold writes_frame.
      repeat match type of Hw with
             | (if ?b then _ else _) = _ => destruct b
             end; inversion Hw; auto.
    + split; [|reflexivity]. cbn [fs_log log_fs log_engine set_catalog set_databases].
      now rewrite <- List.app_assoc.
  - inversion H; subst. now apply not_success_error in Hs.
Qed.

End Exporting.

Lemma export_runs_the_query_as_given_witness :
  db_connections Demo.with_sales !! "default" = Some Demo.sales_entry /\
  engine_log (snd (export_query_result Demo.env "  DROP TABLE sales" "out.csv" "default" "csv"
                     Demo.with_sales)) =
    (engine_log Demo.with_sales
     ++ [(connection Demo.sales_entry, ReadSqlQuery "  DROP TABLE sales")])%list /\
  engine_log (snd (execute_sql Demo.env (Text.of_ascii "  DROP TABLE sales") "default" 10
                     Demo.with_sales))
    = engine_log Demo.with_sales.
Proof.
  assert (H : db_connections Demo.with_sales !! "default" = Some Demo.sales_entry)
    by (vm_compute; reflexivity).
  split; [exact H|].
  destruct (export_runs_the_query_as_given Demo.env Demo.with_sales "  DROP TABLE sales"
              "out.csv" "default" "csv" Demo.sales_entry H) as (H1 & _ & H3 & _).
  split; [exact H1|].
  apply (H3 (Text.of_ascii "  DROP TABLE sales") (Text.of_ascii "DROP TABLE sales") 10%Z).
  - reflexivity.
  - exists (Text.of_ascii "  "), []. split; [reflexivity|].
    split; [repeat constructor; apply isspace_spec; reflexivity|].
    split; [constructor|].
    split; intros c Hc; vm_compute in Hc; injection Hc as <-;
      apply isspace_false; reflexivity.
  - intros Hb. apply gate_spec in Hb. vm_compute in Hb. discriminate.
Defined.

Lemma export_checks_the_format_last_witness :
  db_connections Demo.with_sales !! "default" = Some Demo.sales_entry /\
  fst (export_query_result Demo.env "SELECT * FROM sales" "out.xml" "default" "xml"
         Demo.with_sales) = error_result "不支持的输出格式: xml" /\
  fs_log (snd (export_query_result Demo.env "SELECT * FROM sales" "out.xml" "default" "xml"
                 Demo.with_sales)) = (fs_log Demo.with_sales ++ [Mkdir "out.xml"])%list.
Proof.
  assert (H : db_connections Demo.with_sales !! "default" = Some Demo.sales_entry)
    by (vm_compute; reflexivity).
  split; [exact H|].
  destruct (export_checks_the_format_last Demo.env Demo.with_sales "SELECT * FROM sales"
              "out.xml" "default" "xml" Demo.sales_entry Demo.sales
              (catalog_of Demo.with_sales (connection Demo.sales_entry)) H)
    as (H1 & _ & H3); try (vm_compute; reflexivity); try discriminate.
  split; [exact H1 | exact H3].
Defined.

Lemma successful_export_wrote_the_frame_witness :
  Spec.is_success (fst (export_query_result Demo.env "SELECT * FROM sales" "out.json" "default"
                          "JSON" Demo.with_sales)) /\
  exists df : DataFrame,
    fs_log (snd (export_query_result Demo.env "SELECT * FROM sales" "out.json" "default"
                   "JSON" Demo.with_sales))
    = (fs_log Demo.with_sales ++ [Mkdir "out.json"; ToJson "out.json" df])%list.
Proof.
  assert (Hs : Spec.is_success
                 (fst (export_query_result Demo.env "SELECT * FROM sales" "out.json" "default"
                         "JSON" Demo.with_sales))) by (vm_compute; reflexivity).
  split; [exact Hs|].
  destruct (successful_export_wrote_the_frame Demo.env Demo.with_sales _ "SELECT * FROM sales"
              "out.json" "default" "JSON" _ (surjective_pairing _) Hs)
    as (entry & df & cat & call & _ & _ & Hw & _ & Hfs & _).
  exists df. rewrite Hfs.
  assert (Hc : call = ToJson "out.json" df) by (vm_compute in Hw; now inversion Hw).
  now rewrite Hc.
Defined.

(* ===================================================================== *)
(** ** The prompt: [analyze_data_file]                                    *)
(* ===================================================================== *)

Section PromptFacts.

Import Spec.
Context (E : Env) (P : Python).

(** [import_file] answers with its success value for the resolved table
    name, or with an error result. *)
Lemma import_file_outcome (w : World) (file_path : string) (table_name : option string)
    (db_name : string) (sheet_name encoding : option string) :
  (exists msg : string,
      fst (import_file E file_path table_name db_name sheet_name encoding w)
      = error_result msg) \/
  (exists df : DataFrame,
      fst (import_file E file_path table_name db_name sheet_name encoding w)
      = import_success E file_path db_name (resolve_table_name E file_path table_name) df).
Proof.
  destruct (path_exists E file_path) eqn:Hp.
  2: { left. rewrite (import_file_missing E _ _ _ _ _ _ Hp). now eexists. }
  destruct (import_load_stateless E file_path (Text.lower (path_suffix E file_path))
              sheet_name encoding) as [l Hl].
  destruct (import_file E file_path table_name db_name sheet_name encoding w)
    as [r w1] eqn:H. cbn [fst].
  unfold import_file, run_tool in H. rewrite Hp in H. cbn [negb] in H.
  fold (resolve_table_name E file_path table_name) in H.
  unfold bind at 1 in H. rewrite Hl in H.
  destruct l as [e|[early|df]].
  - inversion H; subst. left. now eexists.
  - destruct (import_load_early E _ _ _ _ w _ w (Hl w)) as [msg ->].
    unfold ret in H. inversion H; subst. left. now eexists.
  - unfold bind at 1 in H.
    destruct (get_or_create_db E db_name w) as [[e|conn] wg] eqn:Hg.
    + inversion H; subst. left. now eexists.
    + destruct (get_or_create_db_returns E w wg db_name conn Hg) as (entry & He & <-).
      unfold bind at 1 in H. unfold df_to_sql in H.
      destruct (to_sql_error E (resolve_table_name E file_path table_name) df) as [e|] eqn:Ht.
      * inversion H; subst. left. now eexists.
      * unfold bind at 1 in H. unfold register_table, bind, get_world in H.
        cbn [db_connections set_catalog set_databases log_engine] in H.
        rewrite He in H. unfold modify, ret in H. inversion H; subst.
        right. now exists df.
Qed.

(** [generate_analysis_report] answers with a report on the frame it
    read, or with an error result. *)
Lemma generate_analysis_report_outcome (w : World)
    (table_name db_name analysis_type : string) :
  (exists msg : string,
      fst (generate_analysis_report E table_name db_name analysis_type w)
      = error_result msg) \/
  (exists report : list (string * pyval),
      fst (generate_analysis_report E table_name db_name analysis_type w)
      = PDict [("status", PStr "success"); ("database", PStr db_name);
               ("report", PDict report)]).
Proof.
  destruct (db_connections w !! db_name) as [entry|] eqn:Hl.
  - rewrite (generate_analysis_report_run E w table_name db_name analysis_type entry Hl).
    cbv zeta.
    destruct (read_sql_query E ("SELECT * FROM " +:+ table_name)
                (catalog_of w (connection entry))) as [[e|df] cat]; cbn [fst].
    + left. now eexists.
    + destruct (build_report E table_name analysis_type df) as [e|report].
      * left. now eexists.
      * right. now exists report.
  - rewrite (generate_analysis_report_unknown E w table_name db_name analysis_type Hl).
    left. now eexists.
Qed.

(** The prompt after an import that failed with the message [msg]. *)
Lemma analyze_data_file_import_failed (w : World) (file_path analysis_goals msg : string) :
  fst (import_file E file_path None "default" None None w) = error_result msg ->
  analyze_data_file E P file_path analysis_goals w =
    ([UserMessage ("分析文件 " +:+ file_path);
      AssistantMessage ("文件导入失败: " +:+ msg)],
     snd (import_file E file_path None "default" None None w)).
Proof.
  intros H. unfold analyze_data_file. unfold bind at 1. unfold call_tool at 1.
  destruct (import_file E file_path None "default" None None w) as [r w1].
  cbn [fst snd] in *. subst r. reflexivity.
Qed.

(** The prompt after an import that succeeded with the frame [df]. *)
Lemma analyze_data_file_imported (w : World) (file_path analysis_goals : string)
    (df : DataFrame) :
  fst (import_file E file_path None "default" None None w)
    = import_success E file_path "default" (resolve_table_name E file_path None) df ->
  analyze_data_file E P file_path analysis_goals w =
    let name := resolve_table_name E file_path None in
    let w1 := snd (import_file E file_path None "default" None None w) in
    let report_result := fst (generate_analysis_report E name "default" "correlation" w1) in
    let w2 := snd (generate_analysis_report E name "default" "correlation" w1) in
    let done := fun analysis_text : string =>
      [UserMessage ("请分析数据文件: " +:+ file_path +:+ "，分析目标: " +:+ analysis_goals);
       AssistantMessage analysis_text;
       AssistantMessage closing_message] in
    let failed := fun e : exn =>
      [UserMessage ("分析文件 " +:+ file_path +:+ " 时出错");
       AssistantMessage ("分析文件时发生错误: " +:+ exn_str e +:+ LF +:+ LF
                         +:+ "请检查文件路径是否正确，以及文件格式是否支持。")] in
    match py_getitem P report_result "status" with
    | inl e => (failed e, w2)
    | inr report_status =>
        if str_equal report_status "error" then (done no_report_text, w2)
        else
          match py_getitem P report_result "report" with
          | inl e => (failed e, w2)
          | inr report =>
              match report_text E P file_path (PStr name) (import_statistics df) report with
              | inl e => (failed e, w2)
              | inr analysis_text => (done analysis_text, w2)
              end
          end
    end.
Proof.
  intros H. unfold analyze_data_file. unfold bind at 1. unfold call_tool at 1.
  destruct (import_file E file_path None "default" None None w) as [r w1].
  cbn [fst snd] in *. subst r. cbv zeta.
  unfold import_success at 1. unfold bind at 1. unfold lift at 1.
  cbn [py_getitem dict_get String.eqb Ascii.eqb Bool.eqb str_equal].
  unfold bind at 1. unfold import_success at 1. unfold lift at 1.
  cbn [py_getitem dict_get String.eqb Ascii.eqb Bool.eqb].
  unfold bind at 1. unfold import_success at 1. unfold lift at 1.
  cbn [py_getitem dict_get String.eqb Ascii.eqb Bool.eqb].
  unfold bind at 1. unfold call_tool at 1.
  change (fstr E (PStr (resolve_table_name E file_path None)))
    with (resolve_table_name E file_path None).
  destruct (generate_analysis_report E (resolve_table_name E file_path None) "default"
              "correlation" w1) as [rr w2]. cbn [fst snd].
  unfold bind at 1. unfold lift at 1.
  destruct (py_getitem P rr "status") as [e|report_status]; [reflexivity|].
  unfold bind at 1.
  destruct (str_equal report_status "error"); [reflexivity|].
  unfold bind at 1. unfold lift at 1.
  destruct (py_getitem P rr "report") as [e|report]; [reflexivity|].
  unfold lift.
  destruct (report_text E P file_path (PStr (resolve_table_name E file_path None))
              (import_statistics df) report) as [e|text]; reflexivity.
Qed.

(** X24. The prompt after a failed import.  When the import of the file
    into the store "default" does not succeed, [analyze_data_file]
    answers with two messages, the second carrying the message of the
    import, and stops there: the state is the one the import left, no
    report was asked for. *)
Theorem prompt_stops_at_a_failed_import (w : World) (file_path analysis_goals : string) :
  ~ is_success (fst (import_file E file_path None "default" None None w)) ->
  exists msg : string,
    field (fst (import_file E file_path None "default" None None w)) "message"
      = Some (PStr msg) /\
    analyze_data_file E P file_path analysis_goals w =
      ([UserMessage ("分析文件 " +:+ file_path);
        AssistantMessage ("文件导入失败: " +:+ msg)],
       snd (import_file E file_path None "default" None None w)).
Proof.
  intros Hns.
  destruct (import_file_outcome w file_path None "default" None None) as [[msg Hr]|[df Hr]].
  - exists msg. split; [now rewrite Hr|].
    now apply analyze_data_file_import_failed.
  - exfalso. apply Hns. now rewrite Hr.
Qed.

(** X25. The prompt changes the store.  When the import succeeds,
    [analyze_data_file] leaves the state that [import_file] into the
    store "default", under the table name derived from the file name,
    followed by [generate_analysis_report] of that table with the type
    "correlation" leaves -- whatever the analysis goals, whatever the
    number formats, and whether or not a text could be made.  The goals
    appear in the first message only; when the report succeeds the second
    message is the text built from it, or the prompt answers with the two
    messages of its own failure when building the text raises. *)
Theorem prompt_imports_and_reports (w : World) (file_path analysis_goals : string) :
  is_success (fst (import_file E file_path None "default" None None w)) ->
  exists df : DataFrame,
    fst (import_file E file_path None "default" None None w)
      = import_success E file_path "default" (resolve_table_name E file_path None) df /\
    snd (analyze_data_file E P file_path analysis_goals w)
      = snd (generate_analysis_report E (resolve_table_name E file_path None) "default"
               "correlation" (snd (import_file E file_path None "default" None None w))) /\
    forall report : list (string * pyval),
      fst (generate_analysis_report E (resolve_table_name E file_path None) "default"
             "correlation" (snd (import_file E file_path None "default" None None w)))
        = PDict [("status", PStr "success"); ("database", PStr "default");
                 ("report", PDict report)] ->
      fst (analyze_data_file E P file_path analysis_goals w) =
        match report_text E P file_path (PStr (resolve_table_name E file_path None))
                (import_statistics df) (PDict report) with
        | inr analysis_text =>
            [UserMessage ("请分析数据文件: " +:+ file_path +:+ "，分析目标: "
                          +:+ analysis_goals);
             AssistantMessage analysis_text;
             AssistantMessage closing_message]
        | inl e =>
            [UserMessage ("分析文件 " +:+ file_path +:+ " 时出错");
             AssistantMessage ("分析文件时发生错误: " +:+ exn_str e +:+ LF +:+ LF
                               +:+ "请检查文件路径是否正确，以及文件格式是否支持。")]
        end.
Proof.
  intros Hs.
  destruct (import_file_outcome w file_path None "default" None None) as [[msg Hr]|[df Hr]].
  { rewrite Hr in Hs. now apply not_success_error in Hs. }
  exists df. split; [exact Hr|].
  rewrite (analyze_data_file_imported w file_path analysis_goals df Hr). cbv zeta.
  set (name := resolve_table_name E file_path None).
  set (w1 := snd (import_file E file_path None "default" None None w)).
  destruct (generate_analysis_report_outcome w1 name "default" "correlation")
    as [[msg Hrep]|[report0 Hrep]].
  - rewrite Hrep. cbn [py_getitem error_result dict_get String.eqb Ascii.eqb Bool.eqb
      str_equal snd]. split; [reflexivity|]. intros report H'. discriminate.
  - rewrite Hrep. cbn [py_getitem dict_get String.eqb Ascii.eqb Bool.eqb str_equal].
    split.
    + destruct (report_text E P file_path (PStr name) (import_statistics df)
                  (PDict report0)); reflexivity.
    + intros report H'. injection H' as Hb. rewrite <- Hb.
      destruct (report_text E P file_path (PStr name) (import_statistics df)
                  (PDict report0)); reflexivity.
Qed.

(** X26. The prompt announces an analysis it did not make.  When the
    import succeeds and the report on the imported table does not, the
    prompt still answers with its three messages: the text of the second
    says that no detailed report could be made, and the third says that
    the data was imported and analysed. *)
Theorem prompt_announces_success_without_report (w : World)
    (file_path analysis_goals : string) :
  is_success (fst (import_file E file_path None "default" None None w)) ->
  ~ is_success
      (fst (generate_analysis_report E (resolve_table_name E file_path None) "default"
              "correlation" (snd (import_file E file_path None "default" None None w)))) ->
  fst (analyze_data_file E P file_path analysis_goals w) =
    [UserMessage ("请分析数据文件: " +:+ file_path +:+ "，分析目标: " +:+ analysis_goals);
     AssistantMessage no_report_text;
     AssistantMessage closing_message].
Proof.
  intros Hs Hn.
  destruct (import_file_outcome w file_path None "default" None None) as [[msg Hr]|[df Hr]].
  { rewrite Hr in Hs. now apply not_success_error in Hs. }
  rewrite (analyze_data_file_imported w file_path analysis_goals df Hr). cbv zeta.
  destruct (generate_analysis_report_outcome
              (snd (import_file E file_path None "default" None None w))
              (resolve_table_name E file_path None) "default" "correlation")
    as [[msg Hrep]|[df0 Hrep]].
  - rewrite Hrep. reflexivity.
  - exfalso. apply Hn. rewrite Hrep. reflexivity.
Qed.

End PromptFacts.

Lemma prompt_stops_at_a_failed_import_witness :
  ~ Spec.is_success (fst (import_file Demo.env "legacy.tsv" None "default" None None
                            Demo.with_sales)) /\
  snd (analyze_data_file Demo.env demo_python "legacy.tsv" "基础分析" Demo.with_sales)
  = snd (import_file Demo.env "legacy.tsv" None "default" None None Demo.with_sales).
Proof.
  assert (H : ~ Spec.is_success
                (fst (import_file Demo.env "legacy.tsv" None "default" None None
                        Demo.with_sales))) by (vm_compute; discriminate).
  split; [exact H|].
  destruct (prompt_stops_at_a_failed_import Demo.env demo_python Demo.with_sales "legacy.tsv"
              "基础分析" H) as (msg & _ & Hrun).
  now rewrite Hrun.
Defined.

Lemma prompt_imports_and_reports_witness :
  Spec.is_success (fst (import_file Demo.env "sales.csv" None "default" None None Demo.start)) /\
  snd (analyze_data_file Demo.env demo_python "sales.csv" "基础分析" Demo.start)
  = snd (generate_analysis_report Demo.env "sales" "default" "correlation" Demo.with_sales).
Proof.
  assert (H : Spec.is_success
                (fst (import_file Demo.env "sales.csv" None "default" None None Demo.start)))
    by (vm_compute; reflexivity).
  split; [exact H|].
  destruct (prompt_imports_and_reports Demo.env demo_python Demo.start "sales.csv" "基础分析" H)
    as (df & _ & Hstate & _).
  exact Hstate.
Defined.

Lemma prompt_announces_success_without_report_witness :
  Spec.is_success (fst (import_file Demo.env "2024_sales.csv" None "default" None None
                          Demo.start)) /\
  ~ Spec.is_success
      (fst (generate_analysis_report Demo.env
              (resolve_table_name Demo.env "2024_sales.csv" None) "default" "correlation"
              (snd (import_file Demo.env "2024_sales.csv" None "default" None None
                      Demo.start)))) /\
  fst (analyze_data_file Demo.env demo_python "2024_sales.csv" "基础分析" Demo.start) =
    [UserMessage "请分析数据文件: 2024_sales.csv，分析目标: 基础分析";
     AssistantMessage no_report_text;
     AssistantMessage closing_message].
Proof.
  assert (H1 : Spec.is_success
                 (fst (import_file Demo.env "2024_sales.csv" None "default" None None
                         Demo.start))) by (vm_compute; reflexivity).
  assert (H2 : ~ Spec.is_success
                 (fst (generate_analysis_report Demo.env
                         (resolve_table_name Demo.env "2024_sales.csv" None) "default"
                         "correlation"
                         (snd (import_file Demo.env "2024_sales.csv" None "default" None None
                                 Demo.start))))) by (vm_compute; discriminate).
  split; [exact H1|]. split; [exact H2|].
  exact (prompt_announces_success_without_report Demo.env demo_python Demo.start
           "2024_sales.csv" "基础分析" H1 H2).
Defined.

(* ===================================================================== *)
(** ** The options of [import_file], and a store that cannot be opened    *)
(* ===================================================================== *)

Section ImportOptions.

Import Spec.
Context (E : Env).




Lemma import_file_same_load (file_path : string) (table_name : option string)
    (db_name : string) (sheet_name encoding sheet_name' encoding' : option string) :
  import_load E file_path (Text.lower (path_suffix E file_path)) sheet_name encoding
  = import_load E file_path (Text.lower (path_suffix E file_path)) sheet_name' encoding' ->
  import_file E file_path table_name db_name sheet_name encoding
  = import_file E file_path table_name db_name sheet_name' encoding'.
Proof. intros H. unfold import_file. now rewrite H. Qed.

(** X28. Each option of [import_file] applies to its own formats.  The
    sheet name plays a part for [.xlsx] and [.xls] files only, the
    encoding for [.csv] and [.tsv] files only; for any other file the
    tool does the same whatever the option.  An option given as the
    empty text is taken as absent. *)
Theorem import_options_apply_by_format (file_path : string) (table_name : option string)
    (db_name : string) (sheet_name encoding : option string) :
  (Text.lower (path_suffix E file_path) <> ".xlsx" ->
   Text.lower (path_suffix E file_path) <> ".xls" ->
   forall other : option string,
     import_file E file_path table_name db_name sheet_name encoding
     = import_file E file_path table_name db_name other encoding) /\
  (Text.lower (path_suffix E file_path) <> ".csv" ->
   Text.lower (path_suffix E file_path) <> ".tsv" ->
   forall other : option string,
     import_file E file_path table_name db_name sheet_name encoding
     = import_file E file_path table_name db_name sheet_name other) /\
  import_file E file_path table_name db_name (Some "") encoding
    = import_file E file_path table_name db_name None encoding /\
  import_file E file_path table_name db_name sheet_name (Some "")
    = import_file E file_path table_name db_name sheet_name None /\
  import_file E file_path (Some "") db_name sheet_name encoding
    = import_file E file_path None db_name sheet_name encoding.
Proof.
  split; [|split; [|split; [|split]]].
  - intros H1 H2 other. apply import_file_same_load. unfold import_load.
    apply String.eqb_neq in H1, H2. rewrite H1, H2. reflexivity.
  - intros H1 H2 other. apply import_file_same_load. unfold import_load.
    apply String.eqb_neq in H1, H2. rewrite H1, H2. reflexivity.
  - apply import_file_same_load. reflexivity.
  - apply import_file_same_load. reflexivity.
  - reflexivity.
Qed.

(** X29. A store that cannot be opened is not registered.  When
    [sqlite3.connect] refuses the file of a store that is not yet
    registered, [get_or_create_db] raises before anything is recorded:
    an import into that store answers with the error of the connection,
    the registry, the databases and the engine are as they were, and only
    the identifier is spent, so that a later attempt builds its path from
    the next one. *)
Theorem failed_connect_registers_nothing (w : World) (file_path : string)
    (table_name : option string) (db_name : string) (sheet_name encoding : option string)
    (df : DataFrame) (e : exn) :
  db_connections w !! db_name = None ->
  connect_error E (db_path_for E db_name w) = Some e ->
  path_exists E file_path = true ->
  (forall w0 : World,
      import_load E file_path (Text.lower (path_suffix E file_path)) sheet_name encoding w0
      = (inr (inr df), w0)) ->
  fst (import_file E file_path table_name db_name sheet_name encoding w)
    = error_result ("导入文件时出错: " +:+ exn_str e) /\
  db_connections (snd (import_file E file_path table_name db_name sheet_name encoding w))
    = db_connections w /\
  databases (snd (import_file E file_path table_name db_name sheet_name encoding w))
    = databases w /\
  engine_log (snd (import_file E file_path table_name db_name sheet_name encoding w))
    = engine_log w /\
  db_path_for E db_name
    (snd (import_file E file_path table_name db_name sheet_name encoding w))
    = store_path E db_name (S (uuids_drawn w)).
Proof.
  intros Hl Hc Hp Hload.
  assert (Hg : get_or_create_db E db_name w =
               (inl e, {| db_connections := db_connections w; databases := databases w;
                          next_conn := next_conn w; uuids_drawn := S (uuids_drawn w);
                          engine_log := engine_log w; fs_log := fs_log w |})).
  { unfold get_or_create_db, bind, get_world, uuid4, sqlite3_connect, bind.
    rewrite Hl. cbn [uuids_drawn]. fold (db_path_for E db_name w).
    rewrite Hc. reflexivity. }
  assert (Hrun : import_file E file_path table_name db_name sheet_name encoding w =
                 (error_result ("导入文件时出错: " +:+ exn_str e),
                  {| db_connections := db_connections w; databases := databases w;
                     next_conn := next_conn w; uuids_drawn := S (uuids_drawn w);
                     engine_log := engine_log w; fs_log := fs_log w |})).
  { unfold import_file, run_tool. rewrite Hp. cbn [negb].
    unfold bind at 1. rewrite Hload. unfold bind at 1. rewrite Hg. reflexivity. }
  rewrite Hrun. cbn [fst snd]. repeat split.
Qed.

End ImportOptions.

Lemma import_options_apply_by_format_witness :
  Text.lower (path_suffix Demo.env "sales.csv") <> ".xlsx" /\
  Text.lower (path_suffix Demo.env "sales.csv") <> ".xls" /\
  import_file Demo.env "sales.csv" None "default" None None
  = import_file Demo.env "sales.csv" None "default" (Some "Sheet2") None.
Proof.
  assert (H1 : Text.lower (path_suffix Demo.env "sales.csv") <> ".xlsx")
    by (vm_compute; discriminate).
  assert (H2 : Text.lower (path_suffix Demo.env "sales.csv") <> ".xls")
    by (vm_compute; discriminate).
  split; [exact H1|]. split; [exact H2|].
  exact (proj1 (import_options_apply_by_format Demo.env "sales.csv" None "default" None None)
           H1 H2 (Some "Sheet2")).
Defined.

Lemma failed_connect_registers_nothing_witness :
  db_connections Demo.start !! "default" = None /\
  connect_error full_disk_env (db_path_for full_disk_env "default" Demo.start)
    = Some disk_full /\
  path_exists full_disk_env "sales.csv" = true /\
  fst (import_file full_disk_env "sales.csv" None "default" None None Demo.start)
    = error_result "导入文件时出错: unable to open database file" /\
  db_connections (snd (import_file full_disk_env "sales.csv" None "default" None None
                         Demo.start)) = db_connections Demo.start.
Proof.
  assert (H1 : db_connections Demo.start !! "default" = None) by reflexivity.
  assert (H2 : connect_error full_disk_env (db_path_for full_disk_env "default" Demo.start)
               = Some disk_full) by reflexivity.
  assert (H3 : path_exists full_disk_env "sales.csv" = true) by reflexivity.
  assert (H4 : forall w0 : World,
             import_load full_disk_env "sales.csv"
               (Text.lower (path_suffix full_disk_env "sales.csv")) None None w0
             = (inr (inr Demo.sales), w0)) by (intros w0; reflexivity).
  destruct (failed_connect_registers_nothing full_disk_env Demo.start "sales.csv" None
              "default" None None Demo.sales disk_full H1 H2 H3 H4) as (Hr & Hreg & _).
  split; [exact H1|]. split; [exact H2|]. split; [exact H3|].
  split; [exact Hr | exact Hreg].
Defined.

Lemma derived_table_name_is_normalised_witness :
  truthy_str None = false /\
  String.length (resolve_table_name Demo.env "2024_sales.csv" None)
  = String.length (path_stem Demo.env "2024_sales.csv").
Proof.
  split; [reflexivity|].
  exact (proj2 (proj1 (derived_table_name_is_normalised Demo.env "2024_sales.csv" None)
                  eq_refl)).
Defined.

